(** * PC build recommendation engine: a shallow embedding of [backend.py]

    The development follows the [Backend] class of the repository:
    - the catalog ([parts_data]) and the normalization ranges,
    - the weighted selector [_select_best_part_by_score],
    - the three-tier assembler [recommend_builds_rule_based],
    - the scenario assembler [generate_smart_recommendation_rule_based],
    - the sampling assembler [generate_ml_based_recommendations] with
      [predict_build_score].

    Numbers (Python floats) are modelled as exact rationals [Q]; Python
    [int] arguments are [Z].  The tiered assembler, whose results depend on
    how the running cost is rounded, computes with the numbers numpy hands
    out: 64-bit integers that wrap around and doubles rounded to nearest.
    A pandas DataFrame is the list of its rows in index order; a Python dict
    is an association list in insertion order.  Exceptions are explicit: a
    small error monad carries [KeyError] and [ValueError]. *)

From Stdlib Require Import QArith Qround Qabs Lqa ZArith Lia List String Bool.
From Stdlib Require Import Permutation.
Import ListNotations.
Open Scope string_scope.
Open Scope Q_scope.

(** ** Python dicts as association lists *)

Fixpoint dict_get {V : Type} (d : list (string * V)) (k : string) : option V :=
  match d with
  | [] => None
  | (k', v) :: rest => if String.eqb k' k then Some v else dict_get rest k
  end.

(** [d[k] = v]: overwrite in place when the key exists, append otherwise. *)
Fixpoint dict_set {V : Type} (d : list (string * V)) (k : string) (v : V)
  : list (string * V) :=
  match d with
  | [] => [(k, v)]
  | (k', v') :: rest =>
      if String.eqb k' k then (k', v) :: rest else (k', v') :: dict_set rest k v
  end.

(** [k in d] *)
Definition dict_mem {V : Type} (d : list (string * V)) (k : string) : bool :=
  match dict_get d k with Some _ => true | None => false end.

(** ** Exceptions *)

Inductive exn : Type :=
| KeyError (key : string)
| ValueError (msg : string).

Inductive result (A : Type) : Type :=
| Ok (a : A)
| Raise (e : exn).
Arguments Ok {A} a.
Arguments Raise {A} e.

Definition bind {A B : Type} (m : result A) (f : A -> result B) : result B :=
  match m with
  | Ok a => f a
  | Raise e => Raise e
  end.

Notation "'do' x <- m ; k" := (bind m (fun x => k))
  (at level 10, x name, m at level 100, k at level 200).

Fixpoint mapM {A B : Type} (f : A -> result B) (l : list A) : result (list B) :=
  match l with
  | [] => Ok []
  | x :: t => do y <- f x; do ys <- mapM f t; Ok (y :: ys)
  end.

(** ** Comparisons on rationals *)

Definition Qltb (x y : Q) : bool := negb (Qle_bool y x).

(** ** Part records and tables *)

(** A cell of a DataFrame: a number, a string, or a missing value. *)
Inductive cell : Type :=
| CNum (q : Q)
| CStr (s : string)
| CNaN.

(** A row.  [_load_all_parts] coerces the price column to numbers and drops
    the rows whose price is missing, so the price is a number in every row;
    every other column (name, image, socket, speed, ...) is in [cols]. *)
Record Part : Type := mkPart {
  price : Q;
  cols : list (string * cell)
}.

Definition DataFrame : Type := list Part.

(** [part.get(k)] / [part_dict.get(k)] *)
Definition part_get (p : Part) (k : string) : option cell :=
  if String.eqb k "price" then Some (CNum (price p)) else dict_get (cols p) k.

(** [part_dict[k]] *)
Definition part_item (p : Part) (k : string) : result cell :=
  match part_get p k with
  | Some c => Ok c
  | None => Raise (KeyError k)
  end.

(** [df.empty] *)
Definition empty {A : Type} (df : list A) : bool :=
  match df with [] => true | _ :: _ => false end.

(** [df[df['price'] <= bound]] *)
Definition price_le (bound : Q) (df : DataFrame) : DataFrame :=
  filter (fun p => Qle_bool (price p) bound) df.

(** [df.sort_values(by='price')], as a stable insertion sort.  (numpy's
    default sort may order rows of equal price differently; nothing below
    depends on the order among equal prices.) *)
Fixpoint insert_by_price (p : Part) (l : DataFrame) : DataFrame :=
  match l with
  | [] => [p]
  | y :: t => if Qle_bool (price p) (price y) then p :: y :: t
              else y :: insert_by_price p t
  end.

Definition sort_values_price (df : DataFrame) : DataFrame :=
  fold_right insert_by_price [] df.

(** [df.head(1)] *)
Definition head1 (df : DataFrame) : DataFrame := firstn 1 df.

(** Elementwise [==] of pandas on two cells: a missing value equals nothing. *)
Definition cell_eqb (a b : cell) : bool :=
  match a, b with
  | CNum x, CNum y => Qeq_bool x y
  | CStr s, CStr t => String.eqb s t
  | _, _ => false
  end.

(** The loader keeps each table sorted by ascending price. *)
Fixpoint price_sorted (df : DataFrame) : Prop :=
  match df with
  | [] => True
  | p :: t => (forall q, In q t -> price p <= price q) /\ price_sorted t
  end.

(** The catalog [self.parts_data]: part type -> table, in loading order. *)
Definition Catalog : Type := list (string * DataFrame).

(** [self.normalization_ranges]: "<part_type>_<feature>" -> (min, max). *)
Definition Ranges : Type := list (string * (Q * Q)).

Definition PART_FILES : list string :=
  ["CPU"; "GPU"; "Motherboard"; "RAM"; "Storage"; "PSU"; "Case"; "Cooler"].

(** ** Weighted selector *)

(** Lines 607-620: the rescaled value of a feature. *)
Definition normalize (normalization_ranges : Ranges)
    (part_type feature : string) (val : Q) : Q :=
  match dict_get normalization_ranges (part_type ++ "_" ++ feature) with
  | Some (min_val, max_val) =>
      if Qltb 0 (max_val - min_val)
      then (val - min_val) / (max_val - min_val)
      else 0.5
  | None => val
  end.

(** Lines 599-622: the inner loop over [part_weights.items()]. *)
Definition part_score (normalization_ranges : Ranges) (part_type : string)
    (part_weights : list (string * Q)) (part : Part) : Q :=
  fold_left
    (fun score fw =>
       let '(feature, weight) := fw in
       match part_get part feature with
       | Some (CNum val) =>
           score + normalize normalization_ranges part_type feature val * weight
       | _ => score
       end)
    part_weights 0.

(** [Series.idxmax()]: position of the first maximum. *)
Fixpoint idxmax_from (best_i : nat) (best : Q) (i : nat) (l : list Q) : nat :=
  match l with
  | [] => best_i
  | x :: t => if Qltb best x then idxmax_from i x (S i) t
              else idxmax_from best_i best (S i) t
  end.

Definition idxmax (l : list Q) : nat :=
  match l with
  | [] => 0%nat
  | x :: t => idxmax_from 0 x 1 t
  end.

(** [parts_df.loc[:, 'score'] = scores] *)
Definition set_score (p : Part) (s : Q) : Part :=
  mkPart (price p) (dict_set (cols p) "score" (CNum s)).

Definition set_score_column (parts_df : DataFrame) (scores : list Q) : DataFrame :=
  map (fun ps => set_score (fst ps) (snd ps)) (combine parts_df scores).

Definition _select_best_part_by_score (parts_df : DataFrame)
    (part_weights : list (string * Q)) (normalization_ranges : Ranges)
    (part_type : string) : option Part :=
  if empty parts_df then None
  else
    let scores := map (part_score normalization_ranges part_type part_weights) parts_df in
    match scores with
    | _ :: _ => nth_error (set_score_column parts_df scores) (idxmax scores)
    | [] => hd_error (sort_values_price parts_df)
    end.

(** ** Numbers of the tiered assembler *)

(** [recommend_builds_rule_based] adds and subtracts the prices as a row
    ([iloc]) hands them out: a [numpy.int64] when pandas read the price
    column as whole numbers (dtype int64), a [numpy.float64] otherwise.  A
    DataFrame of this development is the list of its rows, so the dtype of
    each table's price column is given beside the catalog. *)
Inductive dtype : Type := int64 | float64.

(** A number: a Python [int] or [numpy.int64] of at most 64 bits, or a
    double ([float], [numpy.float64]) given by its exact value.
    Infinities, NaN and results beyond the range of a double are not
    covered. *)
Inductive number : Type :=
| Int (z : Z)
| Float (x : Q).

Definition num_val (n : number) : Q :=
  match n with
  | Int z => inject_Z z
  | Float x => x
  end.

(** [2 ** e] *)
Definition pow2 (e : Z) : Q :=
  if (0 <=? e)%Z then inject_Z (2 ^ e) else / inject_Z (2 ^ (- e)).

(** For [0 < x]: the exponent [e] with [2 ** e <= x < 2 ** (e + 1)]. *)
Definition ilog2 (x : Q) : Z :=
  let e0 := (Z.log2 (Qnum x) - Z.log2 (Zpos (Qden x)))%Z in
  if Qle_bool (pow2 e0) x then e0 else (e0 - 1)%Z.

(** The nearest integer, a tie going to the even one. *)
Definition round_half_even (x : Q) : Z :=
  let f := Qfloor x in
  match Qcompare (x - inject_Z f) (1 # 2) with
  | Lt => f
  | Gt => (f + 1)%Z
  | Eq => if Z.even f then f else (f + 1)%Z
  end.

(** Rounding to a double (IEEE 754 binary64, round to nearest, ties to
    even): 53 significant bits, the last one no finer than [2 ** -1074]. *)
Definition to_float64 (x : Q) : Q :=
  if Qeq_bool x 0 then 0
  else
    let e := Z.max (ilog2 (Qabs x) - 52) (-1074) in
    Qred (inject_Z (round_half_even (x / pow2 e)) * pow2 e).

(** Overflow of [numpy.int64] arithmetic wraps around. *)
Definition wrap_int64 (z : Z) : Z := ((z + 2 ^ 63) mod 2 ^ 64 - 2 ^ 63)%Z.

(** The conversion of an operand to a double when the other one is a
    double. *)
Definition as_float (n : number) : Q :=
  match n with
  | Int z => to_float64 (inject_Z z)
  | Float x => x
  end.

(** [a + b] *)
Definition num_add (a b : number) : number :=
  match a, b with
  | Int x, Int y => Int (wrap_int64 (x + y))
  | _, _ => Float (to_float64 (as_float a + as_float b))
  end.

(** [a - b] *)
Definition num_sub (a b : number) : number :=
  match a, b with
  | Int x, Int y => Int (wrap_int64 (x - y))
  | _, _ => Float (to_float64 (as_float a - as_float b))
  end.

(** [a <= b] *)
Definition num_leb (a b : number) : bool :=
  match a, b with
  | Int x, Int y => (x <=? y)%Z
  | _, _ => Qle_bool (as_float a) (as_float b)
  end.

(** The price of a row as an element of its column: in a column of dtype
    int64 every price is a whole number. *)
Definition price_scalar (dt : dtype) (p : Part) : number :=
  match dt with
  | int64 => Int (Qfloor (price p))
  | float64 => Float (price p)
  end.

(** ** Tiered rule assembler *)

(** One entry of the list returned by [recommend_builds_rule_based]. *)
Record RuleBuild : Type := mkRuleBuild {
  rb_parts : list (string * Part);
  rb_cost : number;
  rb_remaining : number;
  rb_type : string
}.

(** The labels of the three strategies, each with the symbol and the
    blank that the source puts in front, as the source file writes them (a
    string is the list of the bytes of its UTF-8 encoding). *)
Definition build_type (i : nat) : string :=
  nth i ["üí∞ Budget Build"; "‚öñÔ∏è Balanced Build"; "üöÄ Performance Build"] "".

(** Lines 166-175: the row picked by strategy [i] from a non-empty table;
    [first] is its first row. *)
Definition select_by_strategy (i : nat) (first : Part) (affordable_parts : DataFrame)
  : Part :=
  match i with
  | O => nth 0 affordable_parts first
  | S O =>
      if (1 <? List.length affordable_parts)%nat
      then nth (List.length affordable_parts / 2)%nat affordable_parts first
      else nth 0 affordable_parts first
  | _ => last affordable_parts first
  end.

(** Lines 156-180: the loop over [self.parts_data.items()]; [None] is
    [all_parts_found = False]. *)
Fixpoint assemble_strategy (price_dtype : string -> dtype) (i : nat) (items : Catalog)
    (current_build : list (string * Part)) (current_total_cost temp_budget : number)
  : option (list (string * Part) * number) :=
  match items with
  | [] => Some (current_build, current_total_cost)
  | (part_type, df) :: rest =>
      let price_of := price_scalar (price_dtype part_type) in
      match filter (fun p => num_leb (price_of p) temp_budget) df with
      | [] => None
      | (first :: _) as affordable_parts =>
          let selected_part := select_by_strategy i first affordable_parts in
          assemble_strategy price_dtype i rest
            (dict_set current_build part_type selected_part)
            (num_add current_total_cost (price_of selected_part))
            (num_sub temp_budget (price_of selected_part))
      end
  end.

(** [part_files] is [self.PART_FILES], the constructor argument (by default
    the module constant [PART_FILES] with its file names). *)
Definition recommend_builds_rule_based (part_files : list (string * string))
    (price_dtype : string -> dtype) (parts_data : Catalog) (budget : number)
  : list RuleBuild :=
  if negb (forallb (dict_mem parts_data) (map fst part_files)) then []
  else
    flat_map
      (fun i =>
         match assemble_strategy price_dtype i parts_data [] (Int 0) budget with
         | Some (current_build, current_total_cost) =>
             [mkRuleBuild current_build current_total_cost
                          (num_sub budget current_total_cost) (build_type i)]
         | None => []
         end)
      (seq 0 3).

(** ** Scenario smart assembler *)

Definition Build : Type := list (string * Part).

(** [d.get(k, default)] *)
Definition get_or {V : Type} (d : list (string * V)) (k : string) (default : V) : V :=
  match dict_get d k with Some v => v | None => default end.

Definition Weights : Type := list (string * list (string * Q)).

Definition general_use_weights : Weights :=
  [("CPU", [("speed", 0.2); ("coreCount", 0.1); ("price", -0.7)]);
   ("GPU", [("price", -1.0)]);
   ("RAM", [("size", 0.3); ("price", -0.7)]);
   ("Storage", [("space", 0.2); ("price", -0.8)]);
   ("PSU", [("power", 0.1); ("price", -0.9)]);
   ("Motherboard", [("price", -1.0)]);
   ("Case", [("price", -1.0)]);
   ("Cooler", [("price", -1.0)])].

Definition feature_weights : list (string * Weights) :=
  [("Gaming",
    [("CPU", [("speed", 0.3); ("coreCount", 0.2); ("power", 0.1); ("price", -0.4)]);
     ("GPU", [("VRAM", 0.4); ("power", 0.2); ("price", -0.4)]);
     ("RAM", [("size", 0.3); ("price", -0.7)]);
     ("Storage", [("space", 0.1); ("price", -0.9)]);
     ("PSU", [("power", 0.3); ("price", -0.7)]);
     ("Motherboard", [("price", -1.0)]);
     ("Case", [("price", -1.0)]);
     ("Cooler", [("price", -1.0)])]);
   ("Workstation",
    [("CPU", [("coreCount", 0.4); ("threadCount", 0.3); ("speed", 0.2);
              ("power", 0.1); ("price", -0.5)]);
     ("GPU", [("VRAM", 0.2); ("price", -0.8)]);
     ("RAM", [("size", 0.6); ("price", -0.4)]);
     ("Storage", [("space", 0.5); ("price", -0.5)]);
     ("PSU", [("power", 0.2); ("price", -0.8)]);
     ("Motherboard", [("price", -1.0)]);
     ("Case", [("price", -1.0)]);
     ("Cooler", [("price", -1.0)])]);
   ("Content Creation",
    [("CPU", [("coreCount", 0.35); ("threadCount", 0.35); ("speed", 0.1);
              ("price", -0.4)]);
     ("GPU", [("VRAM", 0.3); ("price", -0.7)]);
     ("RAM", [("size", 0.5); ("price", -0.5)]);
     ("Storage", [("space", 0.4); ("price", -0.6)]);
     ("PSU", [("power", 0.2); ("price", -0.8)]);
     ("Motherboard", [("price", -1.0)]);
     ("Case", [("price", -1.0)]);
     ("Cooler", [("price", -1.0)])]);
   (* the source spells this table out; it is the General Use one *)
   ("Home Office", general_use_weights);
   ("General Use", general_use_weights)].

Definition general_use_allocations : list (string * Q) :=
  [("GPU", 0.1); ("RAM", 0.25); ("Storage", 0.25); ("PSU", 0.15);
   ("Case", 0.1); ("Cooler", 0.05)].

Definition budget_allocation_priority : list (string * list (string * Q)) :=
  [("Gaming", [("GPU", 0.5); ("RAM", 0.2); ("Storage", 0.15); ("PSU", 0.1);
               ("Case", 0.05); ("Cooler", 0.0)]);
   ("Workstation", [("GPU", 0.15); ("RAM", 0.3); ("Storage", 0.3); ("PSU", 0.15);
                    ("Case", 0.05); ("Cooler", 0.05)]);
   ("Content Creation", [("GPU", 0.25); ("RAM", 0.25); ("Storage", 0.25);
                         ("PSU", 0.15); ("Case", 0.05); ("Cooler", 0.05)]);
   ("Home Office", [("GPU", 0.05); ("RAM", 0.2); ("Storage", 0.2); ("PSU", 0.1);
                    ("Case", 0.1); ("Cooler", 0.05)]);
   ("General Use", general_use_allocations)].

Definition part_types_order : list string :=
  ["GPU"; "RAM"; "Storage"; "PSU"; "Case"; "Cooler"].

Definition required_parts : list string :=
  ["CPU"; "Motherboard"; "RAM"; "GPU"; "Storage"; "PSU"].

(** [df[k]]: a column; [KeyError] when a row has no such column. *)
Definition column (df : DataFrame) (k : string) : result (list cell) :=
  mapM (fun p => part_item p k) df.

(** [df[mask]] *)
Definition boolean_index (df : DataFrame) (mask : list bool) : DataFrame :=
  map fst (filter snd (combine df mask)).

(** [m1 & m2] *)
Definition mask_and (m1 m2 : list bool) : list bool :=
  map (fun ab => fst ab && snd ab) (combine m1 m2).

(** [df['price'] <= bound] *)
Definition price_mask (bound : Q) (df : DataFrame) : list bool :=
  map (fun p => Qle_bool (price p) bound) df.

(** [motherboard_df['socket'] == selected_cpu['socket']] *)
Definition socket_mask (motherboard_df : DataFrame) (selected_cpu : Part)
  : result (list bool) :=
  do sockets <- column motherboard_df "socket";
  do cpu_socket <- part_item selected_cpu "socket";
  Ok (map (fun c => cell_eqb c cpu_socket) sockets).

(** Lines 273-282: the CPU candidate table. *)
Definition cpu_candidates (cpu_df : DataFrame) (budget : Q) : DataFrame :=
  let cpu_budget_allocation := budget * 0.25 in
  let affordable_cpus := price_le cpu_budget_allocation cpu_df in
  if empty affordable_cpus && Qltb 0 budget then
    let affordable_cpus := price_le (budget * 0.4) cpu_df in
    if empty affordable_cpus && negb (empty cpu_df)
    then head1 (sort_values_price cpu_df)
    else affordable_cpus
  else affordable_cpus.

(** Lines 295-318: the motherboard candidate table; [Ok None] is
    [return None]. *)
Definition motherboard_candidates (motherboard_df : DataFrame)
    (selected_cpu : Part) (remaining_budget : Q) : result (option DataFrame) :=
  let motherboard_budget_allocation := remaining_budget * 0.25 in
  do same_socket <- socket_mask motherboard_df selected_cpu;
  let compatible_motherboards :=
    boolean_index motherboard_df
      (mask_and same_socket (price_mask motherboard_budget_allocation motherboard_df)) in
  if empty compatible_motherboards && Qltb 0 remaining_budget then
    do same_socket <- socket_mask motherboard_df selected_cpu;
    let compatible_motherboards :=
      boolean_index motherboard_df
        (mask_and same_socket (price_mask (remaining_budget * 0.4) motherboard_df)) in
    if empty compatible_motherboards && negb (empty motherboard_df) then
      do same_socket <- socket_mask motherboard_df selected_cpu;
      let compatible_motherboards :=
        head1 (sort_values_price (boolean_index motherboard_df same_socket)) in
      if negb (empty compatible_motherboards)
      then Ok (Some compatible_motherboards)
      else Ok None
    else if empty compatible_motherboards then Ok None
         else Ok (Some compatible_motherboards)
  else if empty compatible_motherboards then Ok None
       else Ok (Some compatible_motherboards).

(** The state of the loop over [part_types_order]:
    [(recommended_build, current_cost, remaining_budget)]. *)
Definition SmartState : Type := (Build * Q * Q)%type.

(** Lines 346-380: one iteration of the loop; [None] is [return None]. *)
Definition select_remaining_part (parts_data : Catalog) (weights : Weights)
    (normalization_ranges : Ranges) (current_allocations : list (string * Q))
    (budget : Q) (st : SmartState) (part_type : string) : option SmartState :=
  let '(recommended_build, current_cost, remaining_budget) := st in
  match dict_get parts_data part_type with
  | Some df =>
      let allocated_part_budget :=
        remaining_budget * get_or current_allocations part_type 0.1 in
      let affordable_parts := price_le allocated_part_budget df in
      (* lines 354-365: the retries; the second component is the
         [selected_part] assigned at line 362 *)
      let retried : option (DataFrame * option Part) :=
        if empty affordable_parts then
          let affordable_parts := price_le remaining_budget df in
          if empty affordable_parts then
            if negb (empty df) then Some (affordable_parts, hd_error df)
            else None
          else Some (affordable_parts, None)
        else Some (affordable_parts, None) in
      match retried with
      | None => None
      | Some (affordable_parts, _) =>
          (* lines 367-378 *)
          if negb (empty affordable_parts) then
            match _select_best_part_by_score affordable_parts
                    (get_or weights part_type []) normalization_ranges part_type with
            | Some selected_part =>
                let current_cost := current_cost + price selected_part in
                Some (dict_set recommended_build part_type selected_part,
                      current_cost, budget - current_cost)
            | None => None
            end
          else None
      end
  | None => None
  end.

Fixpoint select_remaining_parts (parts_data : Catalog) (weights : Weights)
    (normalization_ranges : Ranges) (current_allocations : list (string * Q))
    (budget : Q) (order : list string) (st : SmartState) : option SmartState :=
  match order with
  | [] => Some st
  | part_type :: rest =>
      match select_remaining_part parts_data weights normalization_ranges
              current_allocations budget st part_type with
      | Some st' =>
          select_remaining_parts parts_data weights normalization_ranges
            current_allocations budget rest st'
      | None => None
      end
  end.

Definition generate_smart_recommendation_rule_based (parts_data : Catalog)
    (normalization_ranges : Ranges) (scenario : string) (budget : Q)
  : result (option Build) :=
  let recommended_build : Build := [] in
  let current_cost := 0 in
  let weights := get_or feature_weights scenario general_use_weights in
  match dict_get parts_data "CPU", dict_get parts_data "Motherboard" with
  | Some cpu_df, Some motherboard_df =>
      let affordable_cpus := cpu_candidates cpu_df budget in
      if empty affordable_cpus then Ok None
      else
        match _select_best_part_by_score affordable_cpus (get_or weights "CPU" [])
                normalization_ranges "CPU" with
        | Some selected_cpu =>
            let recommended_build := dict_set recommended_build "CPU" selected_cpu in
            let current_cost := current_cost + price selected_cpu in
            let remaining_budget := budget - current_cost in
            do candidates <-
               motherboard_candidates motherboard_df selected_cpu remaining_budget;
            match candidates with
            | Some compatible_motherboards =>
                match _select_best_part_by_score compatible_motherboards
                        (get_or weights "Motherboard" []) normalization_ranges
                        "Motherboard" with
                | Some selected_motherboard =>
                    let recommended_build :=
                      dict_set recommended_build "Motherboard" selected_motherboard in
                    let current_cost := current_cost + price selected_motherboard in
                    let remaining_budget := budget - current_cost in
                    let current_allocations :=
                      get_or budget_allocation_priority scenario
                             general_use_allocations in
                    match select_remaining_parts parts_data weights
                            normalization_ranges current_allocations budget
                            part_types_order
                            (recommended_build, current_cost, remaining_budget) with
                    | Some (recommended_build, _, _) =>
                        if forallb (dict_mem recommended_build) required_parts
                        then Ok (Some recommended_build)
                        else Ok None
                    | None => Ok None
                    end
                | None => Ok None
                end
            | None => Ok None
            end
        | None => Ok None
        end
  | _, _ => Ok None
  end.

(** Total price of a build: the sum of the prices of its parts. *)
Definition build_cost (b : Build) : Q :=
  fold_left (fun acc kp => acc + price (snd kp)) b 0.

(** ** Predictive scoring *)

(** The feature row handed to [model.predict]. *)
Record Features : Type := mkFeatures {
  cpu_speed : cell;
  cpu_cores : cell;
  cpu_threads : cell;
  gpu_vram : cell;
  ram_size : cell;
  storage_space : cell;
  psu_power : cell;
  total_price : Q
}.

(** A loaded model: [model.predict(df)[0]], [None] when it raises. *)
Definition Model : Type := Features -> option Q.

(** [self.ml_models]: scenario -> model (the stored value may be [None]). *)
Definition Models : Type := list (string * option Model).

(** [build_dict.get(part_type, {}).get(k, 0)] *)
Definition build_feature (build_dict : Build) (part_type k : string) : cell :=
  match dict_get build_dict part_type with
  | Some part => match part_get part k with Some c => c | None => CNum 0 end
  | None => CNum 0
  end.

(** Python's [max(a, b)]: [b] only when it is strictly greater. *)
Definition py_max (a b : Q) : Q := if Qltb a b then b else a.

Definition predict_build_score (ml_models : Models) (build_dict : Build)
    (scenario : string) : option Q :=
  match dict_get ml_models scenario with
  | Some (Some model) =>
      let features :=
        mkFeatures (build_feature build_dict "CPU" "speed")
                   (build_feature build_dict "CPU" "coreCount")
                   (build_feature build_dict "CPU" "threadCount")
                   (build_feature build_dict "GPU" "VRAM")
                   (build_feature build_dict "RAM" "size")
                   (build_feature build_dict "Storage" "space")
                   (build_feature build_dict "PSU" "power")
                   (build_cost build_dict) in
      match model features with
      | Some prediction =>
          if Qltb prediction 0 then Some (py_max 0 prediction) else Some prediction
      | None => None
      end
  | _ => None
  end.

(** ** Stochastic search assembler *)

(** A sampled build with its ['_ml_score'] entry ([None]: no such key). *)
Record ScoredBuild : Type := mkScoredBuild {
  sb_parts : Build;
  sb_ml_score : option Q
}.

(** [df.sample(1).iloc[0]] on a non-empty table whose first row is [first]:
    the random source supplies the number [r]. *)
Definition sample1 (r : nat) (first : Part) (df : DataFrame) : Part :=
  nth (r mod List.length df)%nat df first.

(** Lines 467-483: the loop over [remaining_part_types]; [draw] numbers the
    random draws of the trial. *)
Fixpoint sample_remaining (parts_data : Catalog) (rand : nat -> nat)
    (remaining_part_types : list string) (draw : nat)
    (current_sampled_build : Build) (current_total_cost temp_budget : Q)
  : result (Build * Q) :=
  match remaining_part_types with
  | [] => Ok (current_sampled_build, current_total_cost)
  | part_type :: rest =>
      match dict_get parts_data part_type with
      | None => Raise (ValueError "Data missing or empty.")
      | Some [] => Raise (ValueError "Data missing or empty.")
      | Some ((cheapest :: _) as df) =>
          let selected_part :=
            match price_le temp_budget df with
            | [] => cheapest
            | (first :: _) as affordable_parts => sample1 (rand draw) first affordable_parts
            end in
          sample_remaining parts_data rand rest (S draw)
            (dict_set current_sampled_build part_type selected_part)
            (current_total_cost + price selected_part)
            (temp_budget - price selected_part)
      end
  end.

(** Lines 415-483: the body of the [try] block of one trial. *)
Definition sample_build (parts_data : Catalog) (rand : nat -> nat) (budget : Q)
  : result (Build * Q) :=
  let current_sampled_build : Build := [] in
  let current_total_cost := 0 in
  let temp_budget := budget in
  match dict_get parts_data "CPU" with
  | None | Some [] => Raise (ValueError "CPU data missing or empty.")
  | Some cpu_df =>
      let affordable_cpus := price_le (temp_budget * 0.4) cpu_df in
      let affordable_cpus :=
        if empty affordable_cpus then head1 (sort_values_price cpu_df)
        else affordable_cpus in
      match affordable_cpus with
      | [] => Raise (ValueError "No affordable CPUs found for sampling.")
      | first :: _ =>
          let selected_cpu_part := sample1 (rand 0%nat) first affordable_cpus in
          let current_sampled_build :=
            dict_set current_sampled_build "CPU" selected_cpu_part in
          let current_total_cost := current_total_cost + price selected_cpu_part in
          let temp_budget := temp_budget - price selected_cpu_part in
          let selected_cpu_socket := part_get selected_cpu_part "socket" in
          match dict_get parts_data "Motherboard" with
          | None | Some [] => Raise (ValueError "Motherboard data missing or empty.")
          | Some motherboard_df =>
              match selected_cpu_socket with
              | None => Raise (ValueError "Selected CPU has no socket information.")
              | Some cpu_socket =>
                  do sockets <- column motherboard_df "socket";
                  let same_socket := map (fun c => cell_eqb c cpu_socket) sockets in
                  let compatible_motherboards :=
                    boolean_index motherboard_df
                      (mask_and same_socket (price_mask (temp_budget * 0.5) motherboard_df)) in
                  do compatible_motherboards <-
                    (if empty compatible_motherboards then
                       do sockets <- column motherboard_df "socket";
                       let same_socket := map (fun c => cell_eqb c cpu_socket) sockets in
                       Ok (head1 (sort_values_price
                                    (boolean_index motherboard_df same_socket)))
                     else Ok compatible_motherboards);
                  match compatible_motherboards with
                  | [] => Raise (ValueError "No compatible Motherboards found for sampling.")
                  | first_mb :: _ =>
                      let selected_mb_part :=
                        sample1 (rand 1%nat) first_mb compatible_motherboards in
                      let current_sampled_build :=
                        dict_set current_sampled_build "Motherboard" selected_mb_part in
                      let current_total_cost :=
                        current_total_cost + price selected_mb_part in
                      let temp_budget := temp_budget - price selected_mb_part in
                      sample_remaining parts_data rand part_types_order 2
                        current_sampled_build current_total_cost temp_budget
                  end
              end
          end
      end
  end.

(** The sort key [x.get('_ml_score', -np.inf)]: [None] stands for [-inf]. *)
Definition key_leb (a b : option Q) : bool :=
  match a, b with
  | None, _ => true
  | Some _, None => false
  | Some x, Some y => Qle_bool x y
  end.

(** [list.sort(key=..., reverse=True)]: stable, so builds of equal score
    keep their trial order. *)
Fixpoint insert_by_score (x : ScoredBuild) (l : list ScoredBuild) : list ScoredBuild :=
  match l with
  | [] => [x]
  | y :: t => if key_leb (sb_ml_score y) (sb_ml_score x) then x :: y :: t
              else y :: insert_by_score x t
  end.

Definition sort_by_score_desc (l : list ScoredBuild) : list ScoredBuild :=
  fold_right insert_by_score [] l.

(** Python's [l[:k]]: a negative [k] counts from the end. *)
Definition slice_to {A : Type} (l : list A) (k : Z) : list A :=
  if (0 <=? k)%Z then firstn (Z.to_nat k) l
  else firstn (List.length l - Z.to_nat (- k))%nat l.

(** Lines 414-512: the loop over [range(num_samples)].  [rand i] is the
    random source of trial [i].  A [ValueError] is caught and the trial
    skipped; any other exception leaves the function. *)
Fixpoint sample_loop (ml_models : Models) (parts_data : Catalog)
    (rand : nat -> nat -> nat) (budget : Q) (scenario : string)
    (trials : list nat) (all_valid_ml_builds : list ScoredBuild)
  : result (list ScoredBuild) :=
  match trials with
  | [] => Ok all_valid_ml_builds
  | i :: rest =>
      match sample_build parts_data (rand i) budget with
      | Raise (ValueError _) =>
          sample_loop ml_models parts_data rand budget scenario rest all_valid_ml_builds
      | Raise e => Raise e
      | Ok (current_sampled_build, current_total_cost) =>
          if Qle_bool current_total_cost budget then
            match predict_build_score ml_models current_sampled_build scenario with
            | Some predicted_score =>
                sample_loop ml_models parts_data rand budget scenario rest
                  (all_valid_ml_builds
                     ++ [mkScoredBuild current_sampled_build (Some predicted_score)])
            | None =>
                sample_loop ml_models parts_data rand budget scenario rest
                  all_valid_ml_builds
            end
          else
            sample_loop ml_models parts_data rand budget scenario rest
              all_valid_ml_builds
      end
  end.

Definition generate_ml_based_recommendations (ml_models : Models)
    (parts_data : Catalog) (rand : nat -> nat -> nat) (budget : Q)
    (scenario : string) (num_samples top_n : Z) : result (list ScoredBuild) :=
  match dict_get ml_models scenario with
  | Some (Some _) =>
      do all_valid_ml_builds <-
        sample_loop ml_models parts_data rand budget scenario
          (seq 0 (Z.to_nat num_samples)) [];
      let all_valid_ml_builds := sort_by_score_desc all_valid_ml_builds in
      let top_ml_builds := slice_to all_valid_ml_builds top_n in
      Ok top_ml_builds
  | _ => Ok []
  end.

(** The returned list is ordered by descending score. *)
Fixpoint sorted_desc (l : list ScoredBuild) : Prop :=
  match l with
  | [] => True
  | x :: t =>
      (forall y, In y t -> key_leb (sb_ml_score y) (sb_ml_score x) = true)
      /\ sorted_desc t
  end.

(** ** Sample catalogs *)

Definition row (name : string) (p : Q) (extra : list (string * cell)) : Part :=
  mkPart p (("name", CStr name) :: ("image", CStr "") :: extra).

Definition cpu_am4 : Part :=
  row "Ryzen 5" 100 [("socket", CStr "AM4"); ("speed", CNum 3.6);
                     ("coreCount", CNum 6); ("threadCount", CNum 12);
                     ("power", CNum 65)].
Definition cpu_lga : Part :=
  row "Core i7" 300 [("socket", CStr "LGA1700"); ("speed", CNum 3.4);
                     ("coreCount", CNum 12); ("threadCount", CNum 20);
                     ("power", CNum 125)].
Definition mb_am4 : Part := row "B550" 80 [("socket", CStr "AM4")].
Definition mb_lga : Part := row "Z690" 120 [("socket", CStr "LGA1700")].
Definition gpu_8g : Part := row "RTX" 200 [("VRAM", CNum 8); ("power", CNum 200)].
Definition ram_16 : Part := row "DDR4" 50 [("size", CNum 16)].
Definition ssd_1t : Part := row "NVMe" 60 [("space", CNum 1000)].
Definition psu_650 : Part := row "Gold 650" 70 [("power", CNum 650)].
Definition case_atx : Part := row "Mid tower" 40 [].
Definition cooler_air : Part := row "Air cooler" 30 [].

Definition demo_catalog : Catalog :=
  [("CPU", [cpu_am4; cpu_lga]); ("GPU", [gpu_8g]);
   ("Motherboard", [mb_am4; mb_lga]); ("RAM", [ram_16]);
   ("Storage", [ssd_1t]); ("PSU", [psu_650]); ("Case", [case_atx]);
   ("Cooler", [cooler_air])].

Definition demo_ranges : Ranges :=
  [("CPU_price", (100, 300)); ("CPU_speed", (3.4, 3.6));
   ("CPU_coreCount", (6, 12)); ("CPU_threadCount", (12, 20));
   ("CPU_power", (65, 125)); ("Motherboard_price", (80, 120));
   ("GPU_price", (200, 200)); ("GPU_VRAM", (8, 8)); ("GPU_power", (200, 200));
   ("RAM_price", (50, 50)); ("RAM_size", (16, 16));
   ("Storage_price", (60, 60)); ("Storage_space", (1000, 1000));
   ("PSU_price", (70, 70)); ("PSU_power", (650, 650));
   ("Case_price", (40, 40)); ("Cooler_price", (30, 30))].

(** The demo catalog with a single, expensive graphics card. *)
Definition pricey_gpu_catalog : Catalog :=
  dict_set demo_catalog "GPU" [row "Titan" 1000 [("VRAM", CNum 24)]].


(** A catalog of give-away parts. *)
Definition free_part (socket : list (string * cell)) : Part := row "free" 0 socket.
Definition free_catalog : Catalog :=
  [("CPU", [free_part [("socket", CStr "AM4")]]); ("GPU", [free_part []]);
   ("Motherboard", [free_part [("socket", CStr "AM4")]]); ("RAM", [free_part []]);
   ("Storage", [free_part []]); ("PSU", [free_part []]); ("Case", [free_part []]);
   ("Cooler", [free_part []])].

(** One record per part type, priced in dollars and cents; the price
    column of each table holds the doubles nearest to these decimals, and
    the decimals add up to 1500.00. *)
Definition round_off_catalog : Catalog :=
  [("CPU", [row "Ryzen 7" (to_float64 380.82) [("socket", CStr "AM4")]]);
   ("GPU", [row "RTX" (to_float64 553.98) []]);
   ("Motherboard", [row "B550" (to_float64 152.46) [("socket", CStr "AM4")]]);
   ("RAM", [row "DDR4" (to_float64 97.01) []]);
   ("Storage", [row "NVMe" (to_float64 61.44) []]);
   ("PSU", [row "650W" (to_float64 102.88) []]);
   ("Case", [row "Mid tower" (to_float64 81.94) []]);
   ("Cooler", [row "Tower cooler" (to_float64 69.47) []])].

(** A model that rates every build 50, one that rates it -3, and a random
    source that always draws 0. *)
Definition flat_model : Model := fun _ => Some 50.
Definition negative_model : Model := fun _ => Some (-3).
Definition demo_models : Models :=
  [("General Use", Some flat_model); ("Gaming", Some negative_model)].
Definition zero_rand : nat -> nat -> nat := fun _ _ => 0%nat.

(** All prices of a catalog are non-negative (the data model's invariant),
    resp. strictly positive. *)
Definition prices_nonneg (parts_data : Catalog) : Prop :=
  forall part_type df p, In (part_type, df) parts_data -> In p df -> 0 <= price p.

Definition prices_positive (parts_data : Catalog) : Prop :=
  forall part_type df p, In (part_type, df) parts_data -> In p df -> 0 < price p.

(** In every table whose price column is of dtype int64 the prices are
    whole numbers. *)
Definition int64_prices_whole (price_dtype : string -> dtype) (parts_data : Catalog)
  : Prop :=
  forall part_type df p,
    In (part_type, df) parts_data -> In p df -> price_dtype part_type = int64 ->
    price p == inject_Z (Qfloor (price p)).

Definition int64_prices_wholeb (price_dtype : string -> dtype) (parts_data : Catalog)
  : bool :=
  forallb
    (fun kv =>
       match price_dtype (fst kv) with
       | int64 =>
           forallb (fun p => Qeq_bool (price p) (inject_Z (Qfloor (price p)))) (snd kv)
       | float64 => true
       end)
    parts_data.

(** Boolean versions, to decide them on a concrete catalog. *)
Definition prices_nonnegb (parts_data : Catalog) : bool :=
  forallb (fun kv => forallb (fun p => Qle_bool 0 (price p)) (snd kv)) parts_data.

Definition prices_positiveb (parts_data : Catalog) : bool :=
  forallb (fun kv => forallb (fun p => Qltb 0 (price p)) (snd kv)) parts_data.

(** Equality of two cells as pandas' [==] sees it. *)
Definition cell_eq (a b : cell) : Prop :=
  match a, b with
  | CNum x, CNum y => x == y
  | CStr s, CStr t => s = t
  | _, _ => False
  end.

(** The motherboard [mb] has the socket of the processor [cpu]. *)
Definition same_socket (cpu mb : Part) : Prop :=
  exists s c, part_get cpu "socket" = Some s /\ part_get mb "socket" = Some c
              /\ cell_eq c s.



(** What holds of a build the sampling assembler returns: it carries a
    score that is not negative, its parts cost at most the budget, and all
    eight categories are filled. *)
Definition valid_scored (budget : Q) (b : ScoredBuild) : Prop :=
  exists score,
    sb_ml_score b = Some score /\ 0 <= score
    /\ build_cost (sb_parts b) <= budget
    /\ forall k, In k PART_FILES -> dict_mem (sb_parts b) k = true.

(** Every table of the catalog is sorted by ascending price, as
    [_load_all_parts] leaves it. *)
Definition catalog_sorted (parts_data : Catalog) : Prop :=
  forall part_type df, In (part_type, df) parts_data -> price_sorted df.

(** ** Normalization ranges *)

(** [df.columns].  A frame is rectangular, so the names are read off its
    first row; a frame without rows yields no range whatever its columns. *)
Definition columns (df : DataFrame) : list string :=
  match df with
  | [] => []
  | p :: _ => "price" :: map fst (cols p)
  end.

(** [pd.api.types.is_numeric_dtype(df[col])] together with
    [df[col].dropna()]: the numbers of a column whose cells are all numbers
    or missing values; [None] for a column of another dtype. *)
Fixpoint numeric_column (df : DataFrame) (col : string) : option (list Q) :=
  match df with
  | [] => Some []
  | p :: t =>
      match part_get p col, numeric_column t col with
      | Some (CNum q), Some vs => Some (q :: vs)
      | Some CNaN, Some vs => Some vs
      | _, _ => None
      end
  end.

Definition qmin (a b : Q) : Q := if Qle_bool a b then a else b.
Definition qmax (a b : Q) : Q := if Qle_bool a b then b else a.

(** [valid_values.min()] and [valid_values.max()] of a non-empty series. *)
Definition series_min (v : Q) (vs : list Q) : Q := fold_left qmin vs v.
Definition series_max (v : Q) (vs : list Q) : Q := fold_left qmax vs v.

(** Lines 97-105: the body of the loop over [df.columns]. *)
Definition add_column_range (part_type : string) (df : DataFrame)
    (normalization_ranges : Ranges) (col : string) : Ranges :=
  match numeric_column df col with
  | Some (v :: vs) =>
      dict_set normalization_ranges (part_type ++ "_" ++ col)
               (series_min v vs, series_max v vs)
  | _ => normalization_ranges
  end.

Definition _precompute_normalization_ranges (parts_data : Catalog) : Ranges :=
  fold_left
    (fun normalization_ranges kv =>
       fold_left (add_column_range (fst kv) (snd kv)) (columns (snd kv))
                 normalization_ranges)
    parts_data [].

(** ** Loading the catalog *)

(** The module constant [PART_FILES] with its file names. *)
Definition PART_FILE_NAMES : list (string * string) :=
  [("CPU", "CPU.csv"); ("GPU", "GPU.csv"); ("Motherboard", "Motherboard.csv");
   ("RAM", "Memory.csv"); ("Storage", "Storage.csv"); ("PSU", "PSU.csv");
   ("Case", "Case.csv"); ("Cooler", "Cooler.csv")].

(** What [pd.read_csv] returns: the column names and the rows, each row
    binding the columns to cells. *)
Record RawFrame : Type := mkRawFrame {
  raw_columns : list string;
  raw_rows : list (list (string * cell))
}.

(** [col in df.columns] *)
Definition has_column (columns : list string) (col : string) : bool :=
  existsb (String.eqb col) columns.

(** [pd.to_numeric(..., errors='coerce')] on one cell: [None] is NaN.
    [parse_number] reads the number a string cell spells, if any. *)
Definition to_numeric (parse_number : string -> option Q) (c : cell) : option Q :=
  match c with
  | CNum q => Some q
  | CStr s => parse_number s
  | CNaN => None
  end.

Fixpoint dict_remove {V : Type} (d : list (string * V)) (k : string)
  : list (string * V) :=
  match d with
  | [] => []
  | (k', v) :: rest =>
      if String.eqb k' k then dict_remove rest k else (k', v) :: dict_remove rest k
  end.

(** Lines 67-69 on one row: the price is coerced to a number, and the row
    is dropped when that gives NaN. *)
Definition coerce_row (parse_number : string -> option Q) (r : list (string * cell))
  : option Part :=
  match dict_get r "price" with
  | Some c =>
      match to_numeric parse_number c with
      | Some q => Some (mkPart q (dict_remove r "price"))
      | None => None
      end
  | None => None
  end.

Fixpoint dropna_price (parse_number : string -> option Q)
    (rows : list (list (string * cell))) : DataFrame :=
  match rows with
  | [] => []
  | r :: rest =>
      match coerce_row parse_number r with
      | Some p => p :: dropna_price parse_number rest
      | None => dropna_price parse_number rest
      end
  end.

(** [DUMMY_MOTHERBOARD_FEATURES]: each feature with the bounds of its
    [np.random.randint(low, high)]. *)
Definition DUMMY_MOTHERBOARD_FEATURES : list (string * (Z * Z)) :=
  [("sataPorts", (4, 8)%Z); ("pcieSlots", (2, 5)%Z); ("usbPorts", (6, 12)%Z)].

(** [np.random.randint(low, high)] from a raw draw of the random source. *)
Definition randint (low high : Z) (draw : nat) : Z :=
  (low + Z.of_nat draw mod (high - low))%Z.

(** [df[feature] = [generator() for _ in range(len(df))]]; [draws i] is the
    draw for row [i]. *)
Definition add_dummy_column (draws : nat -> nat) (feature : string) (low high : Z)
    (df : DataFrame) : DataFrame :=
  map (fun ip =>
         mkPart (price (snd ip))
                (dict_set (cols (snd ip)) feature
                          (CNum (inject_Z (randint low high (draws (fst ip)))))))
      (combine (seq 0 (List.length df)) df).

(** Lines 72-75: the loop over [DUMMY_MOTHERBOARD_FEATURES.items()] on the
    columns and rows of the frame. *)
Definition add_dummy_features (rnd : string -> nat -> nat)
    (frame : list string * DataFrame) : list string * DataFrame :=
  fold_left
    (fun cr fg =>
       let '(columns, rows) := cr in
       let '(feature, (low, high)) := fg in
       if has_column columns feature then (columns, rows)
       else ((columns ++ [feature])%list,
             add_dummy_column (rnd feature) feature low high rows))
    DUMMY_MOTHERBOARD_FEATURES frame.

(** Lines 65-82 for one part file that was read; [None] when the part is
    skipped (no price column: the [KeyError] is caught at line 83; a
    required column missing: line 82). *)
Definition load_part (parse_number : string -> option Q) (rnd : string -> nat -> nat)
    (part : string) (raw : RawFrame) : option DataFrame :=
  if negb (has_column (raw_columns raw) "price") then None
  else
    let rows := dropna_price parse_number (raw_rows raw) in
    let '(columns, rows) :=
      if String.eqb part "Motherboard"
      then add_dummy_features rnd (raw_columns raw, rows)
      else (raw_columns raw, rows) in
    if forallb (has_column columns) ["name"; "price"; "image"]
    then Some (sort_values_price rows)
    else None.

(** [_load_all_parts]; [files filename] is the frame read from the file,
    [None] when the file does not exist or cannot be read. *)
Definition _load_all_parts (files : string -> option RawFrame)
    (parse_number : string -> option Q) (rnd : string -> nat -> nat)
    (part_files : list (string * string)) : Catalog :=
  fold_left
    (fun parts_data pf =>
       match files (snd pf) with
       | Some raw =>
           match load_part parse_number rnd (fst pf) raw with
           | Some df => dict_set parts_data (fst pf) df
           | None => parts_data
           end
       | None => parts_data
       end)
    part_files [].

(** In the words of the loader's contract: the numbers that the price
    cells of the rows spell, in file order, a row without a number
    contributing none. *)
Definition numeric_prices (parse_number : string -> option Q)
    (rows : list (list (string * cell))) : list Q :=
  flat_map
    (fun r =>
       match dict_get r "price" with
       | Some c =>
           match to_numeric parse_number c with
           | Some q => [q]
           | None => []
           end
       | None => []
       end)
    rows.

(** Sample files: a processor file with one unpriced row, a motherboard
    file without the port columns, and a file without an image column. *)
Definition demo_files (filename : string) : option RawFrame :=
  if String.eqb filename "CPU.csv" then
    Some (mkRawFrame ["name"; "price"; "image"; "socket"]
            [[("name", CStr "Core i7"); ("price", CNum 300); ("image", CStr "");
              ("socket", CStr "LGA1700")];
             [("name", CStr "Mystery"); ("price", CStr "n/a"); ("image", CStr "");
              ("socket", CStr "AM4")];
             [("name", CStr "Ryzen 5"); ("price", CNum 100); ("image", CStr "");
              ("socket", CStr "AM4")]])
  else if String.eqb filename "Motherboard.csv" then
    Some (mkRawFrame ["name"; "price"; "image"; "socket"]
            [[("name", CStr "Z690"); ("price", CNum 120); ("image", CStr "");
              ("socket", CStr "LGA1700")];
             [("name", CStr "B550"); ("price", CNum 80); ("image", CStr "");
              ("socket", CStr "AM4")]])
  else if String.eqb filename "Case.csv" then
    Some (mkRawFrame ["name"; "price"] [[("name", CStr "Mid tower"); ("price", CNum 40)]])
  else None.

(** ** Loading the models, and the backend object *)

(** [str.lower()] and [str.replace(' ', '_')] on the characters of a
    scenario name. *)
Definition lower_char (a : Ascii.ascii) : Ascii.ascii :=
  let n := Ascii.nat_of_ascii a in
  if ((65 <=? n) && (n <=? 90))%nat then Ascii.ascii_of_nat (n + 32) else a.

Fixpoint str_map (f : Ascii.ascii -> Ascii.ascii) (s : string) : string :=
  match s with
  | EmptyString => EmptyString
  | String a rest => String (f a) (str_map f rest)
  end.

Definition space_to_underscore (a : Ascii.ascii) : Ascii.ascii :=
  if Ascii.eqb a (Ascii.ascii_of_nat 32) then Ascii.ascii_of_nat 95 else a.

(** [f"rf_{scenario.lower().replace(' ', '_')}.pkl"] *)
Definition model_file_name (scenario : string) : string :=
  "rf_" ++ str_map space_to_underscore (str_map lower_char scenario) ++ ".pkl".

Definition scenarios_to_load : list string :=
  ["Gaming"; "Workstation"; "Content Creation"; "Home Office"; "General Use"].

(** [_load_ml_models]; [model_files file_name] is the outcome of
    [joblib.load]: [None] when it raises, [Some loaded] when it returns,
    where the object [loaded] that the file holds is a model or Python's
    [None].  Whatever is returned is stored. *)
Definition _load_ml_models (model_files : string -> option (option Model)) : Models :=
  fold_left
    (fun ml_models scenario =>
       match model_files (model_file_name scenario) with
       | Some loaded => dict_set ml_models scenario loaded
       | None => ml_models
       end)
    scenarios_to_load [].

(** The attributes of a [Backend] object, and [__init__]. *)
Record Backend : Type := mkBackend {
  self_parts_data : Catalog;
  self_normalization_ranges : Ranges;
  self_ml_models : Models;
  self_scenarios : list string
}.

Definition Backend_init (files : string -> option RawFrame)
    (parse_number : string -> option Q) (rnd : string -> nat -> nat)
    (model_files : string -> option (option Model)) : Backend :=
  let parts_data := _load_all_parts files parse_number rnd PART_FILE_NAMES in
  mkBackend parts_data
            (_precompute_normalization_ranges parts_data)
            (_load_ml_models model_files)
            ["Gaming"; "Workstation"; "Content Creation"; "Home Office"; "General Use"].

(** ** Text wrapping for the PDF export (app.py) *)

(** A character of the text is one [ascii]; [len] is Python's [len] on a
    string. *)
Definition is_space (a : Ascii.ascii) : bool := Ascii.eqb a (Ascii.ascii_of_nat 32).

(** [text.split(' ')] *)
Fixpoint split_space (text : string) : list string :=
  match text with
  | EmptyString => [EmptyString]
  | String a rest =>
      if is_space a then EmptyString :: split_space rest
      else match split_space rest with
           | word :: words => String a word :: words
           | [] => [String a EmptyString]
           end
  end.

(** [' '.join(words)] *)
Fixpoint join_space (words : list string) : string :=
  match words with
  | [] => EmptyString
  | [word] => word
  | word :: rest => word ++ String (Ascii.ascii_of_nat 32) (join_space rest)
  end.

Definition len (s : string) : Z := Z.of_nat (String.length s).

(** The loop state: [lines], [current_line], [current_len]. *)
Definition wrap_state : Type := list string * list string * Z.

(** [(1 if current_line else 0)] *)
Definition sep_len (current_line : list string) : Z :=
  match current_line with [] => 0%Z | _ => 1%Z end.

(** One round of the loop over the words. *)
Definition wrap_step (max_chars_per_line : Z) (st : wrap_state) (word : string)
  : wrap_state :=
  let '(lines, current_line, current_len) := st in
  if (current_len + len word + sep_len current_line <=? max_chars_per_line)%Z
  then
    let current_line := (current_line ++ [word])%list in
    (lines, current_line, (current_len + (len word + sep_len current_line))%Z)
  else ((lines ++ [join_space current_line])%list, [word], len word).

(** [_wrap_text]; [not text] is the empty string. *)
Definition _wrap_text (text : string) (max_chars_per_line : Z) : list string :=
  match text with
  | EmptyString => [EmptyString]
  | _ =>
      let '(lines, current_line, _) :=
        fold_left (wrap_step max_chars_per_line) (split_space text) ([], [], 0%Z) in
      (lines ++ [join_space current_line])%list
  end.


(** What the loop keeps true of every finished line. *)
Definition line_ok (max : Z) (text line : string) : Prop :=
  (len line <= max)%Z \/ In line (split_space text).

(** * Properties *)

(** ** Comparisons *)

Lemma Qltb_lt (x y : Q) : Qltb x y = true <-> x < y.
Proof.
  unfold Qltb. rewrite negb_true_iff. split; intro H.
  - apply Qnot_le_lt. intro L. apply Qle_bool_iff in L. congruence.
  - destruct (Qle_bool y x) eqn:E; trivial.
    apply Qle_bool_iff in E. exfalso. apply (Qlt_not_le _ _ H E).
Qed.

Lemma Qltb_ge (x y : Q) : Qltb x y = false <-> y <= x.
Proof.
  unfold Qltb. rewrite negb_false_iff. apply Qle_bool_iff.
Qed.

Lemma Qle_bool_false (x y : Q) : Qle_bool x y = false <-> y < x.
Proof.
  rewrite <- Qltb_lt. unfold Qltb. now rewrite negb_true_iff.
Qed.

Lemma empty_true {A : Type} (l : list A) : empty l = true <-> l = [].
Proof. destruct l; simpl; split; congruence. Qed.

Lemma empty_false {A : Type} (l : list A) : empty l = false <-> l <> [].
Proof. destruct l; simpl; split; congruence. Qed.

Lemma price_le_In (bound : Q) (df : DataFrame) (p : Part) :
  In p (price_le bound df) <-> In p df /\ price p <= bound.
Proof.
  unfold price_le. rewrite filter_In, Qle_bool_iff. tauto.
Qed.

(** ** Weighted selector *)

Lemma set_score_price (p : Part) (s : Q) : price (set_score p s) = price p.
Proof. reflexivity. Qed.

Lemma set_score_column_map (f : Part -> Q) (df : DataFrame) :
  set_score_column df (map f df) = map (fun c => set_score c (f c)) df.
Proof.
  unfold set_score_column. induction df as [|c df IH]; simpl; [reflexivity|].
  now rewrite IH.
Qed.

Lemma idxmax_from_bound (l : list Q) :
  forall best_i best i, (best_i < i)%nat ->
    (idxmax_from best_i best i l < i + List.length l)%nat.
Proof.
  induction l as [|x t IH]; intros best_i best i Hlt; simpl.
  - lia.
  - destruct (Qltb best x).
    + specialize (IH i x (S i)). lia.
    + specialize (IH best_i best (S i)). lia.
Qed.

Lemma idxmax_bound (l : list Q) : l <> [] -> (idxmax l < List.length l)%nat.
Proof.
  destruct l as [|x t]; [congruence|]. intros _. simpl.
  pose proof (idxmax_from_bound t 0 x 1). lia.
Qed.

(** When nothing beats the current best, [idxmax] keeps its position. *)
Lemma idxmax_from_keep (l : list Q) :
  forall best_i best i, (forall x, In x l -> Qltb best x = false) ->
    idxmax_from best_i best i l = best_i.
Proof.
  induction l as [|x t IH]; intros best_i best i H; simpl; [reflexivity|].
  rewrite (H x (or_introl eq_refl)). apply IH. intros y Hy. apply H. now right.
Qed.

(** For a non-empty table the selector returns the row at [idxmax], with
    its score attached. *)
Lemma select_best_nonempty (parts_df : DataFrame) (part_weights : list (string * Q))
    (normalization_ranges : Ranges) (part_type : string) :
  parts_df <> [] ->
  _select_best_part_by_score parts_df part_weights normalization_ranges part_type
  = nth_error
      (map (fun c => set_score c (part_score normalization_ranges part_type part_weights c))
           parts_df)
      (idxmax (map (part_score normalization_ranges part_type part_weights) parts_df)).
Proof.
  intro Hne. unfold _select_best_part_by_score.
  destruct parts_df as [|c df]; [congruence|]. simpl empty. cbv iota.
  cbv zeta. rewrite set_score_column_map. reflexivity.
Qed.

Lemma select_best_Some (parts_df : DataFrame) (part_weights : list (string * Q))
    (normalization_ranges : Ranges) (part_type : string) :
  parts_df <> [] ->
  exists c, In c parts_df /\
    _select_best_part_by_score parts_df part_weights normalization_ranges part_type
    = Some (set_score c (part_score normalization_ranges part_type part_weights c)).
Proof.
  intro Hne. rewrite select_best_nonempty by assumption.
  set (f := part_score normalization_ranges part_type part_weights).
  assert (Hb : (idxmax (map f parts_df) < List.length parts_df)%nat).
  { rewrite <- (length_map f). apply idxmax_bound.
    destruct parts_df; simpl; congruence. }
  destruct (nth_error parts_df (idxmax (map f parts_df))) as [c|] eqn:E.
  - exists c. split; [eapply nth_error_In; eassumption|].
    rewrite nth_error_map, E. reflexivity.
  - apply nth_error_None in E. lia.
Qed.

Lemma select_best_In (parts_df : DataFrame) (part_weights : list (string * Q))
    (normalization_ranges : Ranges) (part_type : string) (p : Part) :
  _select_best_part_by_score parts_df part_weights normalization_ranges part_type = Some p ->
  exists c, In c parts_df /\
    p = set_score c (part_score normalization_ranges part_type part_weights c).
Proof.
  intro H. destruct parts_df as [|c0 df] eqn:E; [discriminate|].
  destruct (select_best_Some (c0 :: df) part_weights normalization_ranges part_type)
    as (c & Hin & Hsel); [congruence|].
  exists c. split; [assumption|]. congruence.
Qed.

Lemma select_best_None (parts_df : DataFrame) (part_weights : list (string * Q))
    (normalization_ranges : Ranges) (part_type : string) :
  _select_best_part_by_score parts_df part_weights normalization_ranges part_type = None
  <-> parts_df = [].
Proof.
  split.
  - intro H. destruct parts_df as [|c df]; [reflexivity|].
    destruct (select_best_Some (c :: df) part_weights normalization_ranges part_type)
      as (x & _ & Hx); congruence.
  - intros ->. reflexivity.
Qed.

(** A candidate none of whose weighted features is a number scores 0. *)
Lemma part_score_unscored (normalization_ranges : Ranges) (part_type : string)
    (part_weights : list (string * Q)) (c : Part) :
  (forall f wt v, In (f, wt) part_weights -> part_get c f <> Some (CNum v)) ->
  part_score normalization_ranges part_type part_weights c = 0.
Proof.
  unfold part_score. generalize 0 as acc.
  induction part_weights as [|[f wt] ws IH]; intros acc H; simpl; [reflexivity|].
  assert (Hf : forall v, part_get c f <> Some (CNum v)).
  { intros v. apply (H f wt v). now left. }
  destruct (part_get c f) as [[v| |]|] eqn:E;
    try (apply IH; intros f' wt' v' Hin; apply (H f' wt' v'); now right).
  exfalso. apply (Hf v). reflexivity.
Qed.

(** The last weighted feature adds [normalize value * weight] to the sum. *)
Lemma part_score_snoc (normalization_ranges : Ranges) (part_type : string)
    (ws : list (string * Q)) (feature : string) (weight val : Q) (c : Part) :
  part_get c feature = Some (CNum val) ->
  part_score normalization_ranges part_type (ws ++ [(feature, weight)]) c
  = part_score normalization_ranges part_type ws c
    + normalize normalization_ranges part_type feature val * weight.
Proof.
  intro H. unfold part_score. rewrite fold_left_app. simpl. now rewrite H.
Qed.

(** C5: the weighted selector returns a record for every non-empty
    candidate table (one of the candidates, with its score attached), it
    returns [None] exactly when the table is empty, and when no weighted
    feature is a number on any candidate it returns the first row of the
    table, which for a price-sorted table is a lowest-priced candidate. *)
Theorem select_best_part_by_score_total (parts_df : DataFrame)
    (part_weights : list (string * Q)) (normalization_ranges : Ranges)
    (part_type : string) :
  (parts_df <> [] ->
   exists c, In c parts_df /\
     _select_best_part_by_score parts_df part_weights normalization_ranges part_type
     = Some (set_score c (part_score normalization_ranges part_type part_weights c)))
  /\ (_select_best_part_by_score parts_df part_weights normalization_ranges part_type
      = None <-> parts_df = [])
  /\ ((forall c f wt v, In c parts_df -> In (f, wt) part_weights ->
         part_get c f <> Some (CNum v)) ->
      price_sorted parts_df ->
      forall first rest, parts_df = first :: rest ->
        _select_best_part_by_score parts_df part_weights normalization_ranges part_type
        = Some (set_score first 0)
        /\ price (set_score first 0) = price first
        /\ forall c, In c parts_df -> price first <= price c).
Proof.
  split; [apply select_best_Some|]. split; [apply select_best_None|].
  intros Hun Hsorted first rest ->. split; [|split; [reflexivity|]].
  - rewrite select_best_nonempty by congruence.
    set (f := part_score normalization_ranges part_type part_weights).
    assert (Hz : forall c, In c (first :: rest) -> f c = 0).
    { intros c Hc. apply part_score_unscored. intros g wt v Hg.
      apply (Hun c g wt v Hc Hg). }
    assert (Hi : idxmax (map f (first :: rest)) = 0%nat).
    { simpl. apply idxmax_from_keep. intros x Hx.
      apply in_map_iff in Hx. destruct Hx as (c & <- & Hc).
      rewrite (Hz first (or_introl eq_refl)), (Hz c (or_intror Hc)). reflexivity. }
    rewrite Hi. simpl. now rewrite (Hz first (or_introl eq_refl)).
  - intros c [<-|Hc]; [apply Qle_refl|]. simpl in Hsorted. now apply Hsorted.
Qed.

Lemma select_best_part_by_score_total_witness :
  _select_best_part_by_score [mb_am4; mb_lga] [("sataPorts", 0.5)] demo_ranges
    "Motherboard" = Some (set_score mb_am4 0)
  /\ price mb_am4 <= price mb_lga.
Proof.
  destruct (select_best_part_by_score_total [mb_am4; mb_lga] [("sataPorts", 0.5)]
              demo_ranges "Motherboard") as (_ & _ & H).
  destruct (H) with (first := mb_am4) (rest := [mb_lga]) as (Hsel & _ & Hle).
  - intros c f wt v Hc [Hf|[]]. inversion Hf; subst.
    destruct Hc as [<-|[<-|[]]]; discriminate.
  - simpl. repeat split; try tauto.
    intros q [<-|[]]. vm_compute. discriminate.
  - reflexivity.
  - split; [exact Hsel|]. apply Hle. right. now left.
Defined.

(** C8: for a feature with a recorded range [(min, max)] the value
    entering the weighted sum is [(value - min) / (max - min)] when
    [min < max], which lies in [[0,1]] for a value within the range, and
    [0.5] when [max == min]: the feature adds this rescaled value times its
    weight to the score, never the raw value.  (A feature the range table
    does not hold is outside the claim; lines 616-620 then use the value as
    it is.) *)
Theorem normalize_by_range (normalization_ranges : Ranges)
    (part_type feature : string) (val : Q) :
  (forall min_val max_val,
      dict_get normalization_ranges (part_type ++ "_" ++ feature)
      = Some (min_val, max_val) ->
      (min_val < max_val ->
         normalize normalization_ranges part_type feature val
         = (val - min_val) / (max_val - min_val)
         /\ (min_val <= val <= max_val ->
             0 <= normalize normalization_ranges part_type feature val <= 1))
      /\ (max_val == min_val ->
          normalize normalization_ranges part_type feature val = 0.5))
  /\ (dict_get normalization_ranges (part_type ++ "_" ++ feature) = None ->
      normalize normalization_ranges part_type feature val = val)
  /\ (forall ws weight c,
        part_get c feature = Some (CNum val) ->
        part_score normalization_ranges part_type (ws ++ [(feature, weight)]) c
        = part_score normalization_ranges part_type ws c
          + normalize normalization_ranges part_type feature val * weight).
Proof.
  split; [|split].
  - intros mn mx Hr. unfold normalize. rewrite Hr. split.
    + intro Hlt. assert (Hpos : 0 < mx - mn) by lra.
      pose proof (proj2 (Qltb_lt 0 (mx - mn)) Hpos) as Hb. rewrite Hb.
      split; [reflexivity|]. intros [Hlo Hhi]. split.
      * apply Qle_shift_div_l; [assumption|lra].
      * apply Qle_shift_div_r; [assumption|lra].
    + intro Heq. assert (Hle : mx - mn <= 0) by lra.
      pose proof (proj2 (Qltb_ge 0 (mx - mn)) Hle) as Hb. now rewrite Hb.
  - intro Hr. unfold normalize. now rewrite Hr.
  - intros ws weight c Hc. now apply part_score_snoc.
Qed.

Lemma normalize_by_range_witness :
  normalize demo_ranges "CPU" "coreCount" 9 = (9 - 6) / (12 - 6)
  /\ 0 <= normalize demo_ranges "CPU" "coreCount" 9 <= 1.
Proof.
  destruct (normalize_by_range demo_ranges "CPU" "coreCount" 9) as (H & _ & _).
  destruct (H 6 12 eq_refl) as (Hlt & _).
  destruct Hlt as (Heq & Hin); [reflexivity|].
  split; [exact Heq|]. apply Hin. split; vm_compute; discriminate.
Defined.

(** ** Rounding to a double *)

Lemma pow2_pos (e : Z) : 0 < pow2 e.
Proof.
  unfold pow2. destruct (0 <=? e)%Z eqn:E.
  - apply Z.leb_le in E. change 0 with (inject_Z 0). rewrite <- Zlt_Qlt.
    now apply Z.pow_pos_nonneg.
  - apply Z.leb_gt in E. apply Qinv_lt_0_compat.
    change 0 with (inject_Z 0). rewrite <- Zlt_Qlt.
    apply Z.pow_pos_nonneg; lia.
Qed.

Lemma round_half_even_bounds (x : Q) :
  (Qfloor x <= round_half_even x <= Qfloor x + 1)%Z.
Proof.
  unfold round_half_even.
  destruct (Qcompare (x - inject_Z (Qfloor x)) (1 # 2)); [destruct (Z.even _)| |]; lia.
Qed.

Lemma round_half_even_nonneg (x : Q) : 0 <= x -> (0 <= round_half_even x)%Z.
Proof.
  intro H. pose proof (round_half_even_bounds x) as [Hlo _].
  assert (0 <= Qfloor x)%Z; [|lia].
  change 0%Z with (Qfloor 0). now apply Qfloor_resp_le.
Qed.

Lemma round_half_even_nonpos (x : Q) : x <= 0 -> (round_half_even x <= 0)%Z.
Proof.
  intro H. unfold round_half_even.
  assert (Hf : (Qfloor x <= 0)%Z).
  { change 0%Z with (Qfloor 0). now apply Qfloor_resp_le. }
  destruct (Z.eq_dec (Qfloor x) 0) as [E|E].
  - rewrite E. assert (Hx0 : x == 0).
    { pose proof (Qfloor_le x) as Hl. rewrite E in Hl. simpl in Hl.
      apply Qle_antisym; assumption. }
    assert (Hc : Qcompare (x - inject_Z 0) (1 # 2) = Lt).
    { apply Qlt_alt. rewrite Hx0. reflexivity. }
    rewrite Hc. lia.
  - destruct (Qcompare _ _); [destruct (Z.even _)| |]; lia.
Qed.

Lemma round_half_even_ge_1 (x : Q) : 1 <= x -> (1 <= round_half_even x)%Z.
Proof.
  intro H. pose proof (round_half_even_bounds x) as [Hlo _].
  assert (1 <= Qfloor x)%Z; [|lia].
  change 1%Z with (Qfloor 1). now apply Qfloor_resp_le.
Qed.

Lemma to_float64_nonneg (x : Q) : 0 <= x -> 0 <= to_float64 x.
Proof.
  intro H. unfold to_float64. destruct (Qeq_bool x 0); [apply Qle_refl|].
  rewrite Qred_correct.
  set (e := Z.max _ _). pose proof (pow2_pos e) as Hp.
  apply Qmult_le_0_compat; [|now apply Qlt_le_weak].
  change 0 with (inject_Z 0). rewrite <- Zle_Qle.
  apply round_half_even_nonneg. apply Qle_shift_div_l; [exact Hp|].
  now rewrite Qmult_0_l.
Qed.

Lemma to_float64_nonpos (x : Q) : x <= 0 -> to_float64 x <= 0.
Proof.
  intro H. unfold to_float64. destruct (Qeq_bool x 0); [apply Qle_refl|].
  rewrite Qred_correct.
  set (e := Z.max _ _). pose proof (pow2_pos e) as Hp.
  assert (Hr : (round_half_even (x / pow2 e) <= 0)%Z).
  { apply round_half_even_nonpos. apply Qle_shift_div_r; [exact Hp|].
    now rewrite Qmult_0_l. }
  rewrite Zle_Qle in Hr. change (inject_Z 0) with 0 in Hr.
  assert (Hm : - (inject_Z (round_half_even (x / pow2 e)) * pow2 e) >= 0); [|lra].
  setoid_replace (- (inject_Z (round_half_even (x / pow2 e)) * pow2 e))
    with ((- inject_Z (round_half_even (x / pow2 e))) * pow2 e) by ring.
  apply Qmult_le_0_compat; lra.
Qed.

Lemma pow2_le_int (z : Z) (e : Z) :
  (1 <= z)%Z -> (e <= Z.log2 z)%Z -> pow2 e <= inject_Z z.
Proof.
  intros Hz He. unfold pow2. destruct (0 <=? e)%Z eqn:E.
  - apply Z.leb_le in E. rewrite <- Zle_Qle.
    apply Z.le_trans with (2 ^ Z.log2 z)%Z.
    + apply Z.pow_le_mono_r; lia.
    + apply Z.log2_spec. lia.
  - apply Z.leb_gt in E.
    assert (Hp : (1 <= 2 ^ (- e))%Z).
    { change 1%Z with (2 ^ 0)%Z at 1. apply Z.pow_le_mono_r; lia. }
    apply Qle_trans with 1.
    + apply Qle_shift_inv_r.
      * change 0 with (inject_Z 0). rewrite <- Zlt_Qlt. lia.
      * rewrite Qmult_1_l. change 1 with (inject_Z 1). now rewrite <- Zle_Qle.
    + change 1 with (inject_Z 1). now rewrite <- Zle_Qle.
Qed.

Lemma to_float64_int_pos (z : Z) : (1 <= z)%Z -> 0 < to_float64 (inject_Z z).
Proof.
  intro Hz. unfold to_float64.
  assert (Hne : Qeq_bool (inject_Z z) 0 = false).
  { destruct (Qeq_bool (inject_Z z) 0) eqn:E; [|reflexivity].
    apply Qeq_bool_eq in E. unfold Qeq in E. simpl in E. lia. }
  rewrite Hne, Qred_correct.
  assert (Habs : Qabs (inject_Z z) = inject_Z z).
  { unfold Qabs, inject_Z. simpl. f_equal. lia. }
  rewrite Habs.
  assert (Hlog : ilog2 (inject_Z z) = Z.log2 z).
  { unfold ilog2. simpl Qnum. simpl Qden. change (Z.log2 1) with 0%Z.
    rewrite Z.sub_0_r.
    assert (Hle : Qle_bool (pow2 (Z.log2 z)) (inject_Z z) = true).
    { apply Qle_bool_iff. apply pow2_le_int; lia. }
    now rewrite Hle. }
  rewrite Hlog.
  pose proof (Z.log2_nonneg z) as Hl.
  replace (Z.max (Z.log2 z - 52) (-1074)) with (Z.log2 z - 52)%Z by lia.
  set (e := (Z.log2 z - 52)%Z).
  pose proof (pow2_pos e) as Hp.
  assert (Hq : 1 <= inject_Z z / pow2 e).
  { apply Qle_shift_div_l; [exact Hp|]. rewrite Qmult_1_l.
    apply pow2_le_int; [exact Hz|unfold e; lia]. }
  apply round_half_even_ge_1 in Hq. rewrite Zle_Qle in Hq.
  change (inject_Z 1) with 1 in Hq.
  apply Qlt_le_trans with (1 * pow2 e); [lra|].
  apply Qmult_le_compat_r; [exact Hq|lra].
Qed.

(** ** Tiered rule assembler *)

Lemma select_by_strategy_In (i : nat) (first : Part) (rest : DataFrame) :
  In (select_by_strategy i first (first :: rest)) (first :: rest).
Proof.
  unfold select_by_strategy. destruct i as [|[|i]].
  - now left.
  - destruct (1 <? List.length (first :: rest))%nat eqn:E; [|now left].
    apply nth_In. apply Nat.ltb_lt in E.
    apply Nat.div_lt; lia.
  - destruct (exists_last (l := first :: rest)) as (l' & a & Hl); [congruence|].
    rewrite Hl, last_last. apply in_or_app. right. now left.
Qed.

Lemma recommend_builds_inv (part_files : list (string * string))
    (price_dtype : string -> dtype) (parts_data : Catalog) (budget : number)
    (b : RuleBuild) :
  In b (recommend_builds_rule_based part_files price_dtype parts_data budget) ->
  forallb (dict_mem parts_data) (map fst part_files) = true
  /\ exists i, (i < 3)%nat /\
       assemble_strategy price_dtype i parts_data [] (Int 0) budget
       = Some (rb_parts b, rb_cost b)
       /\ rb_remaining b = num_sub budget (rb_cost b)
       /\ rb_type b = build_type i.
Proof.
  unfold recommend_builds_rule_based.
  destruct (forallb (dict_mem parts_data) (map fst part_files)); simpl negb; cbv iota;
    [|intros []].
  intro H. split; [reflexivity|].
  apply in_flat_map in H. destruct H as (i & Hi & Hb).
  apply in_seq in Hi. exists i. split; [lia|].
  destruct (assemble_strategy price_dtype i parts_data [] (Int 0) budget)
    as [[build cost]|]; [|destruct Hb].
  destruct Hb as [<-|[]]. simpl. auto.
Qed.

(** C1 fails in the code.  The eight prices of [round_off_catalog] are the
    doubles nearest to decimals that add up to 1500.00, and the budget is
    1500.  Every filter [price <= temp_budget] lets the record through, but
    the running cost, rounded after each addition, ends one unit in the
    last place above 1500: each of the three builds returned has a cost
    above the budget and a negative [remaining]. *)
Theorem recommend_builds_rule_based_exceeds_budget :
  380.82 + 553.98 + 152.46 + 97.01 + 61.44 + 102.88 + 81.94 + 69.47 == 1500
  /\ exists parts cost remaining,
       recommend_builds_rule_based PART_FILE_NAMES (fun _ => float64)
         round_off_catalog (Float 1500)
       = [mkRuleBuild parts cost remaining (build_type 0);
          mkRuleBuild parts cost remaining (build_type 1);
          mkRuleBuild parts cost remaining (build_type 2)]
       /\ map fst parts = PART_FILES
       /\ num_val cost == 1500 + 1 / inject_Z (2 ^ 42)
       /\ 1500 < num_val cost
       /\ num_val remaining < 0.
Proof.
  split; [reflexivity|].
  eexists. eexists. eexists. split; [vm_compute; reflexivity|].
  split; [reflexivity|]. split; [reflexivity|]. split; reflexivity.
Qed.

(** ** Dicts, masks and columns *)

Lemma dict_get_set_same {V : Type} (d : list (string * V)) (k : string) (v : V) :
  dict_get (dict_set d k v) k = Some v.
Proof.
  induction d as [|[k' v'] d IH]; simpl.
  - now rewrite String.eqb_refl.
  - destruct (String.eqb k' k) eqn:E; simpl; rewrite E; [reflexivity|exact IH].
Qed.

Lemma dict_get_set_other {V : Type} (d : list (string * V)) (k k' : string) (v : V) :
  k <> k' -> dict_get (dict_set d k v) k' = dict_get d k'.
Proof.
  intro Hne. induction d as [|[k0 v0] d IH]; simpl.
  - apply String.eqb_neq in Hne. now rewrite Hne.
  - destruct (String.eqb k0 k) eqn:E; simpl.
    + apply String.eqb_eq in E. subst k0.
      apply String.eqb_neq in Hne. now rewrite Hne.
    + destruct (String.eqb k0 k'); [reflexivity|exact IH].
Qed.

Lemma cell_eqb_eq (a b : cell) : cell_eqb a b = true <-> cell_eq a b.
Proof.
  destruct a, b; simpl; try (split; [discriminate|tauto]).
  - apply Qeq_bool_iff.
  - apply String.eqb_eq.
Qed.

Lemma boolean_index_nth (df : DataFrame) :
  forall mask p, In p (boolean_index df mask) ->
    exists n, nth_error df n = Some p /\ nth_error mask n = Some true.
Proof.
  unfold boolean_index.
  induction df as [|r df IH]; intros mask p H; [destruct H|].
  destruct mask as [|b mask]; [destruct H|]. simpl in H.
  destruct b; simpl in H.
  - destruct H as [<-|H]; [exists 0%nat; auto|].
    destruct (IH mask p H) as (n & Hn). exists (S n). exact Hn.
  - destruct (IH mask p H) as (n & Hn). exists (S n). exact Hn.
Qed.

Lemma mask_and_nth (m1 : list bool) :
  forall m2 n, nth_error (mask_and m1 m2) n = Some true ->
    nth_error m1 n = Some true /\ nth_error m2 n = Some true.
Proof.
  unfold mask_and.
  induction m1 as [|a m1 IH]; intros m2 n H; [destruct n; discriminate|].
  destruct m2 as [|b m2]; [destruct n; discriminate|].
  destruct n as [|n]; simpl in *.
  - inversion H as [Hab]. apply andb_true_iff in Hab. destruct Hab; subst. auto.
  - now apply IH.
Qed.

Lemma column_nth (k : string) (df : DataFrame) :
  forall cs n p, column df k = Ok cs -> nth_error df n = Some p ->
    exists c, nth_error cs n = Some c /\ part_get p k = Some c.
Proof.
  unfold column.
  induction df as [|r df IH]; intros cs n p H Hn; [destruct n; discriminate|].
  simpl in H. unfold part_item in H at 1.
  destruct (part_get r k) as [c|] eqn:Er; [|discriminate]. simpl in H.
  destruct (mapM (fun p0 => part_item p0 k) df) as [cs'|] eqn:Em; [|discriminate].
  simpl in H. inversion H; subst cs.
  destruct n as [|n]; simpl in *.
  - inversion Hn; subst. eauto.
  - eapply IH; eauto.
Qed.

(** Rows kept by a socket mask (alone, or together with a price mask) have
    the processor's socket. *)
Lemma socket_mask_sound (motherboard_df : DataFrame) (selected_cpu : Part)
    (mask : list bool) (n : nat) (m : Part) :
  socket_mask motherboard_df selected_cpu = Ok mask ->
  nth_error motherboard_df n = Some m ->
  nth_error mask n = Some true ->
  same_socket selected_cpu m.
Proof.
  unfold socket_mask. intros H Hm Hb.
  destruct (column motherboard_df "socket") as [sockets|] eqn:Ec; [|discriminate].
  simpl in H. unfold part_item in H.
  destruct (part_get selected_cpu "socket") as [s|] eqn:Es; [|discriminate].
  simpl in H. inversion H; subst mask.
  destruct (column_nth _ _ _ _ _ Ec Hm) as (c & Hc & Hg).
  rewrite nth_error_map, Hc in Hb. simpl in Hb. inversion Hb as [Hcb].
  exists s, c. repeat split; try assumption.
  now apply cell_eqb_eq.
Qed.

Lemma insert_by_price_In (p q : Part) (l : DataFrame) :
  In q (insert_by_price p l) <-> q = p \/ In q l.
Proof.
  induction l as [|y t IH]; simpl.
  - intuition congruence.
  - destruct (Qle_bool (price p) (price y)); simpl; [intuition congruence|].
    rewrite IH. intuition congruence.
Qed.

Lemma sort_values_price_In (q : Part) (df : DataFrame) :
  In q (sort_values_price df) <-> In q df.
Proof.
  unfold sort_values_price. induction df as [|p df IH]; simpl; [tauto|].
  rewrite insert_by_price_In, IH. intuition congruence.
Qed.

Lemma head1_In (q : Part) (df : DataFrame) : In q (head1 df) -> In q df.
Proof.
  unfold head1. destruct df as [|p df]; simpl; [tauto|]. intros [<-|[]]. now left.
Qed.

(** ** Scenario smart assembler *)

Lemma part_get_set_score (p : Part) (s : Q) (k : string) :
  k <> "score" -> part_get (set_score p s) k = part_get p k.
Proof.
  intro Hne. unfold part_get, set_score. simpl.
  destruct (String.eqb k "price"); [reflexivity|].
  apply dict_get_set_other. congruence.
Qed.

Lemma same_socket_set_score (cpu mb : Part) (s1 s2 : Q) :
  same_socket cpu mb <-> same_socket (set_score cpu s1) (set_score mb s2).
Proof.
  unfold same_socket. rewrite !part_get_set_score by discriminate. tauto.
Qed.

(** Every motherboard candidate table is non-empty, is drawn from the
    motherboard table, and holds only boards with the processor's socket. *)
Lemma motherboard_candidates_sound (motherboard_df : DataFrame)
    (selected_cpu : Part) (remaining_budget : Q) (candidates : DataFrame) :
  motherboard_candidates motherboard_df selected_cpu remaining_budget
  = Ok (Some candidates) ->
  candidates <> [] /\
  forall m, In m candidates -> In m motherboard_df /\ same_socket selected_cpu m.
Proof.
  unfold motherboard_candidates.
  destruct (socket_mask motherboard_df selected_cpu) as [mask|] eqn:Es;
    [|discriminate]. simpl bind.
  assert (Hfilter : forall bound m,
             In m (boolean_index motherboard_df
                     (mask_and mask (price_mask bound motherboard_df))) ->
             In m motherboard_df /\ same_socket selected_cpu m).
  { intros bound m Hm. apply boolean_index_nth in Hm. destruct Hm as (n & Hn & Hb).
    apply mask_and_nth in Hb. destruct Hb as [Hb _].
    split; [eapply nth_error_In; eassumption|].
    eapply socket_mask_sound; eassumption. }
  assert (Hcheapest : forall m,
             In m (head1 (sort_values_price (boolean_index motherboard_df mask))) ->
             In m motherboard_df /\ same_socket selected_cpu m).
  { intros m Hm. apply head1_In, sort_values_price_In, boolean_index_nth in Hm.
    destruct Hm as (n & Hn & Hb).
    split; [eapply nth_error_In; eassumption|].
    eapply socket_mask_sound; eassumption. }
  repeat match goal with
         | |- context [if ?b then _ else _] => destruct b eqn:?
         end;
    intro H; inversion H; subst candidates; clear H;
    (split; [apply empty_false;
             first [assumption | now apply negb_true_iff]
            | first [apply Hfilter | apply Hcheapest]]).
Qed.

Lemma select_remaining_part_Some (parts_data : Catalog) (weights : Weights)
    (normalization_ranges : Ranges) (current_allocations : list (string * Q))
    (budget : Q) (build : Build) (cost remaining : Q) (part_type : string)
    (st' : SmartState) :
  select_remaining_part parts_data weights normalization_ranges
    current_allocations budget (build, cost, remaining) part_type = Some st' ->
  exists df c,
    dict_get parts_data part_type = Some df /\ In c df
    /\ (price c <= remaining * get_or current_allocations part_type 0.1
        \/ price c <= remaining)
    /\ exists s,
        st' = (dict_set build part_type (set_score c s),
               cost + price c, budget - (cost + price c)).
Proof.
  unfold select_remaining_part.
  destruct (dict_get parts_data part_type) as [df|]; [|discriminate].
  set (alloc := remaining * get_or current_allocations part_type 0.1).
  destruct (empty (price_le alloc df)) eqn:E1.
  - destruct (empty (price_le remaining df)) eqn:E2.
    + destruct (negb (empty df)); simpl; rewrite ?E2; simpl; intro H; discriminate H.
    + simpl. rewrite E2. simpl.
      destruct (_select_best_part_by_score (price_le remaining df) _ _ _)
        as [p|] eqn:Es; [|discriminate].
      intro H. inversion H; subst st'; clear H.
      apply select_best_In in Es. destruct Es as (c & Hc & ->).
      apply price_le_In in Hc. destruct Hc as [Hc Hle].
      exists df, c. repeat split; auto. eexists. reflexivity.
  - simpl. rewrite E1. simpl.
    destruct (_select_best_part_by_score (price_le alloc df) _ _ _)
      as [p|] eqn:Es; [|discriminate].
    intro H. inversion H; subst st'; clear H.
    apply select_best_In in Es. destruct Es as (c & Hc & ->).
    apply price_le_In in Hc. destruct Hc as [Hc Hle].
    exists df, c. repeat split; auto. eexists. reflexivity.
Qed.

Lemma select_remaining_parts_keeps (parts_data : Catalog) (weights : Weights)
    (normalization_ranges : Ranges) (current_allocations : list (string * Q))
    (budget : Q) (k : string) (order : list string) :
  ~ In k order ->
  forall build cost remaining build' cost' remaining',
    select_remaining_parts parts_data weights normalization_ranges
      current_allocations budget order (build, cost, remaining)
    = Some (build', cost', remaining') ->
    dict_get build' k = dict_get build k.
Proof.
  induction order as [|part_type rest IH]; intros Hk build cost remaining
    build' cost' remaining' H; cbn [select_remaining_parts] in H.
  - now inversion H.
  - destruct (select_remaining_part parts_data weights normalization_ranges
                current_allocations budget (build, cost, remaining) part_type)
      as [st1|] eqn:E; [|discriminate].
    apply select_remaining_part_Some in E.
    destruct E as (df & c & _ & _ & _ & s & ->).
    apply IH in H; [|intro Hin; apply Hk; now right].
    rewrite H. apply dict_get_set_other. intros ->. apply Hk. now left.
Qed.

(** What a successful run of the smart assembler went through. *)
Lemma smart_inv (parts_data : Catalog) (normalization_ranges : Ranges)
    (scenario : string) (budget : Q) (build : Build) :
  generate_smart_recommendation_rule_based parts_data normalization_ranges
    scenario budget = Ok (Some build) ->
  exists cpu_df motherboard_df selected_cpu candidates selected_motherboard cost remaining,
    dict_get parts_data "CPU" = Some cpu_df
    /\ dict_get parts_data "Motherboard" = Some motherboard_df
    /\ _select_best_part_by_score (cpu_candidates cpu_df budget)
         (get_or (get_or feature_weights scenario general_use_weights) "CPU" [])
         normalization_ranges "CPU" = Some selected_cpu
    /\ motherboard_candidates motherboard_df selected_cpu
         (budget - (0 + price selected_cpu)) = Ok (Some candidates)
    /\ _select_best_part_by_score candidates
         (get_or (get_or feature_weights scenario general_use_weights) "Motherboard" [])
         normalization_ranges "Motherboard" = Some selected_motherboard
    /\ select_remaining_parts parts_data
         (get_or feature_weights scenario general_use_weights) normalization_ranges
         (get_or budget_allocation_priority scenario general_use_allocations)
         budget part_types_order
         (dict_set (dict_set [] "CPU" selected_cpu) "Motherboard" selected_motherboard,
          0 + price selected_cpu + price selected_motherboard,
          budget - (0 + price selected_cpu + price selected_motherboard))
       = Some (build, cost, remaining).
Proof.
  unfold generate_smart_recommendation_rule_based.
  destruct (dict_get parts_data "CPU") as [cpu_df|]; [|discriminate].
  destruct (dict_get parts_data "Motherboard") as [motherboard_df|]; [|discriminate].
  destruct (empty (cpu_candidates cpu_df budget)); [discriminate|].
  destruct (_select_best_part_by_score (cpu_candidates cpu_df budget) _ _ _)
    as [selected_cpu|] eqn:Ecpu; [|discriminate].
  cbv zeta.
  destruct (motherboard_candidates motherboard_df selected_cpu _)
    as [[candidates|]|] eqn:Ecand; unfold bind; try discriminate.
  destruct (_select_best_part_by_score candidates _ _ _)
    as [selected_motherboard|] eqn:Emb; [|discriminate].
  match goal with
  | |- context [select_remaining_parts ?a ?w ?r ?al ?bu ?o ?st] =>
      destruct (select_remaining_parts a w r al bu o st)
        as [[[b cost] remaining]|] eqn:Erem; [|discriminate]
  end.
  destruct (forallb (dict_mem b) required_parts); [|discriminate].
  intro H. inversion H; subst b.
  exists cpu_df, motherboard_df, selected_cpu, candidates, selected_motherboard,
    cost, remaining.
  repeat split; assumption.
Qed.

(** C2: a build returned by the smart assembler holds a processor and a
    motherboard of the same socket; and every motherboard candidate table
    (first allocation, widened allocation, cheapest-compatible fallback)
    holds only boards of the motherboard table with the chosen processor's
    socket. *)
Theorem smart_socket_compatible (parts_data : Catalog)
    (normalization_ranges : Ranges) (scenario : string) (budget : Q) :
  (forall build,
      generate_smart_recommendation_rule_based parts_data normalization_ranges
        scenario budget = Ok (Some build) ->
      exists cpu mb,
        dict_get build "CPU" = Some cpu /\ dict_get build "Motherboard" = Some mb
        /\ same_socket cpu mb)
  /\ (forall motherboard_df selected_cpu remaining_budget candidates,
        motherboard_candidates motherboard_df selected_cpu remaining_budget
        = Ok (Some candidates) ->
        forall m, In m candidates ->
          In m motherboard_df /\ same_socket selected_cpu m).
Proof.
  split.
  - intros build H. apply smart_inv in H.
    destruct H as (cpu_df & motherboard_df & cpu & candidates & mb & cost & remaining
                   & _ & _ & Hcpu & Hcand & Hmb & Hrest).
    exists cpu, mb.
    assert (Hkeep : forall k, ~ In k part_types_order ->
               dict_get build k
               = dict_get (dict_set (dict_set [] "CPU" cpu) "Motherboard" mb) k).
    { intros k Hk. eapply select_remaining_parts_keeps; eassumption. }
    split; [|split].
    + rewrite Hkeep by (simpl; intuition discriminate). reflexivity.
    + rewrite Hkeep by (simpl; intuition discriminate). reflexivity.
    + apply motherboard_candidates_sound in Hcand. destruct Hcand as [_ Hcand].
      apply select_best_In in Hmb. destruct Hmb as (m & Hm & ->).
      destruct (Hcand m Hm) as [_ Hs].
      unfold same_socket in *. rewrite part_get_set_score by discriminate. exact Hs.
  - intros motherboard_df selected_cpu remaining_budget candidates H.
    now apply motherboard_candidates_sound in H.
Qed.

Lemma smart_socket_compatible_witness :
  exists build cpu mb,
    generate_smart_recommendation_rule_based demo_catalog demo_ranges "Gaming" 2000
    = Ok (Some build)
    /\ dict_get build "CPU" = Some cpu /\ dict_get build "Motherboard" = Some mb
    /\ part_get cpu "socket" = Some (CStr "AM4")
    /\ same_socket cpu mb.
Proof.
  destruct (generate_smart_recommendation_rule_based demo_catalog demo_ranges
              "Gaming" 2000) as [[build|]|] eqn:E; try (vm_compute in E; discriminate).
  destruct (smart_socket_compatible demo_catalog demo_ranges "Gaming" 2000) as [H _].
  destruct (H build E) as (cpu & mb & Hc & Hm & Hs).
  exists build, cpu, mb. repeat split; try assumption.
  vm_compute in E. inversion E; subst build. vm_compute in Hc.
  inversion Hc; subst cpu. reflexivity.
Defined.

Lemma price_le_nil (bound : Q) (df : DataFrame) :
  (forall p, In p df -> bound < price p) -> price_le bound df = [].
Proof.
  unfold price_le. induction df as [|p df IH]; intro Hb; [reflexivity|]. simpl.
  assert (Hp : Qle_bool (price p) bound = false).
  { apply Qle_bool_false. apply Hb. now left. }
  rewrite Hp. apply IH. intros q Hq. apply Hb. now right.
Qed.

(** The cheapest-record fallback of the remaining categories: when no
    record of a non-empty table fits the allocated share nor the whole
    remaining budget, line 362 picks the cheapest record, but the candidate
    table is still empty at line 367, so the iteration ends the whole
    assembly with [None] (line 378) and the picked record is never
    included. *)
Lemma select_remaining_part_fallback (parts_data : Catalog) (weights : Weights)
    (normalization_ranges : Ranges) (current_allocations : list (string * Q))
    (budget : Q) (build : Build) (cost remaining : Q) (part_type : string)
    (df : DataFrame) :
  dict_get parts_data part_type = Some df ->
  df <> [] ->
  (forall p, In p df ->
     remaining * get_or current_allocations part_type 0.1 < price p
     /\ remaining < price p) ->
  select_remaining_part parts_data weights normalization_ranges
    current_allocations budget (build, cost, remaining) part_type = None.
Proof.
  intros Hdf Hne Hexp. unfold select_remaining_part. rewrite Hdf.
  pose proof (fun bound => price_le_nil bound df) as E.
  rewrite (E (remaining * get_or current_allocations part_type 0.1))
    by (intros p Hp; apply (Hexp p Hp)).
  simpl empty. cbv iota.
  rewrite (E remaining) by (intros p Hp; apply (Hexp p Hp)).
  simpl. destruct df; [congruence|reflexivity].
Qed.

(** C3 (the code departs from it): budget 500, scenario Gaming, on a
    catalog whose only graphics card costs 1000.  The processor (100) and
    the motherboard (80) are selected and 320 remains; the card fits neither
    the share of 160 nor the remaining 320.  The graphics card iteration
    then ends with [None] whatever the build so far and the normalization
    ranges, and the assembler returns no build: the cheapest record is not
    included. *)
Theorem smart_fallback_drops_build :
  dict_get pricey_gpu_catalog "GPU" = Some [row "Titan" 1000 [("VRAM", CNum 24)]]
  /\ (forall normalization_ranges build,
        select_remaining_part pricey_gpu_catalog
          (get_or feature_weights "Gaming" general_use_weights) normalization_ranges
          (get_or budget_allocation_priority "Gaming" general_use_allocations) 500
          (build, 180, 320) "GPU" = None)
  /\ (forall normalization_ranges,
        generate_smart_recommendation_rule_based pricey_gpu_catalog
          normalization_ranges "Gaming" 500 = Ok None).
Proof.
  split; [reflexivity|]. split; [|intro; reflexivity].
  intros normalization_ranges build.
  apply (select_remaining_part_fallback pricey_gpu_catalog _ normalization_ranges _ 500 build
           180 320 "GPU" [row "Titan" 1000 [("VRAM", CNum 24)]]).
  - reflexivity.
  - discriminate.
  - intros p [<-|[]]. split; reflexivity.
Qed.


Lemma dict_get_In {V : Type} (d : list (string * V)) (k : string) (v : V) :
  dict_get d k = Some v -> In (k, v) d.
Proof.
  induction d as [|[k' v'] d IH]; simpl; [discriminate|].
  destruct (String.eqb k' k) eqn:E.
  - apply String.eqb_eq in E. intro H. inversion H; subst. now left.
  - intro H. right. now apply IH.
Qed.




Lemma build_cost_set_fresh (b : Build) (k : string) (p : Part) :
  forall acc, dict_get b k = None ->
    fold_left (fun a kp => a + price (snd kp)) (dict_set b k p) acc
    == fold_left (fun a kp => a + price (snd kp)) b acc + price p.
Proof.
  induction b as [|[k' v'] b IH]; intros acc H; simpl.
  - reflexivity.
  - simpl in H. destruct (String.eqb k' k); [discriminate|]. simpl. now apply IH.
Qed.


Lemma prices_nonnegb_sound (parts_data : Catalog) :
  prices_nonnegb parts_data = true -> prices_nonneg parts_data.
Proof.
  unfold prices_nonnegb, prices_nonneg. intros H part_type df p Hdf Hp.
  rewrite forallb_forall in H. specialize (H _ Hdf). simpl in H.
  rewrite forallb_forall in H. apply Qle_bool_iff. now apply H.
Qed.

Lemma part_types_order_NoDup : NoDup part_types_order.
Proof.
  unfold part_types_order.
  repeat (constructor; [simpl; intuition discriminate|]). constructor.
Qed.



(** ** Stochastic search assembler: ranking *)

Lemma key_leb_total (a b : option Q) : key_leb a b = false -> key_leb b a = true.
Proof.
  destruct a as [x|], b as [y|]; simpl; try congruence.
  intro H. apply Qle_bool_false in H. apply Qle_bool_iff. lra.
Qed.

Lemma key_leb_trans (a b c : option Q) :
  key_leb a b = true -> key_leb b c = true -> key_leb a c = true.
Proof.
  destruct a as [x|], b as [y|], c as [z|]; simpl; try congruence.
  rewrite !Qle_bool_iff. lra.
Qed.

Lemma insert_by_score_In (x y : ScoredBuild) (l : list ScoredBuild) :
  In y (insert_by_score x l) <-> y = x \/ In y l.
Proof.
  induction l as [|z t IH]; simpl.
  - intuition congruence.
  - destruct (key_leb (sb_ml_score z) (sb_ml_score x)); simpl; [intuition congruence|].
    rewrite IH. intuition congruence.
Qed.

Lemma insert_by_score_sorted (x : ScoredBuild) (l : list ScoredBuild) :
  sorted_desc l -> sorted_desc (insert_by_score x l).
Proof.
  induction l as [|y t IH]; intro Hs; simpl.
  - split; [intros z []|exact I].
  - destruct Hs as [Hy Ht].
    destruct (key_leb (sb_ml_score y) (sb_ml_score x)) eqn:E.
    + split; [|split; assumption].
      intros z [<-|Hz]; [exact E|].
      eapply key_leb_trans; [apply Hy, Hz|exact E].
    + split; [|apply IH, Ht].
      intros z Hz. apply insert_by_score_In in Hz. destruct Hz as [->|Hz].
      * now apply key_leb_total.
      * now apply Hy.
Qed.

Lemma sort_by_score_desc_sorted (l : list ScoredBuild) :
  sorted_desc (sort_by_score_desc l).
Proof.
  unfold sort_by_score_desc. induction l as [|x l IH]; simpl; [exact I|].
  now apply insert_by_score_sorted.
Qed.

Lemma sort_by_score_desc_In (y : ScoredBuild) (l : list ScoredBuild) :
  In y (sort_by_score_desc l) <-> In y l.
Proof.
  unfold sort_by_score_desc. induction l as [|x l IH]; simpl; [tauto|].
  rewrite insert_by_score_In, IH. intuition congruence.
Qed.

Lemma firstn_incl {A : Type} (n : nat) (l : list A) (x : A) :
  In x (firstn n l) -> In x l.
Proof.
  revert n. induction l as [|y l IH]; intros [|n]; simpl; try tauto.
  intros [->|H]; [now left|right; eapply IH; exact H].
Qed.

Lemma firstn_sorted (n : nat) (l : list ScoredBuild) :
  sorted_desc l -> sorted_desc (firstn n l).
Proof.
  revert n. induction l as [|x l IH]; intros [|n] Hs; simpl; try exact I.
  destruct Hs as [Hx Hl]. split; [|now apply IH].
  intros y Hy. apply Hx. eapply firstn_incl; exact Hy.
Qed.

Lemma slice_to_sorted (l : list ScoredBuild) (k : Z) :
  sorted_desc l -> sorted_desc (slice_to l k).
Proof.
  intro Hs. unfold slice_to. destruct (0 <=? k)%Z; now apply firstn_sorted.
Qed.

Lemma slice_to_In {A : Type} (l : list A) (k : Z) (x : A) :
  In x (slice_to l k) -> In x l.
Proof.
  unfold slice_to. destruct (0 <=? k)%Z; apply firstn_incl.
Qed.

Lemma slice_to_length {A : Type} (l : list A) (k : Z) :
  (0 <= k)%Z -> (Z.of_nat (List.length (slice_to l k)) <= k)%Z.
Proof.
  intro Hk. unfold slice_to. apply Z.leb_le in Hk. rewrite Hk.
  apply Z.leb_le in Hk. pose proof (firstn_le_length (Z.to_nat k) l). lia.
Qed.

(** C4 (amended): the list returned by the sampling assembler is sorted by
    score in descending order, and for [top_n >= 0] it holds at most
    [top_n] builds. *)
Theorem generate_ml_sorted_top_n (ml_models : Models) (parts_data : Catalog)
    (rand : nat -> nat -> nat) (budget : Q) (scenario : string)
    (num_samples top_n : Z) (top_ml_builds : list ScoredBuild) :
  generate_ml_based_recommendations ml_models parts_data rand budget scenario
    num_samples top_n = Ok top_ml_builds ->
  sorted_desc top_ml_builds
  /\ ((0 <= top_n)%Z -> (Z.of_nat (List.length top_ml_builds) <= top_n)%Z).
Proof.
  unfold generate_ml_based_recommendations.
  destruct (dict_get ml_models scenario) as [[model|]|].
  2,3: intro H; inversion H; subst; simpl; split; [exact I|lia].
  destruct (sample_loop ml_models parts_data rand budget scenario
              (seq 0 (Z.to_nat num_samples)) []) as [all|e]; unfold bind;
    [|discriminate].
  intro H. inversion H; subst top_ml_builds. split.
  - apply slice_to_sorted, sort_by_score_desc_sorted.
  - apply slice_to_length.
Qed.

Lemma generate_ml_sorted_top_n_witness :
  exists top_ml_builds,
    generate_ml_based_recommendations demo_models demo_catalog zero_rand 2000
      "General Use" 5 3 = Ok top_ml_builds
    /\ List.length top_ml_builds = 3%nat
    /\ sorted_desc top_ml_builds
    /\ (Z.of_nat (List.length top_ml_builds) <= 3)%Z.
Proof.
  destruct (generate_ml_based_recommendations demo_models demo_catalog zero_rand 2000
              "General Use" 5 3) as [l|] eqn:E; [|vm_compute in E; discriminate].
  exists l. split; [reflexivity|].
  destruct (generate_ml_sorted_top_n demo_models demo_catalog zero_rand 2000
              "General Use" 5 3 l E) as [Hs Hl].
  split; [|split; [exact Hs|apply Hl; lia]].
  vm_compute in E. inversion E; subst l. reflexivity.
Defined.

(** C4 as stated fails for a negative [top_n]: Python's [l[:-1]] drops the
    last element only, so of two scored builds one is returned. *)
Lemma generate_ml_negative_top_n :
  exists top_ml_builds,
    generate_ml_based_recommendations demo_models demo_catalog zero_rand 2000
      "General Use" 2 (-1) = Ok top_ml_builds
    /\ List.length top_ml_builds = 1%nat
    /\ ~ (Z.of_nat (List.length top_ml_builds) <= -1)%Z.
Proof.
  eexists. split; [vm_compute; reflexivity|]. split; [reflexivity|].
  simpl. lia.
Qed.

(** C9: with [num_samples = 0] the sampling assembler returns the empty
    list (no exception), whatever the budget, scenario and [top_n]. *)
Theorem generate_ml_zero_samples (ml_models : Models) (parts_data : Catalog)
    (rand : nat -> nat -> nat) (budget : Q) (scenario : string) (top_n : Z) :
  generate_ml_based_recommendations ml_models parts_data rand budget scenario
    0 top_n = Ok [].
Proof.
  unfold generate_ml_based_recommendations.
  destruct (dict_get ml_models scenario) as [[model|]|]; try reflexivity.
  simpl. unfold slice_to. destruct (0 <=? top_n)%Z; now rewrite firstn_nil.
Qed.

(** ** Stochastic search assembler: trials *)

Lemma sample1_In (r : nat) (first : Part) (rest : DataFrame) :
  In (sample1 r first (first :: rest)) (first :: rest).
Proof.
  unfold sample1. apply nth_In. apply Nat.mod_upper_bound. simpl. lia.
Qed.

Lemma boolean_index_incl (df : DataFrame) (mask : list bool) (p : Part) :
  In p (boolean_index df mask) -> In p df.
Proof.
  intro H. apply boolean_index_nth in H. destruct H as (n & Hn & _).
  eapply nth_error_In; exact Hn.
Qed.

Lemma dict_mem_set_same {V : Type} (d : list (string * V)) (k : string) (v : V) :
  dict_mem (dict_set d k v) k = true.
Proof. unfold dict_mem. now rewrite dict_get_set_same. Qed.

Lemma dict_mem_set_mono {V : Type} (d : list (string * V)) (k k' : string) (v : V) :
  dict_mem d k' = true -> dict_mem (dict_set d k v) k' = true.
Proof.
  destruct (String.eqb k k') eqn:E.
  - apply String.eqb_eq in E. subst. intros _. apply dict_mem_set_same.
  - apply String.eqb_neq in E. unfold dict_mem.
    now rewrite dict_get_set_other.
Qed.

(** One iteration of the loop over the remaining part types. *)
Lemma sample_remaining_step (parts_data : Catalog) (rand : nat -> nat)
    (part_type : string) (rest : list string) (draw : nat) (build : Build)
    (cost temp : Q) (out : Build * Q) :
  sample_remaining parts_data rand (part_type :: rest) draw build cost temp = Ok out ->
  exists df p,
    dict_get parts_data part_type = Some df /\ In p df
    /\ sample_remaining parts_data rand rest (S draw)
         (dict_set build part_type p) (cost + price p) (temp - price p) = Ok out.
Proof.
  cbn [sample_remaining].
  destruct (dict_get parts_data part_type) as [[|cheapest df]|]; try discriminate.
  intro H. exists (cheapest :: df).
  destruct (price_le temp (cheapest :: df)) as [|first tl] eqn:E.
  - exists cheapest. split; [reflexivity|split; [now left|exact H]].
  - exists (sample1 (rand draw) first (first :: tl)).
    split; [reflexivity|split; [|exact H]].
    pose proof (sample1_In (rand draw) first tl) as Hin.
    rewrite <- E in Hin at 2. now apply price_le_In in Hin.
Qed.

Lemma sample_remaining_sound (parts_data : Catalog) (rand : nat -> nat)
    (order : list string) :
  NoDup order ->
  forall draw build cost temp build' cost',
    (forall k, In k order -> dict_get build k = None) ->
    cost == build_cost build ->
    sample_remaining parts_data rand order draw build cost temp = Ok (build', cost') ->
    cost' == build_cost build'
    /\ (forall k, dict_mem build k = true -> dict_mem build' k = true)
    /\ (forall k, In k order -> dict_mem build' k = true).
Proof.
  induction order as [|part_type rest IH];
    intros Hnd draw build cost temp build' cost' Hfresh Hcost H.
  - simpl in H. inversion H; subst. repeat split; auto; intros k [].
  - apply sample_remaining_step in H. destruct H as (df & p & _ & _ & H).
    inversion Hnd as [|x l Hnotin Hnd']; subst.
    apply IH in H; [|exact Hnd'| |].
    + destruct H as (Hc & Hmono & Hall). split; [exact Hc|]. split.
      * intros k Hk. apply Hmono. now apply dict_mem_set_mono.
      * intros k [<-|Hk]; [|now apply Hall]. apply Hmono, dict_mem_set_same.
    + intros k Hk. rewrite dict_get_set_other; [apply Hfresh; now right|].
      intros ->. contradiction.
    + unfold build_cost. rewrite build_cost_set_fresh by (apply Hfresh; now left).
      fold (build_cost build). now rewrite Hcost.
Qed.

Lemma sample_remaining_mono (parts_data : Catalog) (rand : nat -> nat)
    (order : list string) :
  prices_nonneg parts_data ->
  forall draw build cost temp build' cost',
    sample_remaining parts_data rand order draw build cost temp = Ok (build', cost') ->
    cost <= cost'.
Proof.
  intro Hnn. induction order as [|part_type rest IH];
    intros draw build cost temp build' cost' H.
  - simpl in H. inversion H; subst. apply Qle_refl.
  - apply sample_remaining_step in H. destruct H as (df & p & Hdf & Hp & H).
    apply IH in H. pose proof (Hnn _ _ _ (dict_get_In _ _ _ Hdf) Hp). lra.
Qed.

(** What a trial that reached its end went through. *)
Lemma sample_build_inv (parts_data : Catalog) (rand : nat -> nat) (budget : Q)
    (out : Build * Q) :
  sample_build parts_data rand budget = Ok out ->
  exists cpu_df cpu motherboard_df mb,
    dict_get parts_data "CPU" = Some cpu_df /\ In cpu cpu_df
    /\ dict_get parts_data "Motherboard" = Some motherboard_df /\ In mb motherboard_df
    /\ sample_remaining parts_data rand part_types_order 2
         [("CPU", cpu); ("Motherboard", mb)]
         (0 + price cpu + price mb) (budget - price cpu - price mb) = Ok out.
Proof.
  unfold sample_build.
  destruct (dict_get parts_data "CPU") as [[|c0 cpu_tl]|]; try discriminate.
  set (cpu_df := c0 :: cpu_tl).
  set (affordable_cpus :=
         if empty (price_le (budget * 0.4) cpu_df)
         then head1 (sort_values_price cpu_df)
         else price_le (budget * 0.4) cpu_df).
  assert (Hsub : forall p, In p affordable_cpus -> In p cpu_df).
  { intros p. unfold affordable_cpus.
    destruct (empty (price_le (budget * 0.4) cpu_df)); intro Hp.
    - apply head1_In in Hp. now apply (proj1 (sort_values_price_In _ _)) in Hp.
    - now apply price_le_In in Hp. }
  destruct affordable_cpus as [|first tl]; [discriminate|].
  set (cpu := sample1 (rand 0%nat) first (first :: tl)).
  assert (Hcpu : In cpu cpu_df) by (apply Hsub, sample1_In).
  destruct (dict_get parts_data "Motherboard") as [[|m0 mb_tl]|]; try discriminate.
  set (motherboard_df := m0 :: mb_tl).
  destruct (part_get cpu "socket") as [cpu_socket|]; [|discriminate].
  destruct (column motherboard_df "socket") as [sockets|e]; [|discriminate].
  unfold bind.
  set (same_socket := map (fun c => cell_eqb c cpu_socket) sockets).
  set (compatible :=
         boolean_index motherboard_df
           (mask_and same_socket
              (price_mask ((budget - price cpu) * 0.5) motherboard_df))).
  set (chosen := if empty compatible
                 then head1 (sort_values_price (boolean_index motherboard_df same_socket))
                 else compatible).
  assert (Hmsub : forall p, In p chosen -> In p motherboard_df).
  { intros p. unfold chosen. destruct (empty compatible); intro Hp.
    - apply head1_In in Hp. apply (proj1 (sort_values_price_In _ _)) in Hp.
      now apply boolean_index_incl in Hp.
    - now apply boolean_index_incl in Hp. }
  assert (Hchosen :
            (if empty compatible
             then Ok (head1 (sort_values_price (boolean_index motherboard_df same_socket)))
             else Ok compatible) = Ok chosen).
  { unfold chosen. now destruct (empty compatible). }
  rewrite Hchosen.
  destruct chosen as [|first_mb mtl]; [discriminate|].
  intro H.
  exists cpu_df, cpu, motherboard_df, (sample1 (rand 1%nat) first_mb (first_mb :: mtl)).
  split; [reflexivity|]. split; [exact Hcpu|]. split; [reflexivity|].
  split; [apply Hmsub, sample1_In|]. exact H.
Qed.

(** A finished trial filled all eight categories, and its running cost is
    the total price of its parts. *)
Lemma sample_build_complete (parts_data : Catalog) (rand : nat -> nat) (budget : Q)
    (build : Build) (cost : Q) :
  sample_build parts_data rand budget = Ok (build, cost) ->
  cost == build_cost build
  /\ forall k, In k PART_FILES -> dict_mem build k = true.
Proof.
  intro H. apply sample_build_inv in H.
  destruct H as (cpu_df & cpu & motherboard_df & mb & _ & _ & _ & _ & H).
  apply sample_remaining_sound in H.
  - destruct H as (Hc & Hmono & Hall). split; [exact Hc|].
    intros k Hk. unfold PART_FILES in Hk. simpl in Hk.
    destruct Hk as [<-|[<-|[<-|Hk]]].
    + now apply Hmono.
    + apply Hall. simpl. tauto.
    + now apply Hmono.
    + apply Hall. simpl. intuition.
  - apply part_types_order_NoDup.
  - intros k Hk. simpl in Hk.
    repeat (destruct Hk as [<-|Hk]; [reflexivity|]). destruct Hk.
  - reflexivity.
Qed.

(** On a catalog of positive prices a finished trial costs more than 0. *)
Lemma sample_build_positive (parts_data : Catalog) (rand : nat -> nat) (budget : Q)
    (build : Build) (cost : Q) :
  prices_positive parts_data ->
  sample_build parts_data rand budget = Ok (build, cost) ->
  0 < cost.
Proof.
  intros Hpos H. apply sample_build_inv in H.
  destruct H as (cpu_df & cpu & motherboard_df & mb & Hc & Hcpu & Hm & Hmb & H).
  apply sample_remaining_mono in H.
  - pose proof (Hpos _ _ _ (dict_get_In _ _ _ Hc) Hcpu).
    pose proof (Hpos _ _ _ (dict_get_In _ _ _ Hm) Hmb). lra.
  - intros part_type df p Hdf Hp. apply Qlt_le_weak. eapply Hpos; eassumption.
Qed.

Lemma predict_build_score_nonneg (ml_models : Models) (build_dict : Build)
    (scenario : string) (score : Q) :
  predict_build_score ml_models build_dict scenario = Some score -> 0 <= score.
Proof.
  unfold predict_build_score.
  destruct (dict_get ml_models scenario) as [[model|]|]; try discriminate.
  destruct (model _) as [prediction|]; [|discriminate].
  destruct (Qltb prediction 0) eqn:E; intro H; inversion H; subst score.
  - unfold py_max. destruct (Qltb 0 prediction) eqn:E0.
    + apply Qltb_lt in E0. lra.
    + apply Qle_refl.
  - now apply Qltb_ge in E.
Qed.

Lemma sample_loop_valid (ml_models : Models) (parts_data : Catalog)
    (rand : nat -> nat -> nat) (budget : Q) (scenario : string)
    (trials : list nat) :
  forall all_valid_ml_builds result,
    (forall b, In b all_valid_ml_builds -> valid_scored budget b) ->
    sample_loop ml_models parts_data rand budget scenario trials all_valid_ml_builds
    = Ok result ->
    forall b, In b result -> valid_scored budget b.
Proof.
  induction trials as [|i rest IH]; intros acc result Hacc H;
    cbn [sample_loop] in H.
  - now inversion H; subst.
  - destruct (sample_build parts_data (rand i) budget) as [[build cost]|[k|msg]] eqn:Et.
    + destruct (Qle_bool cost budget) eqn:Ec; [|eapply IH; eassumption].
      destruct (predict_build_score ml_models build scenario) as [score|] eqn:Ep;
        [|eapply IH; eassumption].
      eapply IH; [|exact H]. intros b Hb. apply in_app_or in Hb.
      destruct Hb as [Hb|[<-|[]]]; [now apply Hacc|].
      apply sample_build_complete in Et. destruct Et as [Hcost Hall].
      exists score. simpl. split; [reflexivity|].
      split; [eapply predict_build_score_nonneg; exact Ep|].
      split; [|exact Hall]. apply Qle_bool_iff in Ec. now rewrite <- Hcost.
    + discriminate.
    + eapply IH; eassumption.
Qed.

(** C6: every build returned by the sampling assembler has all eight
    categories filled, costs at most the budget, and carries a score that
    is not negative (a negative prediction is replaced by 0). *)
Theorem generate_ml_builds_valid (ml_models : Models) (parts_data : Catalog)
    (rand : nat -> nat -> nat) (budget : Q) (scenario : string)
    (num_samples top_n : Z) (top_ml_builds : list ScoredBuild) (b : ScoredBuild) :
  generate_ml_based_recommendations ml_models parts_data rand budget scenario
    num_samples top_n = Ok top_ml_builds ->
  In b top_ml_builds ->
  valid_scored budget b.
Proof.
  unfold generate_ml_based_recommendations.
  destruct (dict_get ml_models scenario) as [[model|]|].
  2,3: intro H; inversion H; subst; intros [].
  destruct (sample_loop ml_models parts_data rand budget scenario
              (seq 0 (Z.to_nat num_samples)) []) as [all|e] eqn:El; unfold bind;
    [|discriminate].
  intros H Hb. inversion H; subst top_ml_builds.
  apply slice_to_In in Hb. apply (proj1 (sort_by_score_desc_In _ _)) in Hb.
  eapply sample_loop_valid; [|exact El|exact Hb]. intros x [].
Qed.

Lemma generate_ml_builds_valid_witness :
  exists b,
    generate_ml_based_recommendations demo_models demo_catalog zero_rand 2000
      "Gaming" 2 3 = Ok [b; b]
    /\ sb_ml_score b = Some 0
    /\ valid_scored 2000 b.
Proof.
  destruct (generate_ml_based_recommendations demo_models demo_catalog zero_rand 2000
              "Gaming" 2 3) as [[|b [|b' [|b'' l]]]|] eqn:E;
    try (vm_compute in E; discriminate).
  exists b.
  pose proof (generate_ml_builds_valid demo_models demo_catalog zero_rand 2000
                "Gaming" 2 3 [b; b'] b E (or_introl eq_refl)) as Hv.
  vm_compute in E. inversion E; subst b b'.
  split; [reflexivity|]. split; [reflexivity|exact Hv].
Defined.

(** ** Budgets that are not positive *)

Lemma prices_positiveb_sound (parts_data : Catalog) :
  prices_positiveb parts_data = true -> prices_positive parts_data.
Proof.
  unfold prices_positiveb, prices_positive. intros H part_type df p Hdf Hp.
  rewrite forallb_forall in H. specialize (H _ Hdf). simpl in H.
  rewrite forallb_forall in H. apply Qltb_lt. now apply H.
Qed.

Lemma int64_prices_wholeb_sound (price_dtype : string -> dtype) (parts_data : Catalog) :
  int64_prices_wholeb price_dtype parts_data = true ->
  int64_prices_whole price_dtype parts_data.
Proof.
  unfold int64_prices_wholeb, int64_prices_whole. intros H part_type df p Hdf Hp Hdt.
  rewrite forallb_forall in H. specialize (H _ Hdf). simpl in H. rewrite Hdt in H.
  rewrite forallb_forall in H. apply Qeq_bool_eq. now apply H.
Qed.

(** A positive price is never within a budget that is not positive,
    whatever the dtypes of the two. *)
Lemma num_leb_positive_price (dt : dtype) (p : Part) (budget : number) :
  num_val budget <= 0 -> 0 < price p ->
  (dt = int64 -> price p == inject_Z (Qfloor (price p))) ->
  num_leb (price_scalar dt p) budget = false.
Proof.
  intros Hb Hp Hwhole. destruct dt; simpl price_scalar.
  - assert (Hz : (1 <= Qfloor (price p))%Z).
    { specialize (Hwhole eq_refl). rewrite Hwhole in Hp.
      change 0 with (inject_Z 0) in Hp. rewrite <- Zlt_Qlt in Hp. lia. }
    destruct budget as [zb|b]; simpl in Hb |- *.
    + change 0 with (inject_Z 0) in Hb. rewrite <- Zle_Qle in Hb.
      apply Z.leb_gt. lia.
    + apply Qle_bool_false. pose proof (to_float64_int_pos _ Hz). lra.
  - destruct budget as [zb|b]; simpl in Hb |- *; apply Qle_bool_false.
    + pose proof (to_float64_nonpos _ Hb). lra.
    + lra.
Qed.

Lemma column_outcome (df : DataFrame) (k : string) :
  (exists cs, column df k = Ok cs) \/ column df k = Raise (KeyError k).
Proof.
  unfold column. induction df as [|p df IH]; cbn [mapM].
  - left. eexists. reflexivity.
  - assert (Hp : (exists c, part_item p k = Ok c)
                 \/ part_item p k = Raise (KeyError k)).
    { unfold part_item. destruct (part_get p k); [left; eauto|now right]. }
    destruct Hp as [[c Hc]|Hc]; rewrite Hc.
    + destruct IH as [[cs Hcs]|Hr].
      * rewrite Hcs. left. eexists. reflexivity.
      * rewrite Hr. right. reflexivity.
    + right. reflexivity.
Qed.

Lemma sample_remaining_raises (parts_data : Catalog) (rand : nat -> nat)
    (order : list string) :
  forall draw build cost temp e,
    sample_remaining parts_data rand order draw build cost temp = Raise e ->
    exists msg, e = ValueError msg.
Proof.
  induction order as [|part_type rest IH]; intros draw build cost temp e H;
    cbn [sample_remaining] in H; [discriminate|].
  destruct (dict_get parts_data part_type) as [[|cheapest df]|].
  - inversion H. eauto.
  - eapply IH. exact H.
  - inversion H. eauto.
Qed.

(** The only [KeyError] of a trial is that of the socket column of the
    motherboard table. *)
Lemma sample_build_key_error (parts_data : Catalog) (rand : nat -> nat) (budget : Q)
    (k : string) :
  sample_build parts_data rand budget = Raise (KeyError k) ->
  k = "socket"
  /\ exists motherboard_df,
       dict_get parts_data "Motherboard" = Some motherboard_df
       /\ column motherboard_df "socket" = Raise (KeyError "socket").
Proof.
  unfold sample_build.
  destruct (dict_get parts_data "CPU") as [[|c0 cpu_tl]|]; try discriminate.
  destruct (if empty (price_le (budget * 0.4) (c0 :: cpu_tl))
            then head1 (sort_values_price (c0 :: cpu_tl))
            else price_le (budget * 0.4) (c0 :: cpu_tl)) as [|first tl];
    [discriminate|].
  destruct (dict_get parts_data "Motherboard") as [[|m0 mb_tl]|]; try discriminate.
  destruct (part_get (sample1 (rand 0%nat) first (first :: tl)) "socket")
    as [cpu_socket|]; [|discriminate].
  destruct (column_outcome (m0 :: mb_tl) "socket") as [[sockets Hc]|Hc]; rewrite Hc.
  - unfold bind.
    match goal with
    | |- match (if ?c then _ else _) with _ => _ end = _ -> _ => destruct c
    end.
    + match goal with
      | |- match ?l with _ => _ end = _ -> _ => destruct l as [|first_mb tl_mb]
      end; [discriminate|].
      intro H. apply sample_remaining_raises in H. destruct H as [msg H]. discriminate.
    + match goal with
      | |- match ?l with _ => _ end = _ -> _ => destruct l as [|first_mb tl_mb]
      end; [discriminate|].
      intro H. apply sample_remaining_raises in H. destruct H as [msg H]. discriminate.
  - unfold bind. intro H. inversion H. split; [reflexivity|].
    exists (m0 :: mb_tl). split; [reflexivity|exact Hc].
Qed.

(** When no trial yields a build within the budget, the loop adds
    nothing: it ends with the list it started from, or with the
    [KeyError] of a trial. *)
Lemma sample_loop_no_build (ml_models : Models) (parts_data : Catalog)
    (rand : nat -> nat -> nat) (budget : Q) (scenario : string) :
  (forall i build cost, sample_build parts_data (rand i) budget = Ok (build, cost) ->
                        Qle_bool cost budget = false) ->
  forall trials all_valid_ml_builds,
    sample_loop ml_models parts_data rand budget scenario trials all_valid_ml_builds
    = Ok all_valid_ml_builds
    \/ (sample_loop ml_models parts_data rand budget scenario trials all_valid_ml_builds
        = Raise (KeyError "socket")
        /\ exists motherboard_df,
             dict_get parts_data "Motherboard" = Some motherboard_df
             /\ column motherboard_df "socket" = Raise (KeyError "socket")).
Proof.
  intros Hno. induction trials as [|i rest IH]; intro acc;
    cbn [sample_loop]; [now left|].
  destruct (sample_build parts_data (rand i) budget) as [[build cost]|[k|msg]] eqn:Et.
  - rewrite (Hno _ _ _ Et). apply IH.
  - apply sample_build_key_error in Et. destruct Et as [-> Hmb]. right. now split.
  - apply IH.
Qed.

(** The same for the whole operation. *)
Lemma generate_ml_no_build (ml_models : Models) (parts_data : Catalog)
    (rand : nat -> nat -> nat) (budget : Q) (scenario : string)
    (num_samples top_n : Z) :
  (forall i build cost, sample_build parts_data (rand i) budget = Ok (build, cost) ->
                        Qle_bool cost budget = false) ->
  (generate_ml_based_recommendations ml_models parts_data rand budget scenario
     num_samples top_n = Ok []
   \/ generate_ml_based_recommendations ml_models parts_data rand budget scenario
        num_samples top_n = Raise (KeyError "socket"))
  /\ ((forall motherboard_df,
         dict_get parts_data "Motherboard" = Some motherboard_df ->
         exists sockets, column motherboard_df "socket" = Ok sockets) ->
      generate_ml_based_recommendations ml_models parts_data rand budget scenario
        num_samples top_n = Ok []).
Proof.
  intro Hno. unfold generate_ml_based_recommendations.
  destruct (dict_get ml_models scenario) as [[model|]|]; try (split; [now left|reflexivity]).
  assert (Hnil : forall k : Z, slice_to (sort_by_score_desc []) k = @nil ScoredBuild).
  { intro k. simpl. unfold slice_to. destruct (0 <=? k)%Z; now rewrite firstn_nil. }
  destruct (sample_loop_no_build ml_models parts_data rand budget scenario Hno
              (seq 0 (Z.to_nat num_samples)) []) as [E|[E (mb & Hmb & Hcol)]];
    rewrite E; unfold bind.
  - rewrite Hnil. split; [now left|reflexivity].
  - split; [now right|]. intro Hsock.
    destruct (Hsock mb Hmb) as [sockets Hs]. congruence.
Qed.

(** C7 (amended): no operation checks the budget.  With a budget that is
    not positive each one still runs its assembly; on a catalog of
    positive prices it then finds no build.  The tiered assembler (with at
    least one part file configured) returns the empty list and the smart
    assembler returns [None].  The sampling assembler returns the empty
    list when the motherboard table has a socket column; without that
    column it returns the empty list or lets the [KeyError] of the column
    lookup escape. *)
Theorem nonpositive_budget_no_build (part_files : list (string * string))
    (price_dtype : string -> dtype) (ml_models : Models) (parts_data : Catalog)
    (normalization_ranges : Ranges) (rand : nat -> nat -> nat) (budget : number)
    (scenario : string) (num_samples top_n : Z) :
  num_val budget <= 0 -> prices_positive parts_data ->
  (part_files <> [] -> int64_prices_whole price_dtype parts_data ->
   recommend_builds_rule_based part_files price_dtype parts_data budget = [])
  /\ generate_smart_recommendation_rule_based parts_data normalization_ranges
       scenario (num_val budget) = Ok None
  /\ (generate_ml_based_recommendations ml_models parts_data rand (num_val budget)
        scenario num_samples top_n = Ok []
      \/ generate_ml_based_recommendations ml_models parts_data rand (num_val budget)
           scenario num_samples top_n = Raise (KeyError "socket"))
  /\ ((forall motherboard_df,
         dict_get parts_data "Motherboard" = Some motherboard_df ->
         exists sockets, column motherboard_df "socket" = Ok sockets) ->
      generate_ml_based_recommendations ml_models parts_data rand (num_val budget)
        scenario num_samples top_n = Ok []).
Proof.
  intros Hb Hpos.
  assert (Hnone : forall part_type df bound, bound <= 0 ->
             In (part_type, df) parts_data -> price_le bound df = []).
  { intros part_type df bound Hbound Hdf. apply price_le_nil. intros p Hp.
    pose proof (Hpos _ _ _ Hdf Hp). lra. }
  split; [|split].
  - intros Hfiles Hwhole. unfold recommend_builds_rule_based.
    destruct (forallb (dict_mem parts_data) (map fst part_files)) eqn:Ef; [|reflexivity].
    destruct parts_data as [|[part_type df] rest].
    { destruct part_files as [|pf part_files]; [congruence|discriminate Ef]. }
    assert (Hi : forall i, assemble_strategy price_dtype i ((part_type, df) :: rest) []
                             (Int 0) budget = None).
    { intro i. cbn [assemble_strategy].
      assert (Hf : filter (fun p => num_leb (price_scalar (price_dtype part_type) p) budget)
                          df = []).
      { clear Ef. assert (Hin : forall p, In p df -> In p df) by auto.
        revert Hin. generalize df at 1 3. intro l.
        induction l as [|p l IH]; intro Hin; [reflexivity|]. simpl.
        rewrite num_leb_positive_price.
        - apply IH. intros q Hq. apply Hin. now right.
        - exact Hb.
        - apply (Hpos part_type df); [now left|apply Hin; now left].
        - intro Hdt. apply (Hwhole part_type df); [now left|apply Hin; now left|exact Hdt]. }
      now rewrite Hf. }
    cbn [negb seq flat_map]. now rewrite !Hi.
  - unfold generate_smart_recommendation_rule_based.
    destruct (dict_get parts_data "CPU") as [cpu_df|] eqn:Ec; [|reflexivity].
    destruct (dict_get parts_data "Motherboard") as [motherboard_df|]; [|reflexivity].
    assert (Hcand : cpu_candidates cpu_df (num_val budget) = []).
    { unfold cpu_candidates.
      rewrite (Hnone "CPU" cpu_df (num_val budget * 0.25)); [|lra|now apply dict_get_In].
      assert (Hz : Qltb 0 (num_val budget) = false) by now apply Qltb_ge.
      rewrite Hz. reflexivity. }
    now rewrite Hcand.
  - apply generate_ml_no_build. intros i build cost Et.
    apply sample_build_positive in Et; [|exact Hpos].
    apply Qle_bool_false. lra.
Qed.

Lemma nonpositive_budget_no_build_witness :
  recommend_builds_rule_based PART_FILE_NAMES (fun _ => int64) demo_catalog (Float (-100))
  = []
  /\ generate_smart_recommendation_rule_based demo_catalog demo_ranges "Gaming" (-100)
     = Ok None
  /\ generate_ml_based_recommendations demo_models demo_catalog zero_rand (-100)
       "Gaming" 50 3 = Ok [].
Proof.
  destruct (nonpositive_budget_no_build PART_FILE_NAMES (fun _ => int64) demo_models
              demo_catalog demo_ranges zero_rand (Float (-100)) "Gaming" 50 3)
    as (Ht & Hs & _ & Hm).
  - vm_compute. discriminate.
  - apply prices_positiveb_sound. reflexivity.
  - split; [|split; [exact Hs|]].
    + apply Ht; [discriminate|]. apply int64_prices_wholeb_sound. reflexivity.
    + apply Hm. intros motherboard_df Hmb. vm_compute in Hmb.
      inversion Hmb; subst motherboard_df. eexists. reflexivity.
Defined.

(** C7 as stated fails: a budget of 0 is not rejected.  On a catalog of
    give-away parts the tiered assembler returns its three builds, the smart
    assembler returns a build and the sampling assembler returns scored
    builds. *)
Lemma zero_budget_not_rejected :
  List.length (recommend_builds_rule_based PART_FILE_NAMES (fun _ => float64)
                 free_catalog (Float 0)) = 3%nat
  /\ (exists build,
        generate_smart_recommendation_rule_based free_catalog [] "Gaming" 0
        = Ok (Some build))
  /\ (exists b1 b2,
        generate_ml_based_recommendations demo_models free_catalog zero_rand 0
          "Gaming" 2 3 = Ok [b1; b2]).
Proof.
  split; [reflexivity|]. split.
  - eexists. vm_compute. reflexivity.
  - eexists. eexists. vm_compute. reflexivity.
Qed.

(** * Further properties of the backend *)

(** ** Weighted selector: the row it picks *)

(** [idxmax] run over [l] after the prefix [pre]: the position it returns
    holds a maximum of [pre ++ l], and every earlier position holds a
    strictly smaller value. *)
Lemma idxmax_from_spec (l : list Q) :
  forall pre best_i best,
    nth_error pre best_i = Some best ->
    (forall j y, nth_error pre j = Some y -> y <= best) ->
    (forall j y, (j < best_i)%nat -> nth_error pre j = Some y -> y < best) ->
    exists m,
      nth_error (pre ++ l) (idxmax_from best_i best (List.length pre) l) = Some m
      /\ (forall j y, nth_error (pre ++ l) j = Some y -> y <= m)
      /\ (forall j y, (j < idxmax_from best_i best (List.length pre) l)%nat ->
                      nth_error (pre ++ l) j = Some y -> y < m).
Proof.
  induction l as [|x t IH]; intros pre best_i best Hb Hle Hlt; simpl.
  - exists best. rewrite app_nil_r. auto.
  - assert (Hlen : (best_i < List.length pre)%nat).
    { apply nth_error_Some. congruence. }
    assert (Hsplit : forall j y, nth_error (pre ++ [x]) j = Some y ->
               (nth_error pre j = Some y /\ (j < List.length pre)%nat)
               \/ (j = List.length pre /\ y = x)).
    { intros j y Hj. destruct (Nat.lt_ge_cases j (List.length pre)) as [Hjl|Hjl].
      - left. rewrite nth_error_app1 in Hj by assumption. auto.
      - right. rewrite nth_error_app2 in Hj by assumption.
        destruct (j - List.length pre)%nat as [|d] eqn:Ed; simpl in Hj.
        + inversion Hj. split; [lia|reflexivity].
        + destruct d; discriminate. }
    replace (pre ++ x :: t)%list with ((pre ++ [x]) ++ t)%list
      by (rewrite <- app_assoc; reflexivity).
    replace (S (List.length pre)) with (List.length (pre ++ [x])%list)
      by (rewrite length_app; simpl; lia).
    destruct (Qltb best x) eqn:E.
    + apply Qltb_lt in E.
      assert (Hx : nth_error (pre ++ [x]) (List.length pre) = Some x).
      { rewrite nth_error_app2 by lia. now rewrite Nat.sub_diag. }
      apply (IH (pre ++ [x])%list (List.length pre) x Hx).
      * intros j y Hj. destruct (Hsplit j y Hj) as [[Hp _]|[_ ->]].
        -- apply Qlt_le_weak. eapply Qle_lt_trans; [eapply Hle; exact Hp|exact E].
        -- apply Qle_refl.
      * intros j y Hjl Hj. destruct (Hsplit j y Hj) as [[Hp _]|[-> _]]; [|lia].
        eapply Qle_lt_trans; [eapply Hle; exact Hp|exact E].
    + apply Qltb_ge in E.
      assert (Hb' : nth_error (pre ++ [x]) best_i = Some best).
      { rewrite nth_error_app1 by assumption. exact Hb. }
      apply (IH (pre ++ [x])%list best_i best Hb').
      * intros j y Hj. destruct (Hsplit j y Hj) as [[Hp _]|[_ ->]];
          [eapply Hle; exact Hp|exact E].
      * intros j y Hjl Hj. destruct (Hsplit j y Hj) as [[Hp _]|[-> _]]; [|lia].
        eapply Hlt; eassumption.
Qed.

Lemma idxmax_spec (x : Q) (t : list Q) :
  exists m,
    nth_error (x :: t) (idxmax (x :: t)) = Some m
    /\ (forall j y, nth_error (x :: t) j = Some y -> y <= m)
    /\ (forall j y, (j < idxmax (x :: t))%nat -> nth_error (x :: t) j = Some y -> y < m).
Proof.
  apply (idxmax_from_spec t [x] 0%nat x).
  - reflexivity.
  - intros [|[|j]] y H; simpl in H; try discriminate. inversion H. apply Qle_refl.
  - intros j y Hj. lia.
Qed.

(** The selector on a non-empty table: the row at some position [k] is
    returned, its score is a maximum over the table, and every row before
    it scores strictly less. *)
Lemma select_best_argmax (parts_df : DataFrame) (part_weights : list (string * Q))
    (normalization_ranges : Ranges) (part_type : string) :
  parts_df <> [] ->
  exists k c,
    nth_error parts_df k = Some c
    /\ _select_best_part_by_score parts_df part_weights normalization_ranges part_type
       = Some (set_score c (part_score normalization_ranges part_type part_weights c))
    /\ (forall c', In c' parts_df ->
          part_score normalization_ranges part_type part_weights c'
          <= part_score normalization_ranges part_type part_weights c)
    /\ (forall j c', (j < k)%nat -> nth_error parts_df j = Some c' ->
          part_score normalization_ranges part_type part_weights c'
          < part_score normalization_ranges part_type part_weights c).
Proof.
  intro Hne. rewrite select_best_nonempty by assumption.
  set (f := part_score normalization_ranges part_type part_weights).
  destruct parts_df as [|c0 df]; [congruence|].
  destruct (idxmax_spec (f c0) (map f df)) as (m & Hm & Hmax & Hfirst).
  change (f c0 :: map f df) with (map f (c0 :: df)) in *.
  set (k := idxmax (map f (c0 :: df))) in *.
  rewrite nth_error_map in Hm.
  destruct (nth_error (c0 :: df) k) as [c|] eqn:Ek; [|discriminate].
  simpl in Hm. inversion Hm; subst m.
  exists k, c. split; [exact Ek|]. split.
  - rewrite nth_error_map, Ek. reflexivity.
  - split.
    + intros c' Hc'. apply In_nth_error in Hc'. destruct Hc' as [j Hj].
      apply (Hmax j). now rewrite nth_error_map, Hj.
    + intros j c' Hjk Hj. apply (Hfirst j); [exact Hjk|].
      now rewrite nth_error_map, Hj.
Qed.

(** X1: the record the selector returns is a row of the table with its
    score attached; no row scores higher, and every row before it scores
    strictly lower (ties go to the earliest row). *)
Theorem select_best_maximal_first (parts_df : DataFrame)
    (part_weights : list (string * Q)) (normalization_ranges : Ranges)
    (part_type : string) (p : Part) :
  _select_best_part_by_score parts_df part_weights normalization_ranges part_type
  = Some p ->
  exists k c,
    nth_error parts_df k = Some c
    /\ p = set_score c (part_score normalization_ranges part_type part_weights c)
    /\ (forall c', In c' parts_df ->
          part_score normalization_ranges part_type part_weights c'
          <= part_score normalization_ranges part_type part_weights c)
    /\ (forall j c', (j < k)%nat -> nth_error parts_df j = Some c' ->
          part_score normalization_ranges part_type part_weights c'
          < part_score normalization_ranges part_type part_weights c).
Proof.
  intro H.
  assert (Hne : parts_df <> []).
  { intros ->. discriminate H. }
  destruct (select_best_argmax parts_df part_weights normalization_ranges part_type Hne)
    as (k & c & Hk & Hsel & Hmax & Hfirst).
  exists k, c. repeat split; try assumption. congruence.
Qed.

Lemma select_best_maximal_first_witness :
  exists k c,
    nth_error [cpu_am4; cpu_lga] k = Some c
    /\ _select_best_part_by_score [cpu_am4; cpu_lga]
         [("coreCount", 0.4); ("price", -0.5)] demo_ranges "CPU"
       = Some (set_score c (part_score demo_ranges "CPU"
                              [("coreCount", 0.4); ("price", -0.5)] c))
    /\ part_score demo_ranges "CPU" [("coreCount", 0.4); ("price", -0.5)] cpu_lga
       <= part_score demo_ranges "CPU" [("coreCount", 0.4); ("price", -0.5)] c.
Proof.
  destruct (_select_best_part_by_score [cpu_am4; cpu_lga]
              [("coreCount", 0.4); ("price", -0.5)] demo_ranges "CPU") as [p|] eqn:E;
    [|vm_compute in E; discriminate].
  destruct (select_best_maximal_first _ _ _ _ p E) as (k & c & Hk & -> & Hmax & _).
  exists k, c. split; [exact Hk|]. split; [reflexivity|].
  apply Hmax. right. now left.
Defined.

Lemma Qmult_pos_neg (a w : Q) : 0 < a -> w < 0 -> a * w < 0.
Proof.
  intros Ha Hw. assert (H : 0 < a * (- w)) by (apply Qmult_lt_0_compat; lra).
  lra.
Qed.

Lemma part_score_price_only (normalization_ranges : Ranges) (part_type : string)
    (w : Q) (c : Part) :
  part_score normalization_ranges part_type [("price", w)] c
  = 0 + normalize normalization_ranges part_type "price" (price c) * w.
Proof. reflexivity. Qed.

(** X2: when price is the only weighted feature and its weight is negative
    (the Motherboard, Case and Cooler weights of every scenario), the
    selector returns a lowest-priced candidate.  A range with [max <= min]
    rescales every price to 0.5; the first row is then returned, which is a
    lowest-priced one in a price-sorted table. *)
Theorem select_best_price_only_cheapest (parts_df : DataFrame) (w : Q)
    (normalization_ranges : Ranges) (part_type : string) (p : Part) :
  w < 0 ->
  (forall min_val max_val,
      dict_get normalization_ranges (part_type ++ "_" ++ "price")
      = Some (min_val, max_val) ->
      max_val <= min_val -> price_sorted parts_df) ->
  _select_best_part_by_score parts_df [("price", w)] normalization_ranges part_type
  = Some p ->
  forall c, In c parts_df -> price p <= price c.
Proof.
  intros Hw Hdeg H c Hc.
  assert (Hne : parts_df <> []).
  { intros ->. discriminate H. }
  destruct (select_best_argmax parts_df [("price", w)] normalization_ranges part_type Hne)
    as (k & c0 & Hk & Hsel & Hmax & Hfirst).
  rewrite Hsel in H. inversion H; subst p. rewrite set_score_price.
  pose proof (Hmax c Hc) as Hcmp. rewrite !part_score_price_only in Hcmp.
  unfold normalize in Hcmp.
  destruct (dict_get normalization_ranges (part_type ++ "_" ++ "price"))
    as [[mn mx]|] eqn:Er.
  - destruct (Qltb 0 (mx - mn)) eqn:Ed.
    + apply Qltb_lt in Ed.
      assert (Hi : 0 < / (mx - mn)) by now apply Qinv_lt_0_compat.
      unfold Qdiv in Hcmp.
      destruct (Qlt_le_dec (price c) (price c0)) as [Hlt|]; [exfalso|assumption].
      assert (Hd : 0 < (price c0 - price c) * / (mx - mn)).
      { apply Qmult_lt_0_compat; [lra|exact Hi]. }
      pose proof (Qmult_pos_neg _ w Hd Hw) as Hn.
      lra.
    + apply Qltb_ge in Ed.
      assert (Hs : price_sorted parts_df) by (apply (Hdeg mn mx eq_refl); lra).
      destruct parts_df as [|first rest]; [congruence|].
      destruct k as [|k].
      * simpl in Hk. inversion Hk; subst c0.
        destruct Hc as [<-|Hc]; [apply Qle_refl|]. now apply Hs.
      * exfalso. specialize (Hfirst 0%nat first (Nat.lt_0_succ k) eq_refl).
        rewrite !part_score_price_only in Hfirst. unfold normalize in Hfirst.
        rewrite Er in Hfirst.
        assert (Ed' : Qltb 0 (mx - mn) = false) by now apply Qltb_ge.
        rewrite Ed' in Hfirst. lra.
  - destruct (Qlt_le_dec (price c) (price c0)) as [Hlt|]; [exfalso|assumption].
    assert (Hd : 0 < price c0 - price c) by lra.
    pose proof (Qmult_pos_neg _ w Hd Hw) as Hn.
    lra.
Qed.

Lemma select_best_price_only_cheapest_witness :
  exists p,
    _select_best_part_by_score [mb_am4; mb_lga] [("price", -1.0)] demo_ranges
      "Motherboard" = Some p
    /\ price p <= price mb_lga.
Proof.
  destruct (_select_best_part_by_score [mb_am4; mb_lga] [("price", -1.0)] demo_ranges
              "Motherboard") as [p|] eqn:E; [|vm_compute in E; discriminate].
  exists p. split; [reflexivity|].
  apply (select_best_price_only_cheapest [mb_am4; mb_lga] (-1.0) demo_ranges
           "Motherboard" p).
  - reflexivity.
  - intros mn mx Hr Hle. vm_compute in Hr. inversion Hr; subst. exfalso.
    apply Hle. reflexivity.
  - exact E.
  - right. now left.
Defined.

(** ** Tiered rule assembler: what a build holds *)

Lemma dict_set_fresh_keys {V : Type} (d : list (string * V)) (k : string) (v : V) :
  dict_get d k = None -> map fst (dict_set d k v) = (map fst d ++ [k])%list.
Proof.
  induction d as [|[k' v'] d IH]; simpl; [reflexivity|].
  destruct (String.eqb k' k); [discriminate|]. intro H. simpl. now rewrite IH.
Qed.

Lemma dict_get_None_keys {V : Type} (d : list (string * V)) (k : string) :
  dict_get d k = None <-> ~ In k (map fst d).
Proof.
  induction d as [|[k' v'] d IH]; simpl; [tauto|].
  destruct (String.eqb k' k) eqn:E.
  - apply String.eqb_eq in E. subst. split; [discriminate|]. intro H. exfalso. auto.
  - apply String.eqb_neq in E. rewrite IH. tauto.
Qed.

(** The category loop of one strategy: it adds one key per category, in
    catalog order, each bound to a row of that category's table. *)
Lemma assemble_strategy_parts (price_dtype : string -> dtype) (i : nat)
    (items : Catalog) :
  NoDup (map fst items) ->
  forall build cost temp build' cost',
    (forall k, In k (map fst items) -> dict_get build k = None) ->
    assemble_strategy price_dtype i items build cost temp = Some (build', cost') ->
    map fst build' = (map fst build ++ map fst items)%list
    /\ (forall k v, dict_get build k = Some v -> dict_get build' k = Some v)
    /\ (forall part_type df, In (part_type, df) items ->
          exists p, In p df /\ dict_get build' part_type = Some p).
Proof.
  induction items as [|[part_type df] rest IH];
    intros Hnd build cost temp build' cost' Hfresh H; cbn [assemble_strategy] in H.
  - inversion H; subst. rewrite app_nil_r. repeat split; auto. intros ? ? [].
  - destruct (filter (fun p => num_leb (price_scalar (price_dtype part_type) p) temp) df)
      as [|first tl] eqn:E; [discriminate|].
    pose proof (select_by_strategy_In i first tl) as Hin.
    rewrite <- E in Hin at 2. apply filter_In in Hin. destruct Hin as [Hin _].
    set (sel := select_by_strategy i first (first :: tl)) in *.
    simpl in Hnd. inversion Hnd as [|x l Hnotin Hnd']; subst.
    assert (Hk : dict_get build part_type = None) by (apply Hfresh; now left).
    apply IH in H; [|exact Hnd'|].
    + destruct H as (Hkeys & Hkeep & Hall).
      split; [|split].
      * rewrite Hkeys, dict_set_fresh_keys by exact Hk.
        rewrite <- app_assoc. reflexivity.
      * intros k v Hv. apply Hkeep. rewrite dict_get_set_other; [exact Hv|].
        intros ->. congruence.
      * intros pt d [Heq|Hd].
        -- inversion Heq; subst pt d. exists sel. split; [exact Hin|].
           apply Hkeep. apply dict_get_set_same.
        -- now apply Hall.
    + intros k Hkin. rewrite dict_get_set_other; [apply Hfresh; now right|].
      intros ->. contradiction.
Qed.

(** X3: a build of the tiered assembler holds exactly the categories of
    the catalog, in catalog order, each filled with a row of that
    category's table; this holds for every configuration of part files,
    every dtype of the price columns and every budget. *)
Theorem recommend_builds_rule_based_complete (part_files : list (string * string))
    (price_dtype : string -> dtype) (parts_data : Catalog) (budget : number)
    (b : RuleBuild) :
  NoDup (map fst parts_data) ->
  In b (recommend_builds_rule_based part_files price_dtype parts_data budget) ->
  map fst (rb_parts b) = map fst parts_data
  /\ (forall part_type df, In (part_type, df) parts_data ->
        exists p, In p df /\ dict_get (rb_parts b) part_type = Some p)
  /\ (forall part_type, In part_type (map fst part_files) ->
        dict_mem (rb_parts b) part_type = true).
Proof.
  intros Hnd H. apply recommend_builds_inv in H.
  destruct H as (Hfiles & i & _ & Hrun & _ & _).
  apply assemble_strategy_parts in Hrun; [|exact Hnd|reflexivity].
  destruct Hrun as (Hkeys & _ & Hall). split; [exact Hkeys|]. split; [exact Hall|].
  intros part_type Hpt. rewrite forallb_forall in Hfiles. specialize (Hfiles _ Hpt).
  unfold dict_mem in Hfiles |- *.
  destruct (dict_get parts_data part_type) as [df|] eqn:Ed; [|discriminate].
  destruct (Hall part_type df (dict_get_In _ _ _ Ed)) as (p & _ & Hp). now rewrite Hp.
Qed.

Lemma recommend_builds_rule_based_complete_witness :
  exists b,
    In b (recommend_builds_rule_based PART_FILE_NAMES (fun _ => int64) demo_catalog
            (Int 2000))
    /\ map fst (rb_parts b) = PART_FILES.
Proof.
  assert (Hin : In (nth 0 (recommend_builds_rule_based PART_FILE_NAMES (fun _ => int64)
                             demo_catalog (Int 2000))
                        (mkRuleBuild [] (Int 0) (Int 0) ""))
                   (recommend_builds_rule_based PART_FILE_NAMES (fun _ => int64)
                      demo_catalog (Int 2000))).
  { apply nth_In. vm_compute. lia. }
  assert (Hnd : NoDup (map fst demo_catalog)).
  { simpl. repeat (constructor; [simpl; intuition discriminate|]). constructor. }
  destruct (recommend_builds_rule_based_complete PART_FILE_NAMES (fun _ => int64)
              demo_catalog (Int 2000) _ Hnd Hin) as (Hk & _ & _).
  eexists. split; [exact Hin|exact Hk].
Defined.

(** ** Tiered rule assembler: whole-number prices *)

Lemma wrap_int64_small (z : Z) :
  (- 2 ^ 63 <= z < 2 ^ 63)%Z -> wrap_int64 z = z.
Proof.
  intro H. unfold wrap_int64. rewrite Z.mod_small; lia.
Qed.

(** With int64 prices that are not negative nothing wraps: the running
    cost and the working budget stay whole numbers that add up to what
    they added up to before, and the cost stays the total price of the
    build. *)
Lemma assemble_strategy_int64 (price_dtype : string -> dtype) (i : nat)
    (items : Catalog) :
  NoDup (map fst items) ->
  (forall part_type df, In (part_type, df) items -> price_dtype part_type = int64) ->
  (forall part_type df p, In (part_type, df) items -> In p df ->
     0 <= price p /\ price p == inject_Z (Qfloor (price p))) ->
  forall build cost temp build' out,
    (forall k, In k (map fst items) -> dict_get build k = None) ->
    (0 <= cost)%Z -> (0 <= temp)%Z -> (cost + temp < 2 ^ 63)%Z ->
    inject_Z cost == build_cost build ->
    assemble_strategy price_dtype i items build (Int cost) (Int temp)
    = Some (build', out) ->
    exists cost',
      out = Int cost' /\ (cost <= cost' <= cost + temp)%Z
      /\ inject_Z cost' == build_cost build'.
Proof.
  induction items as [|[part_type df] rest IH];
    intros Hnd Hdt Hpr build cost temp build' out Hfresh Hc Ht Hsum Hcost H;
    cbn [assemble_strategy] in H.
  - inversion H; subst. exists cost. split; [reflexivity|]. split; [lia|exact Hcost].
  - rewrite (Hdt part_type df (or_introl eq_refl)) in H. cbn [price_scalar] in H.
    destruct (filter (fun p => num_leb (Int (Qfloor (price p))) (Int temp)) df)
      as [|first tl] eqn:E; [discriminate|].
    pose proof (select_by_strategy_In i first tl) as Hin.
    rewrite <- E in Hin at 2. apply filter_In in Hin. destruct Hin as [Hin Hle].
    set (sel := select_by_strategy i first (first :: tl)) in *.
    destruct (Hpr part_type df sel (or_introl eq_refl) Hin) as [Hnn Hwhole].
    cbn [num_leb] in Hle. apply Z.leb_le in Hle.
    assert (Hf : (0 <= Qfloor (price sel))%Z).
    { rewrite Hwhole in Hnn. change 0 with (inject_Z 0) in Hnn.
      now rewrite <- Zle_Qle in Hnn. }
    cbn [num_add num_sub] in H.
    rewrite !wrap_int64_small in H by lia.
    simpl in Hnd. inversion Hnd as [|x l Hnotin Hnd']; subst.
    assert (Hk : dict_get build part_type = None) by (apply Hfresh; now left).
    apply IH in H.
    + destruct H as (cost' & Hout & Hb & Hcost'). exists cost'.
      split; [exact Hout|]. split; [lia|exact Hcost'].
    + exact Hnd'.
    + intros pt d Hd. apply (Hdt pt d). now right.
    + intros pt d q Hd Hq. apply (Hpr pt d q); [now right|exact Hq].
    + intros k Hkin. rewrite dict_get_set_other; [apply Hfresh; now right|].
      intros ->. contradiction.
    + lia.
    + lia.
    + lia.
    + unfold build_cost. rewrite build_cost_set_fresh by exact Hk.
      fold (build_cost build). rewrite <- Hcost, inject_Z_plus, <- Hwhole. reflexivity.
Qed.

(** X26: what C1 claims does hold when every price column is of dtype
    int64 (whole-number prices, none negative) and the budget is an [int]
    of at most 63 bits that is not negative: nothing is rounded and nothing
    wraps, so the cost of every returned build is the sum of the prices of
    its parts, it is at most the budget, and [remaining] is the budget
    minus the cost. *)
Theorem recommend_builds_int64_within_budget (part_files : list (string * string))
    (price_dtype : string -> dtype) (parts_data : Catalog) (budget : Z)
    (b : RuleBuild) :
  NoDup (map fst parts_data) ->
  (forall part_type df, In (part_type, df) parts_data ->
     price_dtype part_type = int64) ->
  prices_nonneg parts_data ->
  int64_prices_whole price_dtype parts_data ->
  (0 <= budget < 2 ^ 63)%Z ->
  In b (recommend_builds_rule_based part_files price_dtype parts_data (Int budget)) ->
  exists cost,
    rb_cost b = Int cost
    /\ inject_Z cost == build_cost (rb_parts b)
    /\ (0 <= cost <= budget)%Z
    /\ rb_remaining b = Int (budget - cost).
Proof.
  intros Hnd Hdt Hnn Hwhole Hb H. apply recommend_builds_inv in H.
  destruct H as (_ & i & _ & Hrun & Hrem & _).
  apply assemble_strategy_int64 in Hrun; try lia.
  - destruct Hrun as (cost & Hcost & Hbound & Hsum). exists cost.
    split; [exact Hcost|]. split; [exact Hsum|]. split; [lia|].
    rewrite Hrem, Hcost. cbn [num_sub]. rewrite wrap_int64_small by lia. reflexivity.
  - exact Hnd.
  - exact Hdt.
  - intros part_type df p Hdf Hp. split; [eapply Hnn; eassumption|].
    apply (Hwhole part_type df p Hdf Hp). eapply Hdt. exact Hdf.
  - reflexivity.
  - reflexivity.
Qed.

Lemma recommend_builds_int64_within_budget_witness :
  exists b cost,
    In b (recommend_builds_rule_based PART_FILE_NAMES (fun _ => int64) demo_catalog
            (Int 2000))
    /\ rb_cost b = Int cost
    /\ inject_Z cost == build_cost (rb_parts b)
    /\ (0 <= cost <= 2000)%Z
    /\ rb_remaining b = Int (2000 - cost).
Proof.
  assert (Hin : In (nth 2 (recommend_builds_rule_based PART_FILE_NAMES (fun _ => int64)
                             demo_catalog (Int 2000))
                        (mkRuleBuild [] (Int 0) (Int 0) ""))
                   (recommend_builds_rule_based PART_FILE_NAMES (fun _ => int64)
                      demo_catalog (Int 2000))).
  { apply nth_In. vm_compute. lia. }
  assert (Hnd : NoDup (map fst demo_catalog)).
  { simpl. repeat (constructor; [simpl; intuition discriminate|]). constructor. }
  assert (Hnn : prices_nonneg demo_catalog)
    by (apply prices_nonnegb_sound; reflexivity).
  assert (Hwhole : int64_prices_whole (fun _ => int64) demo_catalog)
    by (apply int64_prices_wholeb_sound; reflexivity).
  assert (Hb : (0 <= 2000 < 2 ^ 63)%Z) by lia.
  destruct (recommend_builds_int64_within_budget PART_FILE_NAMES (fun _ => int64)
              demo_catalog 2000 _ Hnd (fun _ _ _ => eq_refl) Hnn Hwhole Hb Hin)
    as (cost & H).
  eexists. exists cost. split; [exact Hin|exact H].
Defined.

(** ** Scenario smart assembler: what a build holds *)

Lemma sort_values_price_nonempty (df : DataFrame) :
  df <> [] -> sort_values_price df <> [].
Proof.
  destruct df as [|c df]; [congruence|]. intros _ H.
  assert (Hin : In c (sort_values_price (c :: df)))
    by (apply sort_values_price_In; now left).
  rewrite H in Hin. destruct Hin.
Qed.

Lemma head1_nonempty (df : DataFrame) : df <> [] -> head1 df <> [].
Proof. destruct df; [congruence|discriminate]. Qed.

Lemma cpu_candidates_incl (cpu_df : DataFrame) (budget : Q) (c : Part) :
  In c (cpu_candidates cpu_df budget) -> In c cpu_df.
Proof.
  unfold cpu_candidates.
  repeat match goal with
         | |- context [if ?b then _ else _] => destruct b
         end; intro H.
  - apply head1_In in H. now apply (proj1 (sort_values_price_In _ _)) in H.
  - now apply price_le_In in H.
  - now apply price_le_In in H.
Qed.

(** With a positive budget the processor candidates of a non-empty table
    are never empty: the last resort is the cheapest processor. *)
Lemma cpu_candidates_nonempty (cpu_df : DataFrame) (budget : Q) :
  0 < budget -> cpu_df <> [] -> cpu_candidates cpu_df budget <> [].
Proof.
  intros Hb Hne. unfold cpu_candidates.
  rewrite (proj2 (Qltb_lt 0 budget) Hb).
  destruct (empty (price_le (budget * 0.25) cpu_df)) eqn:E1; simpl andb.
  - destruct (empty (price_le (budget * 0.4) cpu_df)) eqn:E2; simpl andb.
    + rewrite (proj2 (empty_false cpu_df) Hne). simpl negb.
      apply head1_nonempty, sort_values_price_nonempty, Hne.
    + now apply empty_false.
  - now apply empty_false.
Qed.

(** The loop over the remaining categories adds one key per category, in
    order, each bound to a row of that category's table (with its score
    column), and keeps the bindings it found. *)
Lemma select_remaining_parts_parts (parts_data : Catalog) (weights : Weights)
    (normalization_ranges : Ranges) (current_allocations : list (string * Q))
    (budget : Q) (order : list string) :
  NoDup order ->
  forall build cost remaining build' cost' remaining',
    (forall k, In k order -> dict_get build k = None) ->
    select_remaining_parts parts_data weights normalization_ranges
      current_allocations budget order (build, cost, remaining)
    = Some (build', cost', remaining') ->
    map fst build' = (map fst build ++ order)%list
    /\ (forall k v, dict_get build k = Some v -> dict_get build' k = Some v)
    /\ (forall k, In k order ->
          exists df c s, dict_get parts_data k = Some df /\ In c df
                         /\ dict_get build' k = Some (set_score c s)).
Proof.
  induction order as [|part_type rest IH];
    intros Hnd build cost remaining build' cost' remaining' Hfresh H;
    cbn [select_remaining_parts] in H.
  - inversion H; subst. rewrite app_nil_r. repeat split; auto. intros k [].
  - destruct (select_remaining_part parts_data weights normalization_ranges
                current_allocations budget (build, cost, remaining) part_type)
      as [st1|] eqn:E; [|discriminate].
    apply select_remaining_part_Some in E.
    destruct E as (df & c & Hdf & Hc & _ & s & ->).
    inversion Hnd as [|x l Hnotin Hnd']; subst.
    assert (Hk : dict_get build part_type = None) by (apply Hfresh; now left).
    apply IH in H; [|exact Hnd'|].
    + destruct H as (Hkeys & Hkeep & Hall). split; [|split].
      * rewrite Hkeys, dict_set_fresh_keys by exact Hk.
        rewrite <- app_assoc. reflexivity.
      * intros k v Hv. apply Hkeep. rewrite dict_get_set_other; [exact Hv|].
        intros ->. congruence.
      * intros k [<-|Hin]; [|now apply Hall].
        exists df, c, s. split; [exact Hdf|]. split; [exact Hc|].
        apply Hkeep, dict_get_set_same.
    + intros k Hin. rewrite dict_get_set_other; [apply Hfresh; now right|].
      intros ->. contradiction.
Qed.

(** X7: a build returned by the smart assembler holds exactly the eight
    categories CPU, Motherboard, GPU, RAM, Storage, PSU, Case, Cooler, in
    this order, each filled with a row of that category's table to which
    the selector's score column was added. *)
Theorem smart_build_complete (parts_data : Catalog) (normalization_ranges : Ranges)
    (scenario : string) (budget : Q) (build : Build) :
  generate_smart_recommendation_rule_based parts_data normalization_ranges
    scenario budget = Ok (Some build) ->
  map fst build = "CPU" :: "Motherboard" :: part_types_order
  /\ forall k, In k ("CPU" :: "Motherboard" :: part_types_order) ->
       exists df c s, dict_get parts_data k = Some df /\ In c df
                      /\ dict_get build k = Some (set_score c s).
Proof.
  intro H. apply smart_inv in H.
  destruct H as (cpu_df & motherboard_df & cpu & candidates & mb & cost & remaining
                 & Hcd & Hmd & Hcpu & Hcand & Hmb & Hrest).
  apply select_remaining_parts_parts in Hrest; [|apply part_types_order_NoDup|].
  - destruct Hrest as (Hkeys & Hkeep & Hall). split; [exact Hkeys|].
    intros k [<-|[<-|Hk]]; [| |now apply Hall].
    + apply select_best_In in Hcpu. destruct Hcpu as (c & Hc & ->).
      apply cpu_candidates_incl in Hc.
      exists cpu_df, c. eexists. split; [exact Hcd|]. split; [exact Hc|].
      apply Hkeep. reflexivity.
    + apply select_best_In in Hmb. destruct Hmb as (m & Hm & ->).
      apply motherboard_candidates_sound in Hcand. destruct Hcand as [_ Hcand].
      destruct (Hcand m Hm) as [Hmin _].
      exists motherboard_df, m. eexists. split; [exact Hmd|]. split; [exact Hmin|].
      apply Hkeep. reflexivity.
  - intros k Hk. simpl in Hk.
    repeat (destruct Hk as [<-|Hk]; [reflexivity|]). destruct Hk.
Qed.

Lemma smart_build_complete_witness :
  exists build,
    generate_smart_recommendation_rule_based demo_catalog demo_ranges "Workstation" 2000
    = Ok (Some build)
    /\ map fst build = "CPU" :: "Motherboard" :: part_types_order.
Proof.
  destruct (generate_smart_recommendation_rule_based demo_catalog demo_ranges
              "Workstation" 2000) as [[build|]|] eqn:E;
    try (vm_compute in E; discriminate).
  exists build. split; [reflexivity|].
  apply (smart_build_complete demo_catalog demo_ranges "Workstation" 2000 build E).
Defined.

(** X8: the final check of the smart assembler (lines 382-386) never
    rejects: once the loop over the remaining categories completes from a
    build that holds a CPU and a Motherboard, all required parts are in the
    build. *)
Theorem smart_final_check_never_fails (parts_data : Catalog) (weights : Weights)
    (normalization_ranges : Ranges) (current_allocations : list (string * Q))
    (budget : Q) (build : Build) (cost remaining : Q)
    (build' : Build) (cost' remaining' : Q) :
  dict_mem build "CPU" = true -> dict_mem build "Motherboard" = true ->
  (forall k, In k part_types_order -> dict_get build k = None) ->
  select_remaining_parts parts_data weights normalization_ranges
    current_allocations budget part_types_order (build, cost, remaining)
  = Some (build', cost', remaining') ->
  forallb (dict_mem build') required_parts = true.
Proof.
  intros Hc Hm Hfresh H.
  apply select_remaining_parts_parts in H; [|apply part_types_order_NoDup|exact Hfresh].
  destruct H as (_ & Hkeep & Hall).
  assert (Hold : forall k, dict_mem build k = true -> dict_mem build' k = true).
  { intros k. unfold dict_mem. destruct (dict_get build k) as [v|] eqn:E; [|discriminate].
    intros _. now rewrite (Hkeep k v E). }
  assert (Hnew : forall k, In k part_types_order -> dict_mem build' k = true).
  { intros k Hk. destruct (Hall k Hk) as (df & c & s & _ & _ & Hg).
    unfold dict_mem. now rewrite Hg. }
  unfold required_parts. cbn [forallb].
  rewrite (Hold "CPU" Hc), (Hold "Motherboard" Hm).
  rewrite !Hnew by (simpl; tauto). reflexivity.
Qed.

Lemma smart_final_check_never_fails_witness :
  exists build' cost' remaining',
    select_remaining_parts demo_catalog
      (get_or feature_weights "Gaming" general_use_weights) demo_ranges
      (get_or budget_allocation_priority "Gaming" general_use_allocations) 2000
      part_types_order ([("CPU", cpu_am4); ("Motherboard", mb_am4)], 180, 1820)
    = Some (build', cost', remaining')
    /\ forallb (dict_mem build') required_parts = true.
Proof.
  destruct (select_remaining_parts demo_catalog
              (get_or feature_weights "Gaming" general_use_weights) demo_ranges
              (get_or budget_allocation_priority "Gaming" general_use_allocations) 2000
              part_types_order ([("CPU", cpu_am4); ("Motherboard", mb_am4)], 180, 1820))
    as [[[b c] r]|] eqn:E; [|vm_compute in E; discriminate].
  exists b, c, r. split; [reflexivity|].
  apply (smart_final_check_never_fails demo_catalog
           (get_or feature_weights "Gaming" general_use_weights) demo_ranges
           (get_or budget_allocation_priority "Gaming" general_use_allocations) 2000
           [("CPU", cpu_am4); ("Motherboard", mb_am4)] 180 1820 b c r);
    [reflexivity|reflexivity| |exact E].
  intros k Hk. simpl in Hk.
  repeat (destruct Hk as [<-|Hk]; [reflexivity|]). destruct Hk.
Defined.

(** ** A processor table without a socket column *)

(** X10: with a positive budget, a non-empty processor table none of whose
    rows has a socket, and a motherboard table present, the smart
    assembler does not return: the lookup [selected_cpu['socket']] (or the
    motherboard column lookup before it) raises [KeyError('socket')]. *)
Theorem smart_socketless_cpu_raises (parts_data : Catalog)
    (normalization_ranges : Ranges) (scenario : string) (budget : Q)
    (cpu_df motherboard_df : DataFrame) :
  0 < budget ->
  dict_get parts_data "CPU" = Some cpu_df -> cpu_df <> [] ->
  (forall c, In c cpu_df -> part_get c "socket" = None) ->
  dict_get parts_data "Motherboard" = Some motherboard_df ->
  generate_smart_recommendation_rule_based parts_data normalization_ranges
    scenario budget = Raise (KeyError "socket").
Proof.
  intros Hb Hcd Hne Hsock Hmd. unfold generate_smart_recommendation_rule_based.
  rewrite Hcd, Hmd.
  pose proof (cpu_candidates_nonempty cpu_df budget Hb Hne) as Hcand.
  rewrite (proj2 (empty_false _) Hcand).
  destruct (select_best_Some (cpu_candidates cpu_df budget)
              (get_or (get_or feature_weights scenario general_use_weights) "CPU" [])
              normalization_ranges "CPU" Hcand) as (c & Hc & Hsel).
  rewrite Hsel. cbv zeta.
  apply cpu_candidates_incl in Hc.
  unfold motherboard_candidates, socket_mask.
  assert (Hitem : forall s, part_item (set_score c s) "socket" = Raise (KeyError "socket")).
  { intro s. unfold part_item.
    rewrite part_get_set_score by discriminate. now rewrite (Hsock c Hc). }
  rewrite Hitem.
  destruct (column_outcome motherboard_df "socket") as [[cs ->]| ->]; reflexivity.
Qed.

Lemma smart_socketless_cpu_raises_witness :
  generate_smart_recommendation_rule_based
    (dict_set demo_catalog "CPU" [row "Ryzen 5" 100 [("speed", CNum 3.6)]])
    demo_ranges "Gaming" 2000
  = Raise (KeyError "socket").
Proof.
  apply (smart_socketless_cpu_raises _ demo_ranges "Gaming" 2000
           [row "Ryzen 5" 100 [("speed", CNum 3.6)]] [mb_am4; mb_lga]).
  - reflexivity.
  - reflexivity.
  - discriminate.
  - intros c [<-|[]]. reflexivity.
  - reflexivity.
Defined.

Lemma sample_loop_all_skipped (ml_models : Models) (parts_data : Catalog)
    (rand : nat -> nat -> nat) (budget : Q) (scenario : string) :
  (forall i, exists msg, sample_build parts_data (rand i) budget = Raise (ValueError msg)) ->
  forall trials all_valid_ml_builds,
    sample_loop ml_models parts_data rand budget scenario trials all_valid_ml_builds
    = Ok all_valid_ml_builds.
Proof.
  intros Hskip trials. induction trials as [|i rest IH]; intro acc;
    cbn [sample_loop]; [reflexivity|].
  destruct (Hskip i) as [msg ->]. apply IH.
Qed.

(** X11: the sampling assembler treats the same catalog differently: when
    no processor row has a socket, every trial ends in a [ValueError] that
    the loop catches, and the result is the empty list, without an
    exception. *)
Theorem generate_ml_socketless_cpu_empty (ml_models : Models) (parts_data : Catalog)
    (rand : nat -> nat -> nat) (budget : Q) (scenario : string)
    (num_samples top_n : Z) :
  (forall cpu_df c, dict_get parts_data "CPU" = Some cpu_df -> In c cpu_df ->
                    part_get c "socket" = None) ->
  generate_ml_based_recommendations ml_models parts_data rand budget scenario
    num_samples top_n = Ok [].
Proof.
  intro Hsock. unfold generate_ml_based_recommendations.
  destruct (dict_get ml_models scenario) as [[model|]|]; try reflexivity.
  rewrite sample_loop_all_skipped.
  - simpl. unfold slice_to. destruct (0 <=? top_n)%Z; now rewrite firstn_nil.
  - intro i. unfold sample_build.
    destruct (dict_get parts_data "CPU") as [[|c0 cpu_tl]|] eqn:Ec; try (eexists; reflexivity).
    set (cpu_df := c0 :: cpu_tl) in *.
    set (affordable_cpus :=
           if empty (price_le (budget * 0.4) cpu_df)
           then head1 (sort_values_price cpu_df)
           else price_le (budget * 0.4) cpu_df).
    assert (Hsub : forall p, In p affordable_cpus -> In p cpu_df).
    { intros p. unfold affordable_cpus.
      destruct (empty (price_le (budget * 0.4) cpu_df)); intro Hp.
      - apply head1_In in Hp. now apply (proj1 (sort_values_price_In _ _)) in Hp.
      - now apply price_le_In in Hp. }
    destruct affordable_cpus as [|first tl]; [eexists; reflexivity|].
    assert (Hnone : part_get (sample1 (rand i 0%nat) first (first :: tl)) "socket" = None).
    { apply (Hsock cpu_df); [reflexivity|]. apply Hsub, sample1_In. }
    rewrite Hnone.
    destruct (dict_get parts_data "Motherboard") as [[|m0 mb_tl]|];
      eexists; reflexivity.
Qed.

Lemma generate_ml_socketless_cpu_empty_witness :
  generate_ml_based_recommendations demo_models
    (dict_set demo_catalog "CPU" [row "Ryzen 5" 100 [("speed", CNum 3.6)]])
    zero_rand 2000 "Gaming" 50 3 = Ok [].
Proof.
  apply generate_ml_socketless_cpu_empty.
  intros cpu_df c Hdf Hc. vm_compute in Hdf. inversion Hdf; subst cpu_df.
  destruct Hc as [<-|[]]. reflexivity.
Defined.

(** ** Stochastic search assembler: what a build holds *)

Lemma sample_remaining_parts (parts_data : Catalog) (rand : nat -> nat)
    (order : list string) :
  NoDup order ->
  forall draw build cost temp build' cost',
    (forall k, In k order -> dict_get build k = None) ->
    sample_remaining parts_data rand order draw build cost temp = Ok (build', cost') ->
    map fst build' = (map fst build ++ order)%list
    /\ (forall k v, dict_get build k = Some v -> dict_get build' k = Some v)
    /\ (forall k, In k order ->
          exists df p, dict_get parts_data k = Some df /\ In p df
                       /\ dict_get build' k = Some p).
Proof.
  induction order as [|part_type rest IH];
    intros Hnd draw build cost temp build' cost' Hfresh H.
  - simpl in H. inversion H; subst. rewrite app_nil_r. repeat split; auto. intros k [].
  - apply sample_remaining_step in H. destruct H as (df & p & Hdf & Hp & H).
    inversion Hnd as [|x l Hnotin Hnd']; subst.
    assert (Hk : dict_get build part_type = None) by (apply Hfresh; now left).
    apply IH in H; [|exact Hnd'|].
    + destruct H as (Hkeys & Hkeep & Hall). split; [|split].
      * rewrite Hkeys, dict_set_fresh_keys by exact Hk.
        rewrite <- app_assoc. reflexivity.
      * intros k v Hv. apply Hkeep. rewrite dict_get_set_other; [exact Hv|].
        intros ->. congruence.
      * intros k [<-|Hin]; [|now apply Hall].
        exists df, p. split; [exact Hdf|]. split; [exact Hp|].
        apply Hkeep, dict_get_set_same.
    + intros k Hin. rewrite dict_get_set_other; [apply Hfresh; now right|].
      intros ->. contradiction.
Qed.

(** Rows kept by the mask [motherboard_df['socket'] == cpu_socket], alone
    or together with a price mask, have the socket [cpu_socket]. *)
Lemma socket_rows (df : DataFrame) (sockets : list cell) (cpu_socket : cell) (p : Part) :
  column df "socket" = Ok sockets ->
  (In p (boolean_index df (map (fun c => cell_eqb c cpu_socket) sockets))
   \/ exists bound,
       In p (boolean_index df
               (mask_and (map (fun c => cell_eqb c cpu_socket) sockets)
                         (price_mask bound df)))) ->
  exists c, part_get p "socket" = Some c /\ cell_eq c cpu_socket.
Proof.
  intros Hcol H.
  assert (Hn : exists n, nth_error df n = Some p
                         /\ nth_error (map (fun c => cell_eqb c cpu_socket) sockets) n
                            = Some true).
  { destruct H as [H|[bound H]]; apply boolean_index_nth in H;
      destruct H as (n & Hn & Hb); exists n; split; try assumption.
    now apply mask_and_nth in Hb. }
  destruct Hn as (n & Hn & Hb).
  destruct (column_nth _ _ _ _ _ Hcol Hn) as (c & Hc & Hg).
  rewrite nth_error_map, Hc in Hb. simpl in Hb.
  assert (Hcb : cell_eqb c cpu_socket = true) by congruence.
  exists c. split; [exact Hg|]. now apply cell_eqb_eq.
Qed.

(** The processor and motherboard of a finished trial share a socket. *)
Lemma sample_build_socket (parts_data : Catalog) (rand : nat -> nat) (budget : Q)
    (build : Build) (cost : Q) :
  sample_build parts_data rand budget = Ok (build, cost) ->
  exists cpu mb,
    dict_get build "CPU" = Some cpu /\ dict_get build "Motherboard" = Some mb
    /\ same_socket cpu mb.
Proof.
  unfold sample_build.
  destruct (dict_get parts_data "CPU") as [[|c0 cpu_tl]|]; try discriminate.
  set (cpu_df := c0 :: cpu_tl).
  destruct (if empty (price_le (budget * 0.4) cpu_df)
            then head1 (sort_values_price cpu_df)
            else price_le (budget * 0.4) cpu_df) as [|first tl]; [discriminate|].
  set (cpu := sample1 (rand 0%nat) first (first :: tl)).
  destruct (dict_get parts_data "Motherboard") as [[|m0 mb_tl]|]; try discriminate.
  set (motherboard_df := m0 :: mb_tl).
  destruct (part_get cpu "socket") as [cpu_socket|] eqn:Esock; [|discriminate].
  destruct (column motherboard_df "socket") as [sockets|e] eqn:Ecol; [|discriminate].
  unfold bind.
  set (same := map (fun c => cell_eqb c cpu_socket) sockets).
  set (compatible :=
         boolean_index motherboard_df
           (mask_and same (price_mask ((budget - price cpu) * 0.5) motherboard_df))).
  set (chosen := if empty compatible
                 then head1 (sort_values_price (boolean_index motherboard_df same))
                 else compatible).
  assert (Hsame : forall p, In p chosen -> same_socket cpu p).
  { intros p. unfold chosen. destruct (empty compatible); intro Hp.
    - apply head1_In in Hp. apply (proj1 (sort_values_price_In _ _)) in Hp.
      destruct (socket_rows motherboard_df sockets cpu_socket p Ecol (or_introl Hp))
        as (c & Hc & Heq).
      exists cpu_socket, c. auto.
    - assert (Hor : In p (boolean_index motherboard_df same)
                    \/ exists bound,
                        In p (boolean_index motherboard_df
                                (mask_and same (price_mask bound motherboard_df)))).
      { right. exists ((budget - price cpu) * 0.5). exact Hp. }
      destruct (socket_rows motherboard_df sockets cpu_socket p Ecol Hor)
        as (c & Hc & Heq).
      exists cpu_socket, c. auto. }
  assert (Hchosen :
            (if empty compatible
             then Ok (head1 (sort_values_price (boolean_index motherboard_df same)))
             else Ok compatible) = Ok chosen).
  { unfold chosen. now destruct (empty compatible). }
  rewrite Hchosen.
  destruct chosen as [|first_mb mtl]; [discriminate|].
  intro H.
  apply sample_remaining_parts in H; [|apply part_types_order_NoDup|].
  - destruct H as (_ & Hkeep & _).
    exists cpu, (sample1 (rand 1%nat) first_mb (first_mb :: mtl)).
    split; [apply Hkeep; reflexivity|]. split; [apply Hkeep; reflexivity|].
    apply Hsame, sample1_In.
  - intros k Hk. simpl in Hk.
    repeat (destruct Hk as [<-|Hk]; [reflexivity|]). destruct Hk.
Qed.

(** The parts of a finished trial: the eight categories in order, each a
    row of its table. *)
Lemma sample_build_parts (parts_data : Catalog) (rand : nat -> nat) (budget : Q)
    (build : Build) (cost : Q) :
  sample_build parts_data rand budget = Ok (build, cost) ->
  map fst build = "CPU" :: "Motherboard" :: part_types_order
  /\ forall k, In k ("CPU" :: "Motherboard" :: part_types_order) ->
       exists df p, dict_get parts_data k = Some df /\ In p df
                    /\ dict_get build k = Some p.
Proof.
  intro H. apply sample_build_inv in H.
  destruct H as (cpu_df & cpu & motherboard_df & mb & Hcd & Hc & Hmd & Hm & H).
  apply sample_remaining_parts in H; [|apply part_types_order_NoDup|].
  - destruct H as (Hkeys & Hkeep & Hall). split; [exact Hkeys|].
    intros k [<-|[<-|Hk]]; [| |now apply Hall].
    + exists cpu_df, cpu. split; [exact Hcd|]. split; [exact Hc|].
      apply Hkeep. reflexivity.
    + exists motherboard_df, mb. split; [exact Hmd|]. split; [exact Hm|].
      apply Hkeep. reflexivity.
  - intros k Hk. simpl in Hk.
    repeat (destruct Hk as [<-|Hk]; [reflexivity|]). destruct Hk.
Qed.

(** Every build the loop adds comes from a trial that reached its end
    within the budget. *)
Lemma sample_loop_origin (ml_models : Models) (parts_data : Catalog)
    (rand : nat -> nat -> nat) (budget : Q) (scenario : string)
    (trials : list nat) :
  forall all_valid_ml_builds result,
    sample_loop ml_models parts_data rand budget scenario trials all_valid_ml_builds
    = Ok result ->
    (List.length result <= List.length all_valid_ml_builds + List.length trials)%nat
    /\ forall b, In b result ->
         In b all_valid_ml_builds
         \/ exists i cost, In i trials
              /\ sample_build parts_data (rand i) budget = Ok (sb_parts b, cost).
Proof.
  induction trials as [|i rest IH]; intros acc result H; cbn [sample_loop] in H.
  - inversion H; subst. split; [simpl; lia|auto].
  - assert (Hstep : forall acc',
               sample_loop ml_models parts_data rand budget scenario rest acc' = Ok result ->
               (List.length acc' <= S (List.length acc))%nat ->
               (forall b, In b acc' -> In b acc
                  \/ exists cost, sample_build parts_data (rand i) budget
                                   = Ok (sb_parts b, cost)) ->
               (List.length result <= List.length acc + List.length (i :: rest))%nat
               /\ forall b, In b result ->
                    In b acc
                    \/ exists j cost, In j (i :: rest)
                         /\ sample_build parts_data (rand j) budget
                            = Ok (sb_parts b, cost)).
    { intros acc' Hrun Hlen Hacc. apply IH in Hrun. destruct Hrun as [Hl Hin].
      split; [simpl; lia|].
      intros b Hb. destruct (Hin b Hb) as [Hb'|(j & cost & Hj & Hrun)].
      - destruct (Hacc b Hb') as [?|[cost Hrun]]; [now left|].
        right. exists i, cost. split; [now left|exact Hrun].
      - right. exists j, cost. split; [now right|exact Hrun]. }
    destruct (sample_build parts_data (rand i) budget) as [[build cost]|[k|msg]] eqn:Et.
    + destruct (Qle_bool cost budget);
        [|apply (Hstep acc H); [lia|auto]].
      destruct (predict_build_score ml_models build scenario) as [score|];
        [|apply (Hstep acc H); [lia|auto]].
      apply (Hstep _ H).
      * rewrite length_app. simpl. lia.
      * intros b Hb. apply in_app_or in Hb. destruct Hb as [Hb|[<-|[]]]; [now left|].
        right. exists cost. reflexivity.
    + discriminate.
    + apply (Hstep acc H); [lia|auto].
Qed.

Lemma generate_ml_inv (ml_models : Models) (parts_data : Catalog)
    (rand : nat -> nat -> nat) (budget : Q) (scenario : string)
    (num_samples top_n : Z) (top_ml_builds : list ScoredBuild) :
  generate_ml_based_recommendations ml_models parts_data rand budget scenario
    num_samples top_n = Ok top_ml_builds ->
  top_ml_builds = []
  \/ exists all,
      sample_loop ml_models parts_data rand budget scenario
        (seq 0 (Z.to_nat num_samples)) [] = Ok all
      /\ top_ml_builds = slice_to (sort_by_score_desc all) top_n.
Proof.
  unfold generate_ml_based_recommendations.
  destruct (dict_get ml_models scenario) as [[model|]|].
  2,3: intro H; inversion H; now left.
  destruct (sample_loop ml_models parts_data rand budget scenario
              (seq 0 (Z.to_nat num_samples)) []) as [all|e]; unfold bind;
    [|discriminate].
  intro H. inversion H. right. exists all. auto.
Qed.

(** X12: every build returned by the sampling assembler holds exactly the
    eight categories CPU, Motherboard, GPU, RAM, Storage, PSU, Case,
    Cooler, each filled with a row of that category's table, and its
    motherboard has the socket of its processor. *)
Theorem generate_ml_builds_compatible (ml_models : Models) (parts_data : Catalog)
    (rand : nat -> nat -> nat) (budget : Q) (scenario : string)
    (num_samples top_n : Z) (top_ml_builds : list ScoredBuild) (b : ScoredBuild) :
  generate_ml_based_recommendations ml_models parts_data rand budget scenario
    num_samples top_n = Ok top_ml_builds ->
  In b top_ml_builds ->
  map fst (sb_parts b) = "CPU" :: "Motherboard" :: part_types_order
  /\ (forall k, In k ("CPU" :: "Motherboard" :: part_types_order) ->
        exists df p, dict_get parts_data k = Some df /\ In p df
                     /\ dict_get (sb_parts b) k = Some p)
  /\ exists cpu mb,
       dict_get (sb_parts b) "CPU" = Some cpu
       /\ dict_get (sb_parts b) "Motherboard" = Some mb
       /\ same_socket cpu mb.
Proof.
  intros H Hb. apply generate_ml_inv in H.
  destruct H as [->|(all & Hloop & ->)]; [destruct Hb|].
  apply slice_to_In in Hb. apply (proj1 (sort_by_score_desc_In _ _)) in Hb.
  apply sample_loop_origin in Hloop. destruct Hloop as [_ Horigin].
  destruct (Horigin b Hb) as [[]|(i & cost & _ & Hrun)].
  destruct (sample_build_parts _ _ _ _ _ Hrun) as [Hkeys Hparts].
  split; [exact Hkeys|]. split; [exact Hparts|].
  exact (sample_build_socket _ _ _ _ _ Hrun).
Qed.

Lemma generate_ml_builds_compatible_witness :
  exists b cpu mb,
    generate_ml_based_recommendations demo_models demo_catalog (fun _ _ => 1%nat) 2000
      "General Use" 1 3 = Ok [b]
    /\ dict_get (sb_parts b) "CPU" = Some cpu
    /\ dict_get (sb_parts b) "Motherboard" = Some mb
    /\ part_get cpu "socket" = Some (CStr "LGA1700")
    /\ same_socket cpu mb.
Proof.
  destruct (generate_ml_based_recommendations demo_models demo_catalog
              (fun _ _ => 1%nat) 2000 "General Use" 1 3) as [[|b [|b' l]]|] eqn:E;
    try (vm_compute in E; discriminate).
  destruct (generate_ml_builds_compatible demo_models demo_catalog (fun _ _ => 1%nat)
              2000 "General Use" 1 3 [b] b E (or_introl eq_refl))
    as (_ & _ & cpu & mb & Hc & Hm & Hs).
  exists b, cpu, mb. split; [reflexivity|]. split; [exact Hc|]. split; [exact Hm|].
  split; [|exact Hs].
  vm_compute in E. inversion E; subst b. vm_compute in Hc. inversion Hc. reflexivity.
Defined.

Lemma insert_by_score_length (x : ScoredBuild) (l : list ScoredBuild) :
  List.length (insert_by_score x l) = S (List.length l).
Proof.
  induction l as [|y t IH]; simpl; [reflexivity|].
  destruct (key_leb (sb_ml_score y) (sb_ml_score x)); simpl; [reflexivity|].
  now rewrite IH.
Qed.

Lemma sort_by_score_desc_length (l : list ScoredBuild) :
  List.length (sort_by_score_desc l) = List.length l.
Proof.
  unfold sort_by_score_desc. induction l as [|x l IH]; simpl; [reflexivity|].
  now rewrite insert_by_score_length, IH.
Qed.

Lemma slice_to_length_le {A : Type} (l : list A) (k : Z) :
  (List.length (slice_to l k) <= List.length l)%nat.
Proof.
  unfold slice_to. destruct (0 <=? k)%Z; rewrite length_firstn; lia.
Qed.

(** X13: the sampling assembler returns at most one build per trial: the
    list is no longer than [num_samples] (and empty when [num_samples] is
    negative). *)
Theorem generate_ml_at_most_num_samples (ml_models : Models) (parts_data : Catalog)
    (rand : nat -> nat -> nat) (budget : Q) (scenario : string)
    (num_samples top_n : Z) (top_ml_builds : list ScoredBuild) :
  generate_ml_based_recommendations ml_models parts_data rand budget scenario
    num_samples top_n = Ok top_ml_builds ->
  (Z.of_nat (List.length top_ml_builds) <= Z.max 0 num_samples)%Z.
Proof.
  intro H. apply generate_ml_inv in H.
  destruct H as [->|(all & Hloop & ->)]; [simpl; lia|].
  apply sample_loop_origin in Hloop. destruct Hloop as [Hlen _].
  rewrite length_seq in Hlen. simpl in Hlen.
  pose proof (slice_to_length_le (sort_by_score_desc all) top_n) as Hs.
  rewrite sort_by_score_desc_length in Hs. lia.
Qed.

Lemma generate_ml_at_most_num_samples_witness :
  exists top_ml_builds,
    generate_ml_based_recommendations demo_models demo_catalog zero_rand 2000
      "General Use" 2 3 = Ok top_ml_builds
    /\ List.length top_ml_builds = 2%nat
    /\ (Z.of_nat (List.length top_ml_builds) <= Z.max 0 2)%Z.
Proof.
  destruct (generate_ml_based_recommendations demo_models demo_catalog zero_rand 2000
              "General Use" 2 3) as [l|] eqn:E; [|vm_compute in E; discriminate].
  exists l. split; [reflexivity|].
  pose proof (generate_ml_at_most_num_samples demo_models demo_catalog zero_rand 2000
                "General Use" 2 3 l E) as Hl.
  split; [|exact Hl]. vm_compute in E. inversion E; subst l. reflexivity.
Defined.

(** ** A category without records *)

Lemma assemble_strategy_tables_nonempty (price_dtype : string -> dtype) (i : nat)
    (items : Catalog) :
  forall build cost temp out,
    assemble_strategy price_dtype i items build cost temp = Some out ->
    forall part_type df, In (part_type, df) items -> df <> [].
Proof.
  induction items as [|[pt d] rest IH]; intros build cost temp out H part_type df Hin;
    [destruct Hin|]. cbn [assemble_strategy] in H.
  destruct (filter (fun p => num_leb (price_scalar (price_dtype pt) p) temp) d)
    as [|first tl] eqn:E; [discriminate|].
  destruct Hin as [Heq|Hin].
  - inversion Heq; subst. intros ->. discriminate E.
  - eapply IH; eassumption.
Qed.

(** The tables a successful smart assembly drew from. *)
Lemma smart_tables_nonempty (parts_data : Catalog) (normalization_ranges : Ranges)
    (scenario : string) (budget : Q) (build : Build) :
  generate_smart_recommendation_rule_based parts_data normalization_ranges
    scenario budget = Ok (Some build) ->
  forall k, In k PART_FILES ->
    exists df c, dict_get parts_data k = Some df /\ In c df.
Proof.
  intro H. apply smart_inv in H.
  destruct H as (cpu_df & motherboard_df & cpu & candidates & mb & cost & remaining
                 & Hcd & Hmd & Hcpu & Hcand & Hmb & Hrest).
  apply select_remaining_parts_parts in Hrest; [|apply part_types_order_NoDup|].
  - destruct Hrest as (_ & _ & Hall).
    assert (Hrem : forall k, In k part_types_order ->
               exists df c, dict_get parts_data k = Some df /\ In c df).
    { intros k Hk. destruct (Hall k Hk) as (df & c & s & Hdf & Hc & _). eauto. }
    intros k Hk. unfold PART_FILES in Hk. simpl in Hk.
    destruct Hk as [<-|[<-|[<-|Hk]]].
    + apply select_best_In in Hcpu. destruct Hcpu as (c & Hc & _).
      apply cpu_candidates_incl in Hc. eauto.
    + apply Hrem. simpl. tauto.
    + apply select_best_In in Hmb. destruct Hmb as (m & Hm & _).
      apply motherboard_candidates_sound in Hcand. destruct Hcand as [_ Hcand].
      destruct (Hcand m Hm) as [Hmin _]. eauto.
    + apply Hrem. simpl. intuition.
  - intros k Hk. simpl in Hk.
    repeat (destruct Hk as [<-|Hk]; [reflexivity|]). destruct Hk.
Qed.

(** X14: when one of the eight categories has no table or an empty table,
    no assembler produces a build.  The tiered assembler (for which the
    category is one of the configured part files) returns the empty list
    and the smart assembler returns no build.  The sampling assembler
    returns the empty list when the motherboard table has a socket column;
    without that column it returns the empty list or lets the [KeyError]
    of the column lookup escape. *)
Theorem empty_category_no_build (part_files : list (string * string))
    (price_dtype : string -> dtype) (ml_models : Models) (parts_data : Catalog)
    (normalization_ranges : Ranges) (rand : nat -> nat -> nat) (budget : number)
    (scenario : string) (num_samples top_n : Z) (k : string) :
  In k PART_FILES ->
  dict_get parts_data k = None \/ dict_get parts_data k = Some [] ->
  (In k (map fst part_files) ->
   recommend_builds_rule_based part_files price_dtype parts_data budget = [])
  /\ (forall build,
        generate_smart_recommendation_rule_based parts_data normalization_ranges
          scenario (num_val budget) <> Ok (Some build))
  /\ (generate_ml_based_recommendations ml_models parts_data rand (num_val budget)
        scenario num_samples top_n = Ok []
      \/ generate_ml_based_recommendations ml_models parts_data rand (num_val budget)
           scenario num_samples top_n = Raise (KeyError "socket"))
  /\ ((forall motherboard_df,
         dict_get parts_data "Motherboard" = Some motherboard_df ->
         exists sockets, column motherboard_df "socket" = Ok sockets) ->
      generate_ml_based_recommendations ml_models parts_data rand (num_val budget)
        scenario num_samples top_n = Ok []).
Proof.
  intros Hk Hempty.
  assert (Hno : forall df c, dict_get parts_data k = Some df -> In c df -> False).
  { intros df c Hdf Hc. destruct Hempty as [He|He]; rewrite He in Hdf;
      [discriminate|]. inversion Hdf; subst. destruct Hc. }
  split; [|split].
  - intro Hfile.
    destruct (recommend_builds_rule_based part_files price_dtype parts_data budget)
      as [|b l] eqn:E; [reflexivity|exfalso].
    assert (Hb : In b (recommend_builds_rule_based part_files price_dtype parts_data
                         budget))
      by (rewrite E; now left).
    apply recommend_builds_inv in Hb. destruct Hb as (Hall & i & _ & Hrun & _).
    rewrite forallb_forall in Hall. specialize (Hall k Hfile). unfold dict_mem in Hall.
    destruct (dict_get parts_data k) as [df|] eqn:Ek; [|discriminate].
    destruct Hempty as [He|He]; [discriminate|]. inversion He; subst df.
    apply (assemble_strategy_tables_nonempty _ _ _ _ _ _ _ Hrun k []);
      [now apply dict_get_In|reflexivity].
  - intros build H.
    destruct (smart_tables_nonempty _ _ _ _ _ H k Hk) as (df & c & Hdf & Hc).
    exact (Hno df c Hdf Hc).
  - apply generate_ml_no_build. intros i build cost Hrun. exfalso.
    destruct (sample_build_parts _ _ _ _ _ Hrun) as [_ Hparts].
    destruct (Hparts k) as (df & c & Hdf & Hc & _).
    + unfold PART_FILES in Hk. simpl in *. intuition.
    + exact (Hno df c Hdf Hc).
Qed.

Lemma empty_category_no_build_witness :
  recommend_builds_rule_based PART_FILE_NAMES (fun _ => float64)
    (dict_set demo_catalog "Case" []) (Float 2000) = []
  /\ generate_smart_recommendation_rule_based (dict_set demo_catalog "Case" [])
       demo_ranges "Gaming" 2000 = Ok None
  /\ generate_ml_based_recommendations demo_models (dict_set demo_catalog "Case" [])
       zero_rand 2000 "Gaming" 50 3 = Ok [].
Proof.
  destruct (empty_category_no_build PART_FILE_NAMES (fun _ => float64) demo_models
              (dict_set demo_catalog "Case" []) demo_ranges zero_rand (Float 2000)
              "Gaming" 50 3 "Case") as (Ht & Hs & _ & Hm).
  - unfold PART_FILES. simpl. tauto.
  - right. reflexivity.
  - split; [|split].
    + apply Ht. simpl. tauto.
    + destruct (generate_smart_recommendation_rule_based
                  (dict_set demo_catalog "Case" []) demo_ranges "Gaming" 2000)
        as [[build|]|e] eqn:E; [exfalso; exact (Hs build E)|reflexivity|].
      vm_compute in E. discriminate.
    + apply Hm. intros motherboard_df Hmb. vm_compute in Hmb.
      inversion Hmb; subst motherboard_df. eexists. reflexivity.
Defined.

(** ** Normalization ranges *)

Lemma series_min_le (vs : list Q) :
  forall v x, In x (v :: vs) -> series_min v vs <= x.
Proof.
  unfold series_min. induction vs as [|y vs IH]; intros v x Hx; simpl.
  - destruct Hx as [<-|[]]. apply Qle_refl.
  - assert (Hq : qmin v y <= v /\ qmin v y <= y).
    { unfold qmin. destruct (Qle_bool v y) eqn:E.
      - apply Qle_bool_iff in E. split; [apply Qle_refl|exact E].
      - apply Qle_bool_false in E. split; [lra|apply Qle_refl]. }
    destruct Hx as [<-|[<-|Hx]].
    + eapply Qle_trans; [apply IH; now left|apply Hq].
    + eapply Qle_trans; [apply IH; now left|apply Hq].
    + apply IH. now right.
Qed.

Lemma series_max_ge (vs : list Q) :
  forall v x, In x (v :: vs) -> x <= series_max v vs.
Proof.
  unfold series_max. induction vs as [|y vs IH]; intros v x Hx; simpl.
  - destruct Hx as [<-|[]]. apply Qle_refl.
  - assert (Hq : v <= qmax v y /\ y <= qmax v y).
    { unfold qmax. destruct (Qle_bool v y) eqn:E.
      - apply Qle_bool_iff in E. split; [exact E|apply Qle_refl].
      - apply Qle_bool_false in E. split; [apply Qle_refl|lra]. }
    destruct Hx as [<-|[<-|Hx]].
    + eapply Qle_trans; [apply Hq|apply IH; now left].
    + eapply Qle_trans; [apply Hq|apply IH; now left].
    + apply IH. now right.
Qed.

Lemma numeric_column_In (df : DataFrame) (col : string) :
  forall vs c v,
    numeric_column df col = Some vs -> In c df -> part_get c col = Some (CNum v) ->
    In v vs.
Proof.
  induction df as [|p df IH]; intros vs c v H Hc Hv; [destruct Hc|].
  simpl in H.
  destruct (part_get p col) as [[q| |]|] eqn:Ep; try discriminate;
    destruct (numeric_column df col) as [ws|] eqn:En; try discriminate;
    inversion H; subst vs; clear H.
  - destruct Hc as [<-|Hc].
    + rewrite Ep in Hv. inversion Hv. now left.
    + right. eapply IH; eauto.
  - destruct Hc as [<-|Hc]; [congruence|]. eapply IH; eauto.
Qed.

Lemma dict_get_set_cases {V : Type} (d : list (string * V)) (k k' : string) (v x : V) :
  dict_get (dict_set d k v) k' = Some x ->
  (k = k' /\ x = v) \/ dict_get d k' = Some x.
Proof.
  destruct (String.eqb k k') eqn:E.
  - apply String.eqb_eq in E. subst. rewrite dict_get_set_same.
    intro H. inversion H. now left.
  - apply String.eqb_neq in E. rewrite dict_get_set_other by assumption. now right.
Qed.

(** Every range of the table has [min <= max]. *)
Lemma add_column_range_ordered (part_type : string) (df : DataFrame)
    (ranges : Ranges) (col : string) :
  (forall key mn mx, dict_get ranges key = Some (mn, mx) -> mn <= mx) ->
  forall key mn mx,
    dict_get (add_column_range part_type df ranges col) key = Some (mn, mx) -> mn <= mx.
Proof.
  intros Hinv key mn mx. unfold add_column_range.
  destruct (numeric_column df col) as [[|v vs]|]; try apply Hinv.
  intro H. apply dict_get_set_cases in H. destruct H as [[_ Heq]|H]; [|eapply Hinv; eauto].
  inversion Heq; subst.
  eapply Qle_trans; [apply (series_min_le vs v v)|apply (series_max_ge vs v v)];
    now left.
Qed.

Lemma fold_columns_ordered (part_type : string) (df : DataFrame) (cs : list string) :
  forall ranges,
    (forall key mn mx, dict_get ranges key = Some (mn, mx) -> mn <= mx) ->
    forall key mn mx,
      dict_get (fold_left (add_column_range part_type df) cs ranges) key = Some (mn, mx) ->
      mn <= mx.
Proof.
  induction cs as [|col cs IH]; intros ranges Hinv; simpl; [exact Hinv|].
  apply IH. now apply add_column_range_ordered.
Qed.

(** X15: every range recorded by [_precompute_normalization_ranges] has
    [min <= max]; so the selector's test [max_val - min_val > 0] fails only
    for a feature all of whose values are equal. *)
Theorem precompute_ranges_ordered (parts_data : Catalog) (key : string)
    (min_val max_val : Q) :
  dict_get (_precompute_normalization_ranges parts_data) key = Some (min_val, max_val) ->
  min_val <= max_val.
Proof.
  unfold _precompute_normalization_ranges.
  assert (Hgen : forall pd ranges,
             (forall k mn mx, dict_get ranges k = Some (mn, mx) -> mn <= mx) ->
             forall k mn mx,
               dict_get
                 (fold_left
                    (fun rs kv =>
                       fold_left (add_column_range (fst kv) (snd kv))
                                 (columns (snd kv)) rs) pd ranges) k
               = Some (mn, mx) -> mn <= mx).
  { induction pd as [|[pt df] pd IH]; intros ranges Hinv; simpl; [exact Hinv|].
    apply IH. now apply fold_columns_ordered. }
  apply Hgen. intros k mn mx H. discriminate H.
Qed.

Lemma precompute_ranges_ordered_witness :
  dict_get (_precompute_normalization_ranges demo_catalog) "CPU_coreCount"
  = Some (6, 12)
  /\ 6 <= 12.
Proof.
  assert (H : dict_get (_precompute_normalization_ranges demo_catalog) "CPU_coreCount"
              = Some (6, 12)) by reflexivity.
  split; [exact H|].
  exact (precompute_ranges_ordered demo_catalog "CPU_coreCount" 6 12 H).
Defined.

(** The keys ["<part_type>_<column>"] of different columns, and of
    different part files, differ. *)
Lemma append_inj_l (p s s' : string) : p ++ s = p ++ s' -> s = s'.
Proof.
  induction p as [|a p IH]; simpl; [tauto|]. intro H. inversion H. now apply IH.
Qed.

Lemma range_key_inj_col (part_type col col' : string) :
  part_type ++ "_" ++ col = part_type ++ "_" ++ col' -> col = col'.
Proof.
  intro H. apply append_inj_l in H. simpl in H. now inversion H.
Qed.

Lemma range_key_inj_part (part_type part_type' col col' : string) :
  In part_type PART_FILES -> In part_type' PART_FILES ->
  part_type ++ "_" ++ col = part_type' ++ "_" ++ col' ->
  part_type = part_type'.
Proof.
  unfold PART_FILES. intros H H' E. simpl in H, H'.
  repeat (destruct H as [<-|H]; [|]); try destruct H;
    repeat (destruct H' as [<-|H']; [|]); try destruct H';
    try reflexivity; simpl in E; discriminate E.
Qed.

(** The range a table records for one of its numeric columns. *)
Lemma fold_columns_records (part_type : string) (df : DataFrame) (col : string)
    (v : Q) (vs : list Q) (cs : list string) :
  numeric_column df col = Some (v :: vs) ->
  forall ranges,
    In col cs
    \/ dict_get ranges (part_type ++ "_" ++ col)
       = Some (series_min v vs, series_max v vs) ->
    dict_get (fold_left (add_column_range part_type df) cs ranges)
             (part_type ++ "_" ++ col)
    = Some (series_min v vs, series_max v vs).
Proof.
  intro Hnum. induction cs as [|c cs IH]; intros ranges H; simpl.
  - destruct H as [[]|H]. exact H.
  - apply IH. destruct (string_dec c col) as [->|Hne].
    + right. unfold add_column_range. rewrite Hnum. apply dict_get_set_same.
    + destruct H as [[Heq|Hin]|H]; [congruence|now left|right].
      unfold add_column_range.
      destruct (numeric_column df c) as [[|w ws]|]; try exact H.
      rewrite dict_get_set_other; [exact H|].
      intro E. apply range_key_inj_col in E. congruence.
Qed.

(** The columns of another part file leave it alone. *)
Lemma fold_columns_other (part_type part_type' : string) (df' : DataFrame)
    (col : string) (cs : list string) :
  In part_type PART_FILES -> In part_type' PART_FILES -> part_type <> part_type' ->
  forall ranges,
    dict_get (fold_left (add_column_range part_type' df') cs ranges)
             (part_type ++ "_" ++ col)
    = dict_get ranges (part_type ++ "_" ++ col).
Proof.
  intros Hp Hp' Hne. induction cs as [|c cs IH]; intro ranges; simpl; [reflexivity|].
  rewrite IH. unfold add_column_range.
  destruct (numeric_column df' c) as [[|w ws]|]; try reflexivity.
  apply dict_get_set_other. intro E.
  apply range_key_inj_part in E; [congruence|assumption|assumption].
Qed.

Lemma precompute_records (part_type : string) (df : DataFrame) (col : string)
    (v : Q) (vs : list Q) :
  In part_type PART_FILES ->
  In col (columns df) ->
  numeric_column df col = Some (v :: vs) ->
  forall parts_data ranges,
    NoDup (map fst parts_data) -> incl (map fst parts_data) PART_FILES ->
    In (part_type, df) parts_data
    \/ (~ In part_type (map fst parts_data)
        /\ dict_get ranges (part_type ++ "_" ++ col)
           = Some (series_min v vs, series_max v vs)) ->
    dict_get
      (fold_left
         (fun rs kv =>
            fold_left (add_column_range (fst kv) (snd kv)) (columns (snd kv)) rs)
         parts_data ranges)
      (part_type ++ "_" ++ col)
    = Some (series_min v vs, series_max v vs).
Proof.
  intros Hpt Hcol Hnum. induction parts_data as [|[pt0 df0] rest IH];
    intros ranges Hnd Hincl H; simpl.
  - destruct H as [[]|[_ H]]. exact H.
  - simpl in Hnd. inversion Hnd as [|x l Hnotin Hnd']; subst.
    assert (Hincl' : incl (map fst rest) PART_FILES).
    { intros k Hk. apply Hincl. now right. }
    apply IH; [exact Hnd'|exact Hincl'|].
    destruct H as [[Heq|Hin]|[Hnot Hget]].
    + inversion Heq; subst pt0 df0. right. split; [exact Hnotin|].
      apply fold_columns_records; [exact Hnum|now left].
    + now left.
    + right. split; [intro Hin; apply Hnot; now right|].
      rewrite fold_columns_other; [exact Hget|exact Hpt| |].
      * apply Hincl. now left.
      * intro E. apply Hnot. left. simpl. now subst.
Qed.

(** X16: for a catalog whose keys are distinct part-file names, the ranges
    of [_precompute_normalization_ranges] hold, for every numeric column of
    every table, a range containing all numbers of that column; with these
    ranges the selector rescales every such number into [[0,1]], so the raw
    value of a numeric column never enters a score. *)
Theorem precompute_ranges_cover (parts_data : Catalog) (part_type : string)
    (df : DataFrame) (c : Part) (col : string) (vs : list Q) (val : Q) :
  NoDup (map fst parts_data) -> incl (map fst parts_data) PART_FILES ->
  In (part_type, df) parts_data -> In c df ->
  In col (columns df) -> numeric_column df col = Some vs ->
  part_get c col = Some (CNum val) ->
  (exists min_val max_val,
      dict_get (_precompute_normalization_ranges parts_data) (part_type ++ "_" ++ col)
      = Some (min_val, max_val)
      /\ min_val <= val <= max_val)
  /\ 0 <= normalize (_precompute_normalization_ranges parts_data) part_type col val <= 1.
Proof.
  intros Hnd Hincl Hin Hc Hcol Hnum Hval.
  pose proof (numeric_column_In df col vs c val Hnum Hc Hval) as Hv.
  destruct vs as [|v vs]; [destruct Hv|].
  assert (Hpt : In part_type PART_FILES).
  { apply Hincl. apply in_map_iff. exists (part_type, df). auto. }
  assert (Hget : dict_get (_precompute_normalization_ranges parts_data)
                          (part_type ++ "_" ++ col)
                 = Some (series_min v vs, series_max v vs)).
  { unfold _precompute_normalization_ranges.
    apply (precompute_records part_type df col v vs); auto. }
  pose proof (series_min_le vs v val Hv) as Hlo.
  pose proof (series_max_ge vs v val Hv) as Hhi.
  split; [exists (series_min v vs), (series_max v vs); auto|].
  unfold normalize. rewrite Hget.
  destruct (Qltb 0 (series_max v vs - series_min v vs)) eqn:E.
  - apply Qltb_lt in E. split.
    + apply Qle_shift_div_l; [assumption|lra].
    + apply Qle_shift_div_r; [assumption|lra].
  - split; vm_compute; discriminate.
Qed.

Lemma precompute_ranges_cover_witness :
  0 <= normalize (_precompute_normalization_ranges demo_catalog) "CPU" "speed" 3.6 <= 1.
Proof.
  apply (precompute_ranges_cover demo_catalog "CPU" [cpu_am4; cpu_lga] cpu_am4 "speed"
           [3.6; 3.4] 3.6).
  - simpl. repeat (constructor; [simpl; intuition discriminate|]). constructor.
  - intros k Hk. exact Hk.
  - now left.
  - now left.
  - simpl. tauto.
  - reflexivity.
  - reflexivity.
Defined.

(** ** Loading the catalog *)

Lemma insert_by_price_sorted (p : Part) (l : DataFrame) :
  price_sorted l -> price_sorted (insert_by_price p l).
Proof.
  induction l as [|y t IH]; intro Hs; simpl.
  - split; [intros q []|exact I].
  - destruct Hs as [Hy Ht]. destruct (Qle_bool (price p) (price y)) eqn:E.
    + apply Qle_bool_iff in E. split; [|split; assumption].
      intros q [<-|Hq]; [exact E|]. eapply Qle_trans; [exact E|now apply Hy].
    + apply Qle_bool_false in E. split; [|apply IH, Ht].
      intros q Hq. apply insert_by_price_In in Hq. destruct Hq as [->|Hq].
      * now apply Qlt_le_weak.
      * now apply Hy.
Qed.

Lemma sort_values_price_sorted (df : DataFrame) : price_sorted (sort_values_price df).
Proof.
  unfold sort_values_price. induction df as [|p df IH]; simpl; [exact I|].
  now apply insert_by_price_sorted.
Qed.

Lemma dict_set_keys {V : Type} (d : list (string * V)) (k : string) (v : V) :
  map fst (dict_set d k v) = map fst d
  \/ (~ In k (map fst d) /\ map fst (dict_set d k v) = (map fst d ++ [k])%list).
Proof.
  destruct (dict_get d k) as [x|] eqn:E.
  - left. induction d as [|[k' v'] d IH]; [discriminate|]. simpl in *.
    destruct (String.eqb k' k) eqn:Ek; simpl; [reflexivity|]. now rewrite IH.
  - right. split; [now apply dict_get_None_keys|now apply dict_set_fresh_keys].
Qed.

Lemma dict_set_In {V : Type} (d : list (string * V)) (k k' : string) (v x : V) :
  In (k', x) (dict_set d k v) -> (k' = k /\ x = v) \/ In (k', x) d.
Proof.
  induction d as [|[k0 v0] d IH]; simpl.
  - intros [H|[]]. inversion H. now left.
  - destruct (String.eqb k0 k) eqn:E; simpl.
    + apply String.eqb_eq in E. subst k0. intros [H|H].
      * inversion H. now left.
      * right. now right.
    + intros [H|H]; [right; now left|].
      destruct (IH H) as [?|?]; [now left|right; now right].
Qed.

Lemma load_part_sorted (parse_number : string -> option Q) (rnd : string -> nat -> nat)
    (part : string) (raw : RawFrame) (df : DataFrame) :
  load_part parse_number rnd part raw = Some df -> price_sorted df.
Proof.
  unfold load_part.
  destruct (negb (has_column (raw_columns raw) "price")); [discriminate|].
  destruct (if String.eqb part "Motherboard"
            then add_dummy_features rnd
                   (raw_columns raw, dropna_price parse_number (raw_rows raw))
            else (raw_columns raw, dropna_price parse_number (raw_rows raw)))
    as [columns rows].
  destruct (forallb (has_column columns) ["name"; "price"; "image"]); [|discriminate].
  intro H. inversion H. apply sort_values_price_sorted.
Qed.

(** The loop over the part files keeps the keys distinct, adds only part
    names of the files, and keeps every table sorted. *)
Lemma load_all_parts_fold (files : string -> option RawFrame)
    (parse_number : string -> option Q) (rnd : string -> nat -> nat)
    (pfs : list (string * string)) :
  forall acc,
    NoDup (map fst acc) -> catalog_sorted acc ->
    NoDup (map fst
             (fold_left
                (fun parts_data pf =>
                   match files (snd pf) with
                   | Some raw =>
                       match load_part parse_number rnd (fst pf) raw with
                       | Some df => dict_set parts_data (fst pf) df
                       | None => parts_data
                       end
                   | None => parts_data
                   end) pfs acc))
    /\ incl (map fst
               (fold_left
                  (fun parts_data pf =>
                     match files (snd pf) with
                     | Some raw =>
                         match load_part parse_number rnd (fst pf) raw with
                         | Some df => dict_set parts_data (fst pf) df
                         | None => parts_data
                         end
                     | None => parts_data
                     end) pfs acc))
            (map fst acc ++ map fst pfs)%list
    /\ catalog_sorted
         (fold_left
            (fun parts_data pf =>
               match files (snd pf) with
               | Some raw =>
                   match load_part parse_number rnd (fst pf) raw with
                   | Some df => dict_set parts_data (fst pf) df
                   | None => parts_data
                   end
               | None => parts_data
               end) pfs acc).
Proof.
  induction pfs as [|[part filename] pfs IH]; intros acc Hnd Hs; simpl.
  - split; [exact Hnd|]. split; [|exact Hs].
    rewrite app_nil_r. apply incl_refl.
  - assert (Hstep : forall acc',
               NoDup (map fst acc') -> catalog_sorted acc' ->
               incl (map fst acc') (map fst acc ++ [part])%list ->
               let pd :=
                 fold_left
                   (fun parts_data pf =>
                      match files (snd pf) with
                      | Some raw =>
                          match load_part parse_number rnd (fst pf) raw with
                          | Some df => dict_set parts_data (fst pf) df
                          | None => parts_data
                          end
                      | None => parts_data
                      end) pfs acc' in
               NoDup (map fst pd)
               /\ incl (map fst pd) (map fst acc ++ part :: map fst pfs)%list
               /\ catalog_sorted pd).
    { intros acc' Hnd' Hs' Hincl'. destruct (IH acc' Hnd' Hs') as (H1 & H2 & H3).
      split; [exact H1|]. split; [|exact H3].
      intros k Hk. apply H2 in Hk. apply in_app_or in Hk. destruct Hk as [Hk|Hk].
      - apply Hincl' in Hk. apply in_app_or in Hk. apply in_or_app.
        destruct Hk as [Hk|[<-|[]]]; [now left|right; now left].
      - apply in_or_app. right. now right. }
    destruct (files filename) as [raw|];
      [|apply Hstep; [exact Hnd|exact Hs|apply incl_appl, incl_refl]].
    destruct (load_part parse_number rnd part raw) as [df|] eqn:El;
      [|apply Hstep; [exact Hnd|exact Hs|apply incl_appl, incl_refl]].
    cbn [fst snd]. apply Hstep.
    + destruct (dict_set_keys acc part df) as [->|[Hnot ->]]; [exact Hnd|].
      apply NoDup_app; [exact Hnd|repeat constructor; intros []|].
      intros k Hk [<-|[]]. contradiction.
    + intros k d Hin. apply dict_set_In in Hin. destruct Hin as [[_ ->]|Hin].
      * eapply load_part_sorted; exact El.
      * eapply Hs; exact Hin.
    + destruct (dict_set_keys acc part df) as [->|[_ ->]];
        [apply incl_appl, incl_refl|apply incl_refl].
Qed.

(** X17: the catalog [_load_all_parts] builds has distinct keys, all of
    them part names of [part_files], and each of its tables is sorted by
    ascending price. *)
Theorem load_all_parts_well_formed (files : string -> option RawFrame)
    (parse_number : string -> option Q) (rnd : string -> nat -> nat)
    (part_files : list (string * string)) :
  NoDup (map fst (_load_all_parts files parse_number rnd part_files))
  /\ incl (map fst (_load_all_parts files parse_number rnd part_files))
          (map fst part_files)
  /\ catalog_sorted (_load_all_parts files parse_number rnd part_files).
Proof.
  unfold _load_all_parts.
  destruct (load_all_parts_fold files parse_number rnd part_files [])
    as (Hnd & Hincl & Hs).
  - constructor.
  - intros k d [].
  - split; [exact Hnd|]. split; [exact Hincl|exact Hs].
Qed.

Lemma has_column_app (cs l : list string) (k : string) :
  has_column (cs ++ l)%list k = has_column cs k || has_column l k.
Proof. unfold has_column. apply existsb_app. Qed.

(** The dummy motherboard columns are appended to the columns of the
    file, and are none of the required columns. *)
Lemma add_dummy_fold_columns (rnd : string -> nat -> nat) (k : string)
    (fgs : list (string * (Z * Z))) :
  (forall fg, In fg fgs -> fst fg <> k) ->
  forall cs rows,
    has_column
      (fst (fold_left
              (fun cr fg =>
                 let '(columns, rows) := cr in
                 let '(feature, (low, high)) := fg in
                 if has_column columns feature then (columns, rows)
                 else ((columns ++ [feature])%list,
                       add_dummy_column (rnd feature) feature low high rows))
              fgs (cs, rows))) k
    = has_column cs k.
Proof.
  induction fgs as [|[feature [low high]] fgs IH]; intros Hne cs rows; [reflexivity|].
  cbn [fold_left].
  assert (Hk : String.eqb k feature = false).
  { apply String.eqb_neq. intro E. apply (Hne (feature, (low, high))); [now left|].
    now subst. }
  assert (Hrest : forall fg, In fg fgs -> fst fg <> k).
  { intros fg Hin. apply Hne. now right. }
  destruct (has_column cs feature).
  - now apply IH.
  - rewrite IH by exact Hrest. rewrite has_column_app. simpl. rewrite Hk.
    now rewrite !orb_false_r.
Qed.

Lemma add_dummy_features_columns (rnd : string -> nat -> nat) (cs : list string)
    (rows : DataFrame) (k : string) :
  In k ["name"; "price"; "image"] ->
  has_column (fst (add_dummy_features rnd (cs, rows))) k = has_column cs k.
Proof.
  intro Hk. unfold add_dummy_features. apply add_dummy_fold_columns.
  intros fg Hin E. unfold DUMMY_MOTHERBOARD_FEATURES in Hin. simpl in Hin, Hk.
  decompose [or] Hin; decompose [or] Hk; subst; try contradiction; discriminate.
Qed.

Lemma load_part_Some_iff (parse_number : string -> option Q)
    (rnd : string -> nat -> nat) (part : string) (raw : RawFrame) :
  (exists df, load_part parse_number rnd part raw = Some df)
  <-> forallb (has_column (raw_columns raw)) ["name"; "price"; "image"] = true.
Proof.
  unfold load_part.
  assert (Hreq : forall columns,
             (forall k, In k ["name"; "price"; "image"] ->
                        has_column columns k = has_column (raw_columns raw) k) ->
             forallb (has_column columns) ["name"; "price"; "image"]
             = forallb (has_column (raw_columns raw)) ["name"; "price"; "image"]).
  { intros columns H. cbn [forallb]. rewrite !H by (simpl; tauto). reflexivity. }
  destruct (has_column (raw_columns raw) "price") eqn:Ep; simpl negb; cbv iota.
  - destruct (String.eqb part "Motherboard").
    + destruct (add_dummy_features rnd
                  (raw_columns raw, dropna_price parse_number (raw_rows raw)))
        as [columns rows] eqn:Ea.
      rewrite (Hreq columns).
      * destruct (forallb (has_column (raw_columns raw)) ["name"; "price"; "image"]);
          split; try discriminate; eauto. intros [df H]. discriminate.
      * intros k Hk.
        replace columns with
          (fst (add_dummy_features rnd
                  (raw_columns raw, dropna_price parse_number (raw_rows raw))))
          by now rewrite Ea.
        now apply add_dummy_features_columns.
    + destruct (forallb (has_column (raw_columns raw)) ["name"; "price"; "image"]);
        split; try discriminate; eauto. intros [df H]. discriminate.
  - split; [intros [df H]; discriminate|].
    cbn [forallb]. rewrite Ep, andb_false_r. discriminate.
Qed.

Lemma dict_mem_set {V : Type} (d : list (string * V)) (k k' : string) (v : V) :
  dict_mem (dict_set d k v) k' = String.eqb k k' || dict_mem d k'.
Proof.
  unfold dict_mem. destruct (String.eqb k k') eqn:E.
  - apply String.eqb_eq in E. subst. now rewrite dict_get_set_same.
  - apply String.eqb_neq in E. now rewrite dict_get_set_other.
Qed.

(** X18: a part type is in the loaded catalog exactly when one of its
    files could be read and has the columns name, price and image; a
    missing file, an unreadable one, or one lacking a required column
    leaves the part type out (and nothing is raised). *)
Theorem load_all_parts_has_part_iff (files : string -> option RawFrame)
    (parse_number : string -> option Q) (rnd : string -> nat -> nat)
    (part_files : list (string * string)) (part : string) :
  dict_mem (_load_all_parts files parse_number rnd part_files) part = true
  <-> exists filename raw,
        In (part, filename) part_files /\ files filename = Some raw
        /\ forallb (has_column (raw_columns raw)) ["name"; "price"; "image"] = true.
Proof.
  unfold _load_all_parts.
  assert (Hgen : forall pfs acc,
             dict_mem
               (fold_left
                  (fun parts_data pf =>
                     match files (snd pf) with
                     | Some raw =>
                         match load_part parse_number rnd (fst pf) raw with
                         | Some df => dict_set parts_data (fst pf) df
                         | None => parts_data
                         end
                     | None => parts_data
                     end) pfs acc) part = true
             <-> dict_mem acc part = true
                 \/ exists filename raw,
                     In (part, filename) pfs /\ files filename = Some raw
                     /\ forallb (has_column (raw_columns raw)) ["name"; "price"; "image"]
                        = true).
  { induction pfs as [|[pt filename] pfs IH]; intro acc; simpl.
    - split; [now left|]. intros [H|(f & r & [] & _)]. exact H.
    - rewrite IH. clear IH.
      destruct (files filename) as [raw|] eqn:Ef.
      + destruct (load_part parse_number rnd pt raw) as [df|] eqn:El.
        * assert (Hok : forallb (has_column (raw_columns raw)) ["name"; "price"; "image"]
                        = true).
          { apply (load_part_Some_iff parse_number rnd pt raw). eauto. }
          rewrite dict_mem_set. split.
          -- intros [H|(f & r & Hin & Hf & Hr)].
             ++ apply orb_true_iff in H. destruct H as [H|H]; [|now left].
                apply String.eqb_eq in H. subst pt. right. exists filename, raw. auto.
             ++ right. exists f, r. auto.
          -- intros [H|(f & r & [Heq|Hin] & Hf & Hr)].
             ++ left. rewrite H. apply orb_true_r.
             ++ inversion Heq; subst. left. now rewrite String.eqb_refl.
             ++ right. exists f, r. auto.
        * split.
          -- intros [H|(f & r & Hin & Hf & Hr)]; [now left|right; exists f, r; auto].
          -- intros [H|(f & r & [Heq|Hin] & Hf & Hr)]; [now left| |right; exists f, r; auto].
             inversion Heq; subst. exfalso.
             rewrite Ef in Hf. inversion Hf; subst r.
             destruct (proj2 (load_part_Some_iff parse_number rnd part raw) Hr) as [df Hdf].
             congruence.
      + split.
        * intros [H|(f & r & Hin & Hf & Hr)]; [now left|right; exists f, r; auto].
        * intros [H|(f & r & [Heq|Hin] & Hf & Hr)]; [now left| |right; exists f, r; auto].
          inversion Heq; subst. congruence. }
  rewrite Hgen. split; [intros [H|H]; [discriminate H|exact H]|now right].
Qed.

Lemma load_all_parts_has_part_iff_witness :
  dict_mem (_load_all_parts demo_files (fun _ => None) (fun _ i => i) PART_FILE_NAMES)
           "CPU" = true
  /\ dict_mem (_load_all_parts demo_files (fun _ => None) (fun _ i => i) PART_FILE_NAMES)
              "Case" = false.
Proof.
  pose proof (load_all_parts_has_part_iff demo_files (fun _ => None) (fun _ i => i)
                PART_FILE_NAMES) as H.
  split.
  - apply H. exists "CPU.csv". eexists. split; [now left|]. split; reflexivity.
  - destruct (dict_mem _ "Case") eqn:E; [|reflexivity]. exfalso.
    apply H in E. destruct E as (f & r & Hin & Hf & Hr).
    simpl in Hin.
    repeat (destruct Hin as [Hin|Hin]; [inversion Hin; subst; try discriminate|]);
      try destruct Hin.
    vm_compute in Hf. inversion Hf; subst r. vm_compute in Hr. discriminate.
Defined.

Lemma dropna_price_prices (parse_number : string -> option Q)
    (rows : list (list (string * cell))) :
  map price (dropna_price parse_number rows) = numeric_prices parse_number rows.
Proof.
  induction rows as [|r rows IH]; [reflexivity|].
  cbn [dropna_price numeric_prices flat_map]. unfold coerce_row.
  destruct (dict_get r "price") as [c|]; [|exact IH].
  destruct (to_numeric parse_number c) as [q|]; [|exact IH].
  simpl. f_equal. exact IH.
Qed.

Lemma map_snd_combine_seq {A : Type} (l : list A) :
  forall a, map snd (combine (seq a (List.length l)) l) = l.
Proof.
  induction l as [|x l IH]; intro a; simpl; [reflexivity|]. now rewrite IH.
Qed.

Lemma add_dummy_column_prices (draws : nat -> nat) (feature : string) (low high : Z)
    (df : DataFrame) :
  map price (add_dummy_column draws feature low high df) = map price df.
Proof.
  unfold add_dummy_column. rewrite map_map. simpl.
  rewrite <- (map_map snd price). now rewrite map_snd_combine_seq.
Qed.

Lemma add_dummy_fold_prices (rnd : string -> nat -> nat)
    (fgs : list (string * (Z * Z))) :
  forall cs rows,
    map price
      (snd (fold_left
              (fun cr fg =>
                 let '(columns, rows) := cr in
                 let '(feature, (low, high)) := fg in
                 if has_column columns feature then (columns, rows)
                 else ((columns ++ [feature])%list,
                       add_dummy_column (rnd feature) feature low high rows))
              fgs (cs, rows)))
    = map price rows.
Proof.
  induction fgs as [|[feature [low high]] fgs IH]; intros cs rows; [reflexivity|].
  cbn [fold_left]. destruct (has_column cs feature); rewrite IH; [reflexivity|].
  apply add_dummy_column_prices.
Qed.

Lemma insert_by_price_perm (p : Part) (l : DataFrame) :
  Permutation (insert_by_price p l) (p :: l).
Proof.
  induction l as [|y t IH]; simpl; [apply Permutation_refl|].
  destruct (Qle_bool (price p) (price y)); [apply Permutation_refl|].
  apply Permutation_trans with (y :: p :: t); [now constructor|apply perm_swap].
Qed.

Lemma sort_values_price_perm (df : DataFrame) : Permutation (sort_values_price df) df.
Proof.
  induction df as [|p df IH]; simpl; [constructor|].
  apply Permutation_trans with (p :: sort_values_price df);
    [apply insert_by_price_perm|now constructor].
Qed.

(** X19: the loaded table has one row for every row of the file whose
    price cell spells a number, and no other: its prices are the numbers
    of these cells, each as often as it occurs in the file, rearranged.  A
    row whose price is missing or not a number is dropped, every other row
    is kept. *)
Theorem load_part_prices (parse_number : string -> option Q)
    (rnd : string -> nat -> nat) (part : string) (raw : RawFrame) (df : DataFrame) :
  load_part parse_number rnd part raw = Some df ->
  Permutation (map price df) (numeric_prices parse_number (raw_rows raw))
  /\ List.length df = List.length (numeric_prices parse_number (raw_rows raw)).
Proof.
  intro H.
  assert (Hp : Permutation (map price df)
                 (numeric_prices parse_number (raw_rows raw))).
  { revert H. unfold load_part.
    destruct (negb (has_column (raw_columns raw) "price")); [discriminate|].
    rewrite <- dropna_price_prices.
    destruct (String.eqb part "Motherboard").
    - destruct (add_dummy_features rnd
                  (raw_columns raw, dropna_price parse_number (raw_rows raw)))
        as [columns rows] eqn:Ea.
      destruct (forallb (has_column columns) ["name"; "price"; "image"]);
        [|discriminate].
      intro H. inversion H; subst df.
      apply Permutation_trans with (map price rows);
        [apply Permutation_map, sort_values_price_perm|].
      replace rows with
        (snd (add_dummy_features rnd
                (raw_columns raw, dropna_price parse_number (raw_rows raw))))
        by now rewrite Ea.
      unfold add_dummy_features. rewrite add_dummy_fold_prices. apply Permutation_refl.
    - destruct (forallb (has_column (raw_columns raw)) ["name"; "price"; "image"]);
        [|discriminate].
      intro H. inversion H; subst df. apply Permutation_map, sort_values_price_perm. }
  split; [exact Hp|].
  rewrite <- (length_map price df). now apply Permutation_length.
Qed.

Lemma load_part_prices_witness :
  exists df,
    load_part (fun _ => None) (fun _ i => i) "CPU"
      (mkRawFrame ["name"; "price"; "image"]
         [[("name", CStr "Core i7"); ("price", CNum 300); ("image", CStr "")];
          [("name", CStr "Mystery"); ("price", CStr "n/a"); ("image", CStr "")];
          [("name", CStr "Ryzen 5"); ("price", CNum 100); ("image", CStr "")];
          [("name", CStr "Ryzen 5 (boxed)"); ("price", CNum 100); ("image", CStr "")]])
    = Some df
    /\ Permutation (map price df) [300; 100; 100]
    /\ List.length df = 3%nat.
Proof.
  destruct (load_part (fun _ => None) (fun _ i => i) "CPU"
              (mkRawFrame ["name"; "price"; "image"]
                 [[("name", CStr "Core i7"); ("price", CNum 300); ("image", CStr "")];
                  [("name", CStr "Mystery"); ("price", CStr "n/a"); ("image", CStr "")];
                  [("name", CStr "Ryzen 5"); ("price", CNum 100); ("image", CStr "")];
                  [("name", CStr "Ryzen 5 (boxed)"); ("price", CNum 100);
                   ("image", CStr "")]]))
    as [df|] eqn:E; [|vm_compute in E; discriminate].
  exists df. split; [reflexivity|].
  exact (load_part_prices _ _ _ _ df E).
Defined.

Lemma randint_bounds (low high : Z) (draw : nat) :
  (low < high)%Z -> (low <= randint low high draw < high)%Z.
Proof.
  intro H. unfold randint.
  pose proof (Z.mod_pos_bound (Z.of_nat draw) (high - low)). lia.
Qed.

Lemma add_dummy_column_In (draws : nat -> nat) (feature : string) (low high : Z)
    (df : DataFrame) (p : Part) :
  In p (add_dummy_column draws feature low high df) ->
  exists i p0,
    In p0 df
    /\ p = mkPart (price p0)
                  (dict_set (cols p0) feature
                            (CNum (inject_Z (randint low high (draws i))))).
Proof.
  unfold add_dummy_column. intro H. apply in_map_iff in H.
  destruct H as ([i p0] & <- & Hin). apply in_combine_r in Hin.
  exists i, p0. auto.
Qed.

(** Columns added for other features leave a feature's cells alone. *)
Lemma add_dummy_fold_keeps (rnd : string -> nat -> nat) (feature : string)
    (P : cell -> Prop) (fgs : list (string * (Z * Z))) :
  (forall fg, In fg fgs -> fst fg <> feature) ->
  forall cs rows,
    (forall p, In p rows -> exists c, dict_get (cols p) feature = Some c /\ P c) ->
    forall p,
      In p (snd (fold_left
                   (fun cr fg =>
                      let '(columns, rows) := cr in
                      let '(feature, (low, high)) := fg in
                      if has_column columns feature then (columns, rows)
                      else ((columns ++ [feature])%list,
                            add_dummy_column (rnd feature) feature low high rows))
                   fgs (cs, rows))) ->
      exists c, dict_get (cols p) feature = Some c /\ P c.
Proof.
  induction fgs as [|[f0 [l0 h0]] fgs IH]; intros Hne cs rows Hrows p Hp;
    [now apply Hrows|].
  cbn [fold_left] in Hp.
  assert (Hrest : forall fg, In fg fgs -> fst fg <> feature).
  { intros fg Hin. apply Hne. now right. }
  assert (Hf0 : f0 <> feature) by (apply (Hne (f0, (l0, h0))); now left).
  destruct (has_column cs f0).
  - eapply IH; eauto.
  - eapply (IH Hrest); [|exact Hp].
    intros p1 Hp1. apply add_dummy_column_In in Hp1.
    destruct Hp1 as (i & p0 & Hp0 & ->). simpl.
    rewrite dict_get_set_other by exact Hf0. now apply Hrows.
Qed.

(** A feature missing from the columns gets a drawn number in every row. *)
Lemma add_dummy_fold_adds (rnd : string -> nat -> nat) (feature : string)
    (low high : Z) (fgs : list (string * (Z * Z))) :
  NoDup (map fst fgs) -> (low < high)%Z ->
  In (feature, (low, high)) fgs ->
  forall cs rows,
    has_column cs feature = false ->
    forall p,
      In p (snd (fold_left
                   (fun cr fg =>
                      let '(columns, rows) := cr in
                      let '(feature, (low, high)) := fg in
                      if has_column columns feature then (columns, rows)
                      else ((columns ++ [feature])%list,
                            add_dummy_column (rnd feature) feature low high rows))
                   fgs (cs, rows))) ->
      exists c, dict_get (cols p) feature = Some c
                /\ exists z, c = CNum (inject_Z z) /\ (low <= z < high)%Z.
Proof.
  intros Hnd Hlt. induction fgs as [|[f0 [l0 h0]] fgs IH]; intros Hin cs rows Hcol p Hp;
    [destruct Hin|].
  simpl in Hnd. inversion Hnd as [|x l Hnotin Hnd']; subst.
  cbn [fold_left] in Hp. destruct Hin as [Heq|Hin].
  - inversion Heq; subst f0 l0 h0. rewrite Hcol in Hp.
    eapply (add_dummy_fold_keeps rnd feature
              (fun c => exists z, c = CNum (inject_Z z) /\ (low <= z < high)%Z));
      [| |exact Hp].
    + intros fg Hfg E. apply Hnotin. apply in_map_iff. exists fg. auto.
    + intros p1 Hp1. apply add_dummy_column_In in Hp1.
      destruct Hp1 as (i & p0 & _ & ->). simpl. rewrite dict_get_set_same.
      eexists. split; [reflexivity|]. eexists. split; [reflexivity|].
      now apply randint_bounds.
  - assert (Hf0 : f0 <> feature).
    { intros ->. apply Hnotin. apply in_map_iff. exists (feature, (low, high)). auto. }
    destruct (has_column cs f0).
    + eapply (IH Hnd' Hin); eauto.
    + eapply (IH Hnd' Hin); [|exact Hp].
      rewrite has_column_app, Hcol. simpl.
      apply String.eqb_neq in Hf0. rewrite String.eqb_sym in Hf0.
      rewrite Hf0. reflexivity.
Qed.

(** X20: when the motherboard file lacks one of the columns sataPorts,
    pcieSlots or usbPorts, every row of the loaded motherboard table
    carries that column, with an integer within the bounds of its
    generator: 4..7, 2..4 and 6..11. *)
Theorem load_part_dummy_features (parse_number : string -> option Q)
    (rnd : string -> nat -> nat) (raw : RawFrame) (df : DataFrame)
    (feature : string) (low high : Z) (p : Part) :
  load_part parse_number rnd "Motherboard" raw = Some df ->
  In (feature, (low, high)) DUMMY_MOTHERBOARD_FEATURES ->
  has_column (raw_columns raw) feature = false ->
  In p df ->
  exists z, part_get p feature = Some (CNum (inject_Z z)) /\ (low <= z < high)%Z.
Proof.
  unfold load_part.
  destruct (negb (has_column (raw_columns raw) "price")); [discriminate|].
  rewrite String.eqb_refl.
  destruct (add_dummy_features rnd
              (raw_columns raw, dropna_price parse_number (raw_rows raw)))
    as [columns rows] eqn:Ea.
  destruct (forallb (has_column columns) ["name"; "price"; "image"]); [|discriminate].
  intros H Hf Hcol Hp. inversion H; subst df.
  apply (proj1 (sort_values_price_In _ _)) in Hp.
  replace rows with
    (snd (add_dummy_features rnd
            (raw_columns raw, dropna_price parse_number (raw_rows raw))))
    in Hp by now rewrite Ea.
  assert (Hlt : (low < high)%Z).
  { unfold DUMMY_MOTHERBOARD_FEATURES in Hf. simpl in Hf.
    decompose [or] Hf; try contradiction;
      match goal with E : (_, _) = (_, _) |- _ => inversion E; lia end. }
  assert (Hnp : String.eqb feature "price" = false).
  { unfold DUMMY_MOTHERBOARD_FEATURES in Hf. simpl in Hf.
    decompose [or] Hf; try contradiction;
      match goal with E : (_, _) = (_, _) |- _ => inversion E; reflexivity end. }
  assert (Hnd : NoDup (map fst DUMMY_MOTHERBOARD_FEATURES)).
  { simpl. repeat (constructor; [simpl; intuition discriminate|]). constructor. }
  unfold add_dummy_features in Hp.
  destruct (add_dummy_fold_adds rnd feature low high DUMMY_MOTHERBOARD_FEATURES
              Hnd Hlt Hf (raw_columns raw)
              (dropna_price parse_number (raw_rows raw)) Hcol p Hp)
    as (c & Hc & z & Hcz & Hz).
  exists z. split; [|exact Hz]. unfold part_get. rewrite Hnp, Hc. now rewrite Hcz.
Qed.

Lemma load_part_dummy_features_witness :
  exists df p z,
    load_part (fun _ => None) (fun _ i => (i * 7 + 3)%nat) "Motherboard"
      (mkRawFrame ["name"; "price"; "image"; "socket"; "usbPorts"]
         [[("name", CStr "B550"); ("price", CNum 80); ("image", CStr "");
           ("socket", CStr "AM4"); ("usbPorts", CNum 8)]]) = Some df
    /\ In p df
    /\ part_get p "sataPorts" = Some (CNum (inject_Z z)) /\ (4 <= z < 8)%Z.
Proof.
  destruct (load_part (fun _ => None) (fun _ i => (i * 7 + 3)%nat) "Motherboard"
              (mkRawFrame ["name"; "price"; "image"; "socket"; "usbPorts"]
                 [[("name", CStr "B550"); ("price", CNum 80); ("image", CStr "");
                   ("socket", CStr "AM4"); ("usbPorts", CNum 8)]]))
    as [[|p df]|] eqn:E; try (vm_compute in E; discriminate).
  destruct (load_part_dummy_features _ _ _ _ "sataPorts" 4%Z 8%Z p E) as (z & Hz & Hb).
  - now left.
  - reflexivity.
  - now left.
  - exists (p :: df), p, z. split; [reflexivity|]. split; [now left|]. auto.
Defined.

(** ** The backend object *)

Lemma numeric_column_price (df : DataFrame) :
  numeric_column df "price" = Some (map price df).
Proof.
  induction df as [|p df IH]; [reflexivity|].
  simpl. change (part_get p "price") with (Some (CNum (price p))).
  now rewrite IH.
Qed.

Lemma normalize_in_unit (ranges : Ranges) (part_type col : string)
    (min_val max_val val : Q) :
  dict_get ranges (part_type ++ "_" ++ col) = Some (min_val, max_val) ->
  min_val <= val <= max_val ->
  0 <= normalize ranges part_type col val <= 1.
Proof.
  intros Hget [Hlo Hhi]. unfold normalize. rewrite Hget.
  destruct (Qltb 0 (max_val - min_val)) eqn:E.
  - apply Qltb_lt in E. split.
    + apply Qle_shift_div_l; [assumption|lra].
    + apply Qle_shift_div_r; [assumption|lra].
  - split; vm_compute; discriminate.
Qed.

(** X21: in a backend built by [__init__], the ranges fit the catalog:
    for every part of every loaded table the price is rescaled into
    [[0,1]], and so is every number of a numeric column. *)
Theorem backend_init_ranges_fit (files : string -> option RawFrame)
    (parse_number : string -> option Q) (rnd : string -> nat -> nat)
    (model_files : string -> option (option Model)) (part_type : string) (df : DataFrame)
    (c : Part) :
  In (part_type, df)
     (self_parts_data (Backend_init files parse_number rnd model_files)) ->
  In c df ->
  0 <= normalize (self_normalization_ranges
                    (Backend_init files parse_number rnd model_files))
                 part_type "price" (price c) <= 1
  /\ forall col vs val,
       In col (columns df) -> numeric_column df col = Some vs ->
       part_get c col = Some (CNum val) ->
       0 <= normalize (self_normalization_ranges
                         (Backend_init files parse_number rnd model_files))
                      part_type col val <= 1.
Proof.
  unfold Backend_init. cbn [self_parts_data self_normalization_ranges].
  set (pd := _load_all_parts files parse_number rnd PART_FILE_NAMES).
  intros Hin Hc.
  assert (Hwf : NoDup (map fst pd) /\ incl (map fst pd) PART_FILES).
  { unfold pd, _load_all_parts.
    destruct (load_all_parts_fold files parse_number rnd PART_FILE_NAMES [])
      as (Hnd & Hincl & _); [constructor|intros k d []|]. auto. }
  destruct Hwf as [Hnd Hincl].
  assert (Hpt : In part_type PART_FILES).
  { apply Hincl. apply in_map_iff. exists (part_type, df). auto. }
  assert (Hgen : forall col vs val,
             In col (columns df) -> numeric_column df col = Some vs ->
             part_get c col = Some (CNum val) ->
             0 <= normalize (_precompute_normalization_ranges pd) part_type col val <= 1).
  { intros col vs val Hcol Hnum Hval.
    pose proof (numeric_column_In df col vs c val Hnum Hc Hval) as Hv.
    destruct vs as [|v vs]; [destruct Hv|].
    apply (normalize_in_unit _ _ _ (series_min v vs) (series_max v vs)).
    - unfold _precompute_normalization_ranges.
      apply (precompute_records part_type df col v vs); auto.
    - split; [now apply series_min_le|now apply series_max_ge]. }
  split; [|exact Hgen].
  apply (Hgen "price" (map price df) (price c)).
  - destruct df as [|p df']; [destruct Hc|]. now left.
  - apply numeric_column_price.
  - reflexivity.
Qed.

Lemma backend_init_ranges_fit_witness :
  0 <= normalize (self_normalization_ranges
                    (Backend_init demo_files (fun _ => None) (fun _ i => i)
                                  (fun _ => None)))
                 "CPU" "price" 300 <= 1.
Proof.
  destruct (backend_init_ranges_fit demo_files (fun _ => None) (fun _ i => i)
              (fun _ => None) "CPU"
              [mkPart 100 [("name", CStr "Ryzen 5"); ("image", CStr "");
                           ("socket", CStr "AM4")];
               mkPart 300 [("name", CStr "Core i7"); ("image", CStr "");
                           ("socket", CStr "LGA1700")]]
              (mkPart 300 [("name", CStr "Core i7"); ("image", CStr "");
                           ("socket", CStr "LGA1700")])) as [H _].
  - vm_compute. left. reflexivity.
  - right. now left.
  - exact H.
Defined.

Example model_file_name_content_creation :
  model_file_name "Content Creation" = "rf_content_creation.pkl".
Proof. reflexivity. Qed.

Lemma load_ml_models_fold (model_files : string -> option (option Model))
    (l : list string) (acc : Models) (scenario : string) :
  dict_get
    (fold_left
       (fun ml_models scenario =>
          match model_files (model_file_name scenario) with
          | Some loaded => dict_set ml_models scenario loaded
          | None => ml_models
          end) l acc) scenario
  = match dict_get acc scenario with
    | Some v => if existsb (String.eqb scenario) l
                then match model_files (model_file_name scenario) with
                     | Some loaded => Some loaded
                     | None => Some v
                     end
                else Some v
    | None => if existsb (String.eqb scenario) l
              then model_files (model_file_name scenario)
              else None
    end.
Proof.
  revert acc. induction l as [|s l IH]; intro acc; simpl.
  - now destruct (dict_get acc scenario).
  - rewrite IH. destruct (String.eqb scenario s) eqn:E; simpl.
    + apply String.eqb_eq in E. subst s.
      destruct (model_files (model_file_name scenario)) as [m|] eqn:Em.
      * rewrite dict_get_set_same.
        now destruct (existsb (String.eqb scenario) l), (dict_get acc scenario).
      * destruct (dict_get acc scenario); simpl;
          now destruct (existsb (String.eqb scenario) l).
    + apply String.eqb_neq in E.
      destruct (model_files (model_file_name s)) as [m|]; [|reflexivity].
      rewrite dict_get_set_other by congruence. reflexivity.
Qed.

Lemma load_ml_models_get (model_files : string -> option (option Model))
    (scenario : string) :
  dict_get (_load_ml_models model_files) scenario
  = if existsb (String.eqb scenario) scenarios_to_load
    then model_files (model_file_name scenario)
    else None.
Proof. unfold _load_ml_models. now rewrite load_ml_models_fold. Qed.

(** X22: [_load_ml_models] holds an entry for a scenario exactly when the
    scenario is one of the five listed ones and [joblib.load] returned for
    its file [rf_<scenario in lower case, blanks as underscores>.pkl]; the
    entry is the loaded object, be it a model or [None].  The sampling
    assembler then works for a scenario exactly on a model so loaded: for
    every other scenario, and for a file that holds [None], it returns the
    empty list. *)
Theorem load_ml_models_lookup (model_files : string -> option (option Model))
    (scenario : string) :
  (forall stored,
      dict_get (_load_ml_models model_files) scenario = Some stored <->
      In scenario scenarios_to_load
      /\ model_files (model_file_name scenario) = Some stored)
  /\ forall parts_data rand budget num_samples top_n,
       (forall model, ~ (In scenario scenarios_to_load
                         /\ model_files (model_file_name scenario) = Some (Some model))) ->
       generate_ml_based_recommendations (_load_ml_models model_files) parts_data rand
         budget scenario num_samples top_n = Ok [].
Proof.
  assert (Hlook : forall stored,
             dict_get (_load_ml_models model_files) scenario = Some stored <->
             In scenario scenarios_to_load
             /\ model_files (model_file_name scenario) = Some stored).
  { intro stored. rewrite load_ml_models_get. split.
    - destruct (existsb (String.eqb scenario) scenarios_to_load) eqn:E; [|discriminate].
      apply existsb_exists in E. destruct E as (s & Hs & E).
      apply String.eqb_eq in E. subst s. intro H. now split.
    - intros [Hin Hm].
      assert (E : existsb (String.eqb scenario) scenarios_to_load = true).
      { apply existsb_exists. exists scenario. split; [exact Hin|apply String.eqb_refl]. }
      now rewrite E. }
  split; [exact Hlook|].
  intros parts_data rand budget num_samples top_n Hnone.
  unfold generate_ml_based_recommendations.
  destruct (dict_get (_load_ml_models model_files) scenario) as [[model|]|] eqn:E;
    try reflexivity.
  exfalso. apply (Hnone model). now apply Hlook.
Qed.

(** X23: a scenario outside the five known ones.  The smart assembler
    takes the weights and the budget shares of General Use, so it returns
    what it returns for General Use; the sampling assembler of an
    initialised backend has no model for it and returns the empty list. *)
Theorem unknown_scenario_behaviour (files : string -> option RawFrame)
    (parse_number : string -> option Q) (rnd : string -> nat -> nat)
    (model_files : string -> option (option Model)) (catalog : Catalog) (ranges : Ranges)
    (rand : nat -> nat -> nat) (scenario : string) (budget : Q)
    (num_samples top_n : Z) :
  ~ In scenario scenarios_to_load ->
  generate_smart_recommendation_rule_based catalog ranges scenario budget
  = generate_smart_recommendation_rule_based catalog ranges "General Use" budget
  /\ generate_ml_based_recommendations
       (self_ml_models (Backend_init files parse_number rnd model_files))
       catalog rand budget scenario num_samples top_n = Ok [].
Proof.
  intro Hnot. split.
  - assert (Hw : get_or feature_weights scenario general_use_weights
                 = get_or feature_weights "General Use" general_use_weights).
    { unfold get_or at 1.
      rewrite (proj2 (dict_get_None_keys feature_weights scenario) Hnot).
      reflexivity. }
    assert (Ha : get_or budget_allocation_priority scenario general_use_allocations
                 = get_or budget_allocation_priority "General Use"
                     general_use_allocations).
    { unfold get_or at 1.
      rewrite (proj2 (dict_get_None_keys budget_allocation_priority scenario) Hnot).
      reflexivity. }
    unfold generate_smart_recommendation_rule_based. rewrite Hw, Ha. reflexivity.
  - unfold generate_ml_based_recommendations, Backend_init.
    cbn [self_ml_models]. rewrite load_ml_models_get.
    destruct (existsb (String.eqb scenario) scenarios_to_load) eqn:E; [|reflexivity].
    apply existsb_exists in E. destruct E as (s & Hs & E).
    apply String.eqb_eq in E. subst s. contradiction.
Qed.

Lemma unknown_scenario_behaviour_witness :
  generate_smart_recommendation_rule_based demo_catalog demo_ranges "Streaming" 2000
  = generate_smart_recommendation_rule_based demo_catalog demo_ranges "General Use" 2000
  /\ generate_ml_based_recommendations
       (self_ml_models (Backend_init demo_files (fun _ => None) (fun _ i => i)
                                     (fun _ => Some (Some flat_model))))
       demo_catalog zero_rand 2000 "Streaming" 50 3 = Ok [].
Proof.
  apply (unknown_scenario_behaviour demo_files (fun _ => None) (fun _ i => i)
           (fun _ => Some (Some flat_model)) demo_catalog demo_ranges zero_rand
           "Streaming" 2000 50 3).
  simpl. intuition discriminate.
Defined.

(** ** Text wrapping *)

Lemma split_space_nonempty text : split_space text <> [].
Proof.
  destruct text as [|a rest]; simpl; [discriminate|].
  destruct (is_space a); [discriminate|]. destruct (split_space rest); discriminate.
Qed.

Lemma join_split text : join_space (split_space text) = text.
Proof.
  induction text as [|a rest IH]; [reflexivity|].
  simpl split_space. destruct (is_space a) eqn:E.
  - unfold is_space in E. apply Ascii.eqb_eq in E. subst a.
    pose proof (split_space_nonempty rest) as Hne.
    destruct (split_space rest) as [|w ws]; [congruence|].
    cbn [join_space]. cbn [join_space] in IH. rewrite IH. reflexivity.
  - pose proof (split_space_nonempty rest) as Hne.
    destruct (split_space rest) as [|w ws]; [congruence|].
    destruct ws as [|w' ws]; simpl in *; now rewrite IH.
Qed.

Lemma join_space_cons w l : l <> [] ->
  join_space (w :: l) = w ++ String (Ascii.ascii_of_nat 32) (join_space l).
Proof. destruct l; [congruence|reflexivity]. Qed.

Lemma string_app_assoc (a b c : string) : (a ++ b) ++ c = a ++ (b ++ c).
Proof. induction a; simpl; congruence. Qed.

Lemma join_space_app l1 l2 : l1 <> [] -> l2 <> [] ->
  join_space (l1 ++ l2) = join_space l1 ++ String (Ascii.ascii_of_nat 32) (join_space l2).
Proof.
  induction l1 as [|w l1 IH]; [congruence|]. intros _ H2.
  destruct l1 as [|w' l1].
  - simpl app. now rewrite join_space_cons.
  - change ((w :: w' :: l1) ++ l2)%list with (w :: ((w' :: l1) ++ l2))%list.
    rewrite join_space_cons by discriminate.
    rewrite IH by (discriminate || assumption).
    rewrite (join_space_cons w (w' :: l1)) by discriminate.
    rewrite string_app_assoc. reflexivity.
Qed.

Lemma wrap_loop_join max words : forall lines cur n,
  cur <> [] ->
  exists ls,
    ls <> [] /\
    (let '(lines', cur', _) := fold_left (wrap_step max) words (lines, cur, n) in
     (lines' ++ [join_space cur'])%list) = (lines ++ ls)%list
    /\ join_space ls = join_space (cur ++ words).
Proof.
  induction words as [|w words IH]; intros lines cur n Hcur.
  - exists [join_space cur]. split; [discriminate|]. split; [reflexivity|].
    now rewrite app_nil_r.
  - cbn [fold_left]. unfold wrap_step at 2.
    destruct (_ <=? max)%Z.
    + destruct (IH lines (cur ++ [w])%list
                  (n + (len w + sep_len (cur ++ [w])))%Z) as (ls & Hne & Heq & Hj).
      { destruct cur; simpl; discriminate. }
      exists ls. split; [exact Hne|]. split; [exact Heq|].
      rewrite Hj, <- app_assoc. reflexivity.
    + destruct (IH (lines ++ [join_space cur])%list [w] (len w)) as (ls & Hne & Heq & Hj).
      { discriminate. }
      exists (join_space cur :: ls). split; [discriminate|]. split.
      * rewrite Heq, <- app_assoc. reflexivity.
      * rewrite join_space_cons by assumption. rewrite Hj.
        rewrite (join_space_app cur (w :: words)) by (assumption || discriminate).
        reflexivity.
Qed.

Lemma wrap_step_first (max : Z) (w : string) :
  wrap_step max ([], [], 0%Z) w
  = if (len w <=? max)%Z then ([], [w], (len w + 1)%Z) else ([""], [w], len w).
Proof.
  unfold wrap_step. simpl sep_len. replace (0 + len w + 0)%Z with (len w) by lia.
  destruct (len w <=? max)%Z; reflexivity.
Qed.

(** X24: joining the lines of [_wrap_text] with blanks gives the text back
    when its first word fits in a line.  When the first word is longer than
    the limit, the result starts with an empty line, and the remaining
    lines joined with blanks give the text back. *)
Theorem wrap_text_round_trip (text : string) (max : Z) :
  ((len (hd "" (split_space text)) <= max)%Z ->
   join_space (_wrap_text text max) = text)
  /\ (text <> "" -> (max < len (hd "" (split_space text)))%Z ->
      exists ls, _wrap_text text max = "" :: ls /\ join_space ls = text).
Proof.
  destruct text as [|a rest]; [split; [reflexivity|congruence]|].
  unfold _wrap_text.
  pose proof (join_split (String a rest)) as Hjs.
  pose proof (split_space_nonempty (String a rest)) as Hne.
  destruct (split_space (String a rest)) as [|w words]; [congruence|].
  cbn [hd fold_left]. rewrite wrap_step_first. split.
  - intro Hfit. destruct (Z.leb_spec (len w) max) as [_|Hgt]; [|lia].
    destruct (wrap_loop_join max words [] [w] (len w + 1)%Z)
      as (ls & _ & Heq & Hj); [discriminate|].
    rewrite Heq. simpl app. rewrite Hj. exact Hjs.
  - intros _ Hlong. destruct (Z.leb_spec (len w) max) as [Hle|_]; [lia|].
    destruct (wrap_loop_join max words [""] [w] (len w))
      as (ls & _ & Heq & Hj); [discriminate|].
    exists ls. split; [exact Heq|]. rewrite Hj. exact Hjs.
Qed.

Lemma string_length_app (a b : string) :
  String.length (a ++ b) = (String.length a + String.length b)%nat.
Proof. induction a; simpl; congruence. Qed.

Lemma wrap_loop_width (max : Z) (text : string) (words : list string) :
  forall lines cur n,
    (forall w, In w words -> In w (split_space text)) ->
    (forall l, In l lines -> line_ok max text l) ->
    cur <> [] ->
    (len (join_space cur) <= n)%Z ->
    ((len (join_space cur) <= max)%Z \/ exists w, cur = [w] /\ In w (split_space text)) ->
    forall lines' cur' n',
      fold_left (wrap_step max) words (lines, cur, n) = (lines', cur', n') ->
      forall l, In l (lines' ++ [join_space cur'])%list -> line_ok max text l.
Proof.
  induction words as [|w words IH]; intros lines cur n Hws Hlines Hcur Hn Hok
    lines' cur' n' Hfold l Hl.
  - simpl in Hfold. inversion Hfold; subst. apply in_app_or in Hl.
    destruct Hl as [Hl|[<-|[]]]; [now apply Hlines|].
    destruct Hok as [Hok|(w & -> & Hw)]; [now left|now right].
  - cbn [fold_left] in Hfold. unfold wrap_step at 2 in Hfold.
    assert (Hsep : sep_len cur = 1%Z) by (destruct cur; [congruence|reflexivity]).
    assert (Hsep' : sep_len (cur ++ [w]) = 1%Z) by (destruct cur; reflexivity).
    rewrite Hsep, Hsep' in Hfold.
    assert (Hws' : forall w', In w' words -> In w' (split_space text))
      by (intros w' Hw'; apply Hws; now right).
    destruct (Z.leb_spec (n + len w + 1)%Z max) as [Hfit|Hlong].
    + assert (Hlen : len (join_space (cur ++ [w])) = (len (join_space cur) + 1 + len w)%Z).
      { rewrite join_space_app by (assumption || discriminate).
        unfold len. rewrite string_length_app. simpl. lia. }
      eapply (IH lines (cur ++ [w])%list (n + (len w + 1))%Z); try eassumption.
      * intro H. apply app_eq_nil in H. destruct H. discriminate.
      * lia.
      * left. lia.
    + eapply (IH (lines ++ [join_space cur])%list [w] (len w)); try eassumption.
      * intros l' Hl'. apply in_app_or in Hl'.
        destruct Hl' as [Hl'|[<-|[]]]; [now apply Hlines|].
        destruct Hok as [Hok|(w0 & -> & Hw0)]; [now left|now right].
      * discriminate.
      * simpl. lia.
      * right. exists w. split; [reflexivity|]. apply Hws. now left.
Qed.

(** X25: with a limit that is not negative, every line of [_wrap_text] is
    at most [max_chars_per_line] characters long, or is a single word of
    the text (one that is too long to fit). *)
Theorem wrap_text_line_width (text : string) (max : Z) (line : string) :
  (0 <= max)%Z ->
  In line (_wrap_text text max) ->
  (len line <= max)%Z \/ In line (split_space text).
Proof.
  intros Hmax Hin. fold (line_ok max text line).
  destruct text as [|a rest].
  - destruct Hin as [<-|[]]. now left.
  - unfold _wrap_text in Hin.
    pose proof (fun w (H : In w (split_space (String a rest))) => H) as Hws.
    pose proof (split_space_nonempty (String a rest)) as Hne.
    destruct (split_space (String a rest)) as [|w words] eqn:Es; [congruence|].
    cbn [fold_left] in Hin. rewrite wrap_step_first in Hin.
    destruct (Z.leb_spec (len w) max) as [Hfit|Hlong].
    + destruct (fold_left (wrap_step max) words ([], [w], (len w + 1)%Z))
        as [[lines' cur'] n'] eqn:Ef.
      eapply (wrap_loop_width max (String a rest) words [] [w]); try exact Ef; try exact Hin.
      * intros w' Hw'. rewrite Es. now right.
      * intros l [].
      * discriminate.
      * simpl. lia.
      * left. exact Hfit.
    + destruct (fold_left (wrap_step max) words ([""], [w], len w))
        as [[lines' cur'] n'] eqn:Ef.
      eapply (wrap_loop_width max (String a rest) words [""] [w]); try exact Ef; try exact Hin.
      * intros w' Hw'. rewrite Es. now right.
      * intros l [<-|[]]. left. exact Hmax.
      * discriminate.
      * simpl. lia.
      * right. exists w. split; [reflexivity|]. rewrite Es. now left.
Qed.

Lemma wrap_text_line_width_witness :
  (len "quiet" <= 10)%Z \/ In "quiet" (split_space "fast quiet build").
Proof.
  apply (wrap_text_line_width "fast quiet build" 10 "quiet"); [lia|].
  vm_compute. right. left. reflexivity.
Defined.
